(** * slidepy: a shallow embedding of the report generator

    The development follows the three source modules of the package:
    [slidepy/slides.py] (the slide factory and its five variants),
    [slidepy/app.py] (the [generate] driver) and [slidepy/cli.py] (the
    docstring-driven command-line dispatcher).

    The third-party collaborators (python-pptx, matplotlib, numpy,
    typeguard, argparse, docstring_parser, the file system) are not part of
    the package.  What the package observes of them is modelled explicitly:
    the file system and the loaders are oracles of a [World], the document
    and the pyplot figure are plain records threaded through a state and
    exception monad, and typeguard's checker is written out for the type
    hints the package uses. *)

From Stdlib Require Import String Ascii List ZArith QArith_base Bool Lia.
Import ListNotations.
Close Scope Q_scope.
Open Scope string_scope.
Open Scope list_scope.

Set Warnings "-register-all".

(* ===================================================================== *)
(** ** Python values *)
(* ===================================================================== *)

(** What [json.load] can produce.  A JSON object becomes a Python [dict]:
    insertion ordered, at most one entry per key. *)
Inductive json : Type :=
| JNull
| JBool (b : bool)
| JInt (z : Z)
| JFloat (q : Q)
| JStr (s : string)
| JArr (items : list json)
| JObj (entries : list (string * json)).

Definition pydict := list (string * json).

(** [d.get(k)] *)
Fixpoint dict_get (k : string) (d : pydict) : option json :=
  match d with
  | [] => None
  | (k', v) :: d' => if String.eqb k k' then Some v else dict_get k d'
  end.

(** [del d[k]]: the entry of [k] is dropped, the order of the others kept. *)
Fixpoint dict_del (k : string) (d : pydict) : pydict :=
  match d with
  | [] => []
  | (k', v) :: d' =>
      if String.eqb k k' then dict_del k d' else (k', v) :: dict_del k d'
  end.

(** [d.pop(k)]: the value and the dict without the key, [None] when the key
    is absent (Python raises [KeyError] there). *)
Definition dict_pop (k : string) (d : pydict) : option (json * pydict) :=
  match dict_get k d with
  | Some v => Some (v, dict_del k d)
  | None => None
  end.

Definition dict_keys (d : pydict) : list string := map fst d.

Definition mem_string (k : string) (l : list string) : bool :=
  existsb (String.eqb k) l.

(** Pieces of an f-string: literal text and interpolated values. *)
Inductive piece : Type :=
| Lit (s : string)
| Val (v : json)
| Num (n : nat).

Definition message := list piece.

(** The double quote character, as a string. *)
Definition dquote : string := String (ascii_of_nat 34) EmptyString.

(** What typeguard reports: the failed check and the path to it. *)
Inductive tc_failure : Type :=
| NotInstance (expected : string)
| NotADict
| NotAList
| ExtraKeys (ks : list string)
| MissingKeys (ks : list string)
| AtKey (k : string) (f : tc_failure)
| AtItem (i : nat) (f : tc_failure)
| AtArgument (name : string) (f : tc_failure).

(** The exception classes that occur.  [JSONDecodeError] is a subclass of
    [ValueError]; [TypeCheckError] derives from [Exception] directly;
    [SystemExit] carries argparse's exit status. *)
Inductive exn : Type :=
| AttributeError (args : message)
| TypeError (args : message)
| IndexError (args : message)
| KeyError (key : string)
| ValueError (args : message)
| JSONDecodeError (args : message)
| OSError (args : message)
| TypeCheckError (f : tc_failure)
| ArgumentError (args : message)
| SystemExit (status : Z) (args : message).

Definition is_OSError (e : exn) : bool :=
  match e with OSError _ => true | _ => false end.

Definition is_JSONDecodeError (e : exn) : bool :=
  match e with JSONDecodeError _ => true | _ => false end.

Definition is_ValueError (e : exn) : bool :=
  match e with ValueError _ | JSONDecodeError _ => true | _ => false end.

Definition is_KeyError (e : exn) : bool :=
  match e with KeyError _ => true | _ => false end.

Definition is_TypeError (e : exn) : bool :=
  match e with TypeError _ => true | _ => false end.

Definition is_TypeCheckError (e : exn) : bool :=
  match e with TypeCheckError _ => true | _ => false end.

(** [v[k]] for a string key [k]. *)
Definition subscript (v : json) (k : string) : exn + json :=
  match v with
  | JObj d =>
      match dict_get k d with
      | Some x => inr x
      | None => inl (KeyError k)
      end
  | _ => inl (TypeError [Lit "indices must be integers, or object is not subscriptable"])
  end.

(** Python's [int] includes [bool]: [True == 1], [False == 0]. *)
Definition as_int (v : json) : option Z :=
  match v with
  | JInt z => Some z
  | JBool b => Some (Z.b2z b)
  | _ => None
  end.

Definition as_str (v : json) : option string :=
  match v with
  | JStr s => Some s
  | _ => None
  end.

(* ===================================================================== *)
(** ** typeguard *)
(* ===================================================================== *)

Module Typeguard.

(** [CollectionCheckStrategy]: how many items of a collection are checked.
    The field [collection_check_strategy] of typeguard's
    [TypeCheckConfiguration] defaults to [FIRST_ITEM] (typeguard checks
    "only the first item" of a list unless told otherwise), and neither
    [check_type(data, Config)] in app.py nor [@typechecked] in slides.py
    overrides it.  The versions of typeguard that have [TypeCheckError],
    which app.py catches, all have this default. *)
Inductive CollectionCheckStrategy : Type :=
| FIRST_ITEM
| ALL_ITEMS.

Definition iterate_samples {A : Type} (st : CollectionCheckStrategy)
  (collection : list A) : list A :=
  match st with
  | FIRST_ITEM => firstn 1 collection
  | ALL_ITEMS => collection
  end.

Definition default_strategy : CollectionCheckStrategy := FIRST_ITEM.

(** The type hints of the package: [str], [int], [dict], [list[T]] and a
    total [TypedDict] given by its annotations. *)
Inductive hint : Type :=
| HStr
| HInt
| HDict
| HList (item : hint)
| HTypedDict (fields : list (string * hint)).

Definition check_instance (h : hint) (v : json) : option tc_failure :=
  match h, v with
  | HStr, JStr _ => None
  | HStr, _ => Some (NotInstance "str")
  | HInt, JInt _ => None
  | HInt, JBool _ => None
  | HInt, _ => Some (NotInstance "int")
  | HDict, JObj _ => None
  | HDict, _ => Some NotADict
  | _, _ => None
  end.

(** First failure of [chk] over the samples, tagged with the item index. *)
Fixpoint check_items (chk : json -> option tc_failure) (i : nat)
  (samples : list json) : option tc_failure :=
  match samples with
  | [] => None
  | v :: rest =>
      match chk v with
      | Some f => Some (AtItem i f)
      | None => check_items chk (S i) rest
      end
  end.

(** [check_type_internal]: [None] when the value passes.  A [TypedDict] is
    checked for extra keys, then for missing keys, then value by value in
    annotation order. *)
Fixpoint check (st : CollectionCheckStrategy) (h : hint) (v : json)
  : option tc_failure :=
  match h with
  | HList item =>
      match v with
      | JArr items => check_items (check st item) 0 (iterate_samples st items)
      | _ => Some NotAList
      end
  | HTypedDict fields =>
      match v with
      | JObj d =>
          let declared := map fst fields in
          let extra := filter (fun k => negb (mem_string k declared)) (dict_keys d) in
          let missing := filter (fun k => negb (mem_string k (dict_keys d))) declared in
          match extra, missing with
          | _ :: _, _ => Some (ExtraKeys extra)
          | [], _ :: _ => Some (MissingKeys missing)
          | [], [] =>
              (fix values (fs : list (string * hint)) : option tc_failure :=
                 match fs with
                 | [] => None
                 | (k, hk) :: fs' =>
                     match dict_get k d with
                     | None => values fs'
                     | Some x =>
                         match check st hk x with
                         | Some f => Some (AtKey k f)
                         | None => values fs'
                         end
                     end
                 end) fields
          end
      | _ => Some NotADict
      end
  | _ => check_instance h v
  end.

(** [typeguard.check_type(value, expected_type)] with the default
    configuration. *)
Definition check_type (v : json) (h : hint) : exn + unit :=
  match check default_strategy h v with
  | Some f => inl (TypeCheckError f)
  | None => inr tt
  end.

(** The argument checks [@typechecked] adds to a function: annotated
    parameters in signature order. *)
Fixpoint check_arguments (args : list (string * hint * json)) : exn + unit :=
  match args with
  | [] => inr tt
  | (name, h, v) :: rest =>
      match check default_strategy h v with
      | Some f => inl (TypeCheckError (AtArgument name f))
      | None => check_arguments rest
      end
  end.

End Typeguard.

(* ===================================================================== *)
(** ** The collaborators: document, figure, files *)
(* ===================================================================== *)

(** [numpy.loadtxt] yields a one-dimensional array for a file of a single
    row or column and a two-dimensional one otherwise. *)
Inductive ndarray : Type :=
| Array1 (xs : list Q)
| Array2 (rows : list (list Q)).

Inductive loadtxt_result : Type :=
| LoadtxtOSError (args : message)
| LoadtxtValueError (args : message)
| LoadtxtArray (a : ndarray).

(** Why the text of a file could not be had: [open] or the read raised
    [OSError]; or the file was opened and its bytes do not decode as text,
    so that reading it raised [UnicodeDecodeError] (and [open] refuses a
    path that holds a null character with a plain [ValueError]). *)
Inductive read_error : Type :=
| RaisesOSError
| RaisesValueError.

(** What the package can observe of its environment.  Exhausted resources
    ([MemoryError], [RecursionError]) are not part of it. *)
Record World : Type := {
  (** [open(path, 'r')] and reading it: the text, [None] if there is none *)
  read_text : string -> option string;
  (** for a path without text, what went wrong *)
  read_failure : string -> read_error;
  (** [json.load]: [inl] is a [JSONDecodeError] *)
  json_loads : string -> message + json;
  (** whether python-pptx can open [path] as an image ([OSError] if not) *)
  image_readable : string -> bool;
  (** [numpy.loadtxt(path, delimiter=';')] *)
  np_loadtxt : string -> loadtxt_result;
  (** whether python-pptx accepts the paragraph level ([ValueError] if not) *)
  level_accepted : Z -> bool;
  (** whether [presentation.save(path)] can write ([OSError] if not) *)
  writable : string -> bool
}.

Record Line2D : Type := {
  xdata : list Q;
  ydata : list Q;
  linewidth : Q
}.

(** The current pyplot figure, module-global state of [matplotlib.pyplot]. *)
Record Figure : Type := {
  lines : list Line2D;
  xlabel : option json;
  ylabel : option json
}.

Definition empty_figure : Figure :=
  {| lines := []; xlabel := None; ylabel := None |}.

Record Paragraph : Type := {
  p_text : string;
  p_level : Z
}.

Inductive Shape : Type :=
| TextBox (left top width height : Z) (text : string)
| PictureFile (image_file : string) (left top height : Z)
| PictureStream (image : Figure) (left top height : Z).

(** A slide of the document: the index of its layout in the default
    template, the text of its title shape, the text of [placeholders[1]],
    the paragraphs appended to the text frame of [placeholders[1]], and
    the shapes added to it. *)
Record Slide : Type := {
  layout : nat;
  title_text : string;
  placeholder_text : string;
  body : list Paragraph;
  shapes : list Shape
}.

Inductive Level : Type := INFO | ERROR.

(** Pieces of a logged f-string: text, a number, [str(e)] of an exception. *)
Inductive log_piece : Type :=
| Text (s : string)
| Number (n : nat)
| Str (e : exn).

Record LogRecord : Type := {
  levelname : Level;
  msg : list log_piece
}.

(** The mutable objects of one process: the presentation, the pyplot
    figure, the records handed to the logger (newest last), the files
    written, and the objects of the loaded configuration's [presentation]
    list, addressed by position. *)
Record State : Type := {
  slides : list Slide;
  figure : Figure;
  records : list LogRecord;
  files : list (string * list Slide);
  heap : list json
}.

Definition initial_state : State :=
  {| slides := []; figure := empty_figure; records := []; files := [];
     heap := [] |}.

(* ===================================================================== *)
(** ** State and exceptions *)
(* ===================================================================== *)

Definition M (A : Type) : Type := State -> (exn + A) * State.

Definition ret {A : Type} (a : A) : M A := fun s => (inr a, s).

Definition bind {A B : Type} (m : M A) (k : A -> M B) : M B :=
  fun s =>
    match m s with
    | (inr a, s') => k a s'
    | (inl e, s') => (inl e, s')
    end.

Definition raise {A : Type} (e : exn) : M A := fun s => (inl e, s).

Definition lift {A : Type} (r : exn + A) : M A := fun s => (r, s).

Definition get : M State := fun s => (inr s, s).

Definition modify (f : State -> State) : M unit := fun s => (inr tt, f s).

(** [try: m except <classes of handler>: ...]: [handler] returns [None] for
    an exception no clause matches, which then propagates. *)
Definition try_except {A : Type} (m : M A) (handler : exn -> option (M A))
  : M A :=
  fun s =>
    match m s with
    | (inr a, s') => (inr a, s')
    | (inl e, s') =>
        match handler e with
        | Some h => h s'
        | None => (inl e, s')
        end
    end.

Declare Scope py_scope.
Delimit Scope py_scope with py.
Notation "x <- c ;; k" := (bind c (fun x => k))
  (at level 61, c at next level, right associativity) : py_scope.
Notation "c ;; k" := (bind c (fun _ => k))
  (at level 61, right associativity) : py_scope.
Open Scope py_scope.

Definition set_slides (f : list Slide -> list Slide) (s : State) : State :=
  {| slides := f (slides s); figure := figure s; records := records s;
     files := files s; heap := heap s |}.

Definition set_figure (f : Figure -> Figure) (s : State) : State :=
  {| slides := slides s; figure := f (figure s); records := records s;
     files := files s; heap := heap s |}.

Definition set_records (f : list LogRecord -> list LogRecord) (s : State)
  : State :=
  {| slides := slides s; figure := figure s; records := f (records s);
     files := files s; heap := heap s |}.

Definition set_files (f : list (string * list Slide) -> list (string * list Slide))
  (s : State) : State :=
  {| slides := slides s; figure := figure s; records := records s;
     files := f (files s); heap := heap s |}.

Definition set_heap (f : list json -> list json) (s : State) : State :=
  {| slides := slides s; figure := figure s; records := records s;
     files := files s; heap := f (heap s) |}.

Fixpoint update_nth {A : Type} (n : nat) (f : A -> A) (l : list A) : list A :=
  match l, n with
  | [], _ => []
  | x :: l', O => f x :: l'
  | x :: l', S n' => x :: update_nth n' f l'
  end.

(* ===================================================================== *)
(** ** python-pptx and pyplot, as the package drives them *)
(* ===================================================================== *)

Module Pptx.

(** [Inches(n)], in English Metric Units. *)
Definition Inches (n : Z) : Z := (n * 914400)%Z.

(** [presentation.slides.add_slide(layout)]: a fresh slide at the end of the
    deck; the handle is its position. *)
Definition add_slide (layout_index : nat) : M nat :=
  s <- get ;;
  modify (set_slides (fun l =>
    l ++ [{| layout := layout_index; title_text := ""; placeholder_text := "";
             body := []; shapes := [] |}])) ;;
  ret (length (slides s)).

Definition on_slide (ref : nat) (f : Slide -> Slide) : M unit :=
  modify (set_slides (update_nth ref f)).

(** A text property of python-pptx takes a [str]. *)
Definition text_value (v : json) : exn + string :=
  match as_str v with
  | Some s => inr s
  | None => inl (TypeError [Lit "text must be str, got "; Val v])
  end.

(** [slide.shapes.title.text = v] *)
Definition set_title (ref : nat) (v : json) : M unit :=
  t <- lift (text_value v) ;;
  on_slide ref (fun sl =>
    {| layout := layout sl; title_text := t;
       placeholder_text := placeholder_text sl; body := body sl;
       shapes := shapes sl |}).

(** [slide.placeholders[1].text = v] *)
Definition set_placeholder_text (ref : nat) (v : json) : M unit :=
  t <- lift (text_value v) ;;
  on_slide ref (fun sl =>
    {| layout := layout sl; title_text := title_text sl;
       placeholder_text := t; body := body sl; shapes := shapes sl |}).

Definition add_shape (ref : nat) (sh : Shape) : M unit :=
  on_slide ref (fun sl =>
    {| layout := layout sl; title_text := title_text sl;
       placeholder_text := placeholder_text sl; body := body sl;
       shapes := shapes sl ++ [sh] |}).

Definition on_body (ref : nat) (f : list Paragraph -> list Paragraph)
  : M unit :=
  on_slide ref (fun sl =>
    {| layout := layout sl; title_text := title_text sl;
       placeholder_text := placeholder_text sl; body := f (body sl);
       shapes := shapes sl |}).

(** [tf.add_paragraph()]: an empty paragraph at the end of the frame; the
    handle is its position among the appended paragraphs. *)
Definition add_paragraph (ref : nat) : M nat :=
  s <- get ;;
  let p := match nth_error (slides s) ref with
           | Some sl => length (body sl)
           | None => O
           end in
  on_body ref (fun b => b ++ [{| p_text := ""; p_level := 0%Z |}]) ;;
  ret p.

(** [p.text = v] *)
Definition set_paragraph_text (ref p : nat) (v : json) : M unit :=
  t <- lift (text_value v) ;;
  on_body ref (update_nth p (fun par =>
    {| p_text := t; p_level := p_level par |})).

(** [p.level = v]: python-pptx wants an [int] and validates its range. *)
Definition set_paragraph_level (w : World) (ref p : nat) (v : json)
  : M unit :=
  match as_int v with
  | None => raise (TypeError [Lit "value must be an integral type, got "; Val v])
  | Some z =>
      if level_accepted w z
      then on_body ref (update_nth p (fun par =>
             {| p_text := p_text par; p_level := z |}))
      else raise (ValueError [Lit "paragraph level out of range: "; Val v])
  end.

(** [shapes.add_picture(path, left, top, height=height)] for a file path. *)
Definition add_picture_file (w : World) (ref : nat) (v : json)
  (left top height : Z) : M unit :=
  match as_str v with
  | None => raise (TypeError [Lit "image file must be a path, got "; Val v])
  | Some path =>
      if image_readable w path
      then add_shape ref (PictureFile path left top height)
      else raise (OSError [Lit "cannot open image file "; Val v])
  end.

(** [presentation.save(path)] *)
Definition save (w : World) (path : string) : M unit :=
  if writable w path
  then s <- get ;; modify (set_files (fun fs => fs ++ [(path, slides s)]))
  else raise (OSError [Lit "cannot write "; Val (JStr path)]).

End Pptx.

Module Pyplot.

(** [plt.plot(x, y, linewidth=lw)]: one more line on the current axes. *)
Definition plot (x y : list Q) (lw : Q) : M unit :=
  modify (set_figure (fun fig =>
    {| lines := lines fig ++ [{| xdata := x; ydata := y; linewidth := lw |}];
       xlabel := xlabel fig; ylabel := ylabel fig |})).

(** [plt.xlabel(v)] *)
Definition set_xlabel (v : json) : M unit :=
  modify (set_figure (fun fig =>
    {| lines := lines fig; xlabel := Some v; ylabel := ylabel fig |})).

(** [plt.ylabel(v)] *)
Definition set_ylabel (v : json) : M unit :=
  modify (set_figure (fun fig =>
    {| lines := lines fig; xlabel := xlabel fig; ylabel := Some v |})).

(** [plt.savefig(stream)]: the figure as it is now; nothing is cleared. *)
Definition savefig : M Figure :=
  s <- get ;; ret (figure s).

End Pyplot.

Module Numpy.

(** [np.loadtxt(path, delimiter=';')] *)
Definition loadtxt (w : World) (v : json) : M ndarray :=
  match as_str v with
  | None => raise (TypeError [Lit "expected a file name, got "; Val v])
  | Some path =>
      match np_loadtxt w path with
      | LoadtxtOSError a => raise (OSError a)
      | LoadtxtValueError a => raise (ValueError a)
      | LoadtxtArray a => ret a
      end
  end.

Fixpoint column_of (j : nat) (rows : list (list Q)) : option (list Q) :=
  match rows with
  | [] => Some []
  | r :: rows' =>
      match nth_error r j, column_of j rows' with
      | Some x, Some c => Some (x :: c)
      | _, _ => None
      end
  end.

(** [data[:, j]] *)
Definition column (data : ndarray) (j : nat) : exn + list Q :=
  match data with
  | Array1 _ => inl (IndexError [Lit "too many indices for array"])
  | Array2 rows =>
      match column_of j rows with
      | Some c => inr c
      | None => inl (IndexError [Lit "index out of bounds for axis 1: "; Num j])
      end
  end.

End Numpy.

(* ===================================================================== *)
(** ** slidepy/cli.py *)
(* ===================================================================== *)

Module Cli.

(** What [docstring_parser.parse] returns, as far as cli.py reads it. *)
Record DocstringParam : Type := {
  arg_name : string;
  type_name : option string;
  is_optional : option bool;
  param_description : option string
}.

Record Docstring : Type := {
  short_description : option string;
  long_description : option string;
  params : list DocstringParam
}.

Definition empty_docstring : Docstring :=
  {| short_description := None; long_description := None; params := [] |}.

(** The converters a flag can carry as its [type=]. *)
Inductive converter : Type :=
| conv_int
| conv_str
| conv_bool
| conv_callable (name : string).

(** The values found in a parsed namespace. *)
Inductive argval : Type :=
| VNone
| VBool (b : bool)
| VInt (z : Z)
| VStr (s : string)
| VConverted (by_ : string) (raw : string).

(** What calling a flag's [type] on the raw string comes to in argparse:
    the value; [ArgumentTypeError], [TypeError] or [ValueError], which
    argparse turns into a usage error; or another exception, which argparse
    does not catch. *)
Inductive conversion : Type :=
| Converted (v : argval)
| Invalid
| Raised (e : exn).

(** An attribute the module object carries that no statement of cli.py
    binds ([__name__], [__doc__], [__class__], ...), as [add_argument]
    takes it for a [type=]: a callable, or an object it refuses with the
    exception given. *)
Inductive carried : Type :=
| Callable
| Refused (e : exn).

(** What the dispatcher depends on and cli.py does not define:
    [docstring_parser.parse] on a docstring, [int] on a string, the
    attributes the interpreter gives the module object, and what calling
    one of those on a string comes to. *)
Record Runtime : Type := {
  docstring_parse : string -> Docstring;
  int_of_str : string -> option Z;
  module_attribute : string -> option carried;
  call_attribute : string -> string -> conversion
}.

(** [docstring_parser.parse(obj.__doc__)]; an absent docstring parses to
    the empty result. *)
Definition parse_doc (rt : Runtime) (doc : option string) : Docstring :=
  match doc with
  | Some text => docstring_parse rt text
  | None => empty_docstring
  end.

(** A function object: [__name__], [__doc__], and whether the attributes
    [is_command] and [is_default_command] have been set on it. *)
Record Function : Type := {
  name : string;
  doc : option string;
  is_command : bool;
  is_default_command : bool
}.

(** [def command(fun)] *)
Definition command (fun_ : Function) : exn + Function :=
  match doc fun_ with
  | None => inl (AttributeError [Lit (name fun_); Lit " has no docstring!"])
  | Some _ =>
      inr {| name := name fun_; doc := doc fun_; is_command := true;
             is_default_command := is_default_command fun_ |}
  end.

(** [def default_command(fun)] *)
Definition default_command (fun_ : Function) : exn + Function :=
  inr {| name := name fun_; doc := doc fun_; is_command := true;
         is_default_command := true |}.

(** The handler object as [__init__] sees it: the docstring of its class and
    its callable attributes in the order of [dir(self)]. *)
Record Handler : Type := {
  class_name : string;
  class_doc : option string;
  methods : list Function
}.

(** argparse: an optional argument of a parser. *)
Inductive Action : Type :=
| store_true
| store (type : converter) (required : bool).

Record Argument : Type := {
  option_string : string;
  action : Action;
  help : option string
}.

Record Parser : Type := {
  parser_description : string;
  defaults_cmd : string;
  arguments : list Argument
}.

(** The attributes [__init__] sets: [description], [_parser] (program name,
    description, default [cmd]), [_subparsers] and [_cmds]. *)
Record Interface : Type := {
  prog : string;
  description : string;
  parser : Parser;
  subparsers : list (string * Parser);
  cmds : list (string * Function)
}.

(** [s.replace(a, b)] for single characters. *)
Fixpoint replace_char (a b : ascii) (s : string) : string :=
  match s with
  | EmptyString => EmptyString
  | String c s' =>
      String (if Ascii.eqb c a then b else c) (replace_char a b s')
  end.

Definition underscore : ascii := ascii_of_nat 95.
Definition hyphen : ascii := ascii_of_nat 45.

Definition hyphenate (s : string) : string := replace_char underscore hyphen s.

(** The line feed, as a string. *)
Definition nl : string := String (ascii_of_nat 10) EmptyString.

(** An attribute of the module [slidepy.cli], as a [type=] for a flag: one
    of the three builtins, another callable, a module object, or an object
    [add_argument] refuses with the exception given.  [module_globals] are
    the names the statements of cli.py bind, its imports and its
    definitions; the attributes the interpreter adds are the runtime's. *)
Inductive attribute : Type :=
| AType (c : converter)
| ACallable (n : string)
| AModule
| ARefused (e : exn).

Definition module_globals : list (string * attribute) :=
  [("argparse", AModule); ("wraps", ACallable "wraps"); ("re", AModule);
   ("docstring_parser", AModule); ("sys", AModule);
   ("int", AType conv_int); ("str", AType conv_str); ("bool", AType conv_bool);
   ("command", ACallable "command");
   ("default_command", ACallable "default_command");
   ("CommandlineInterface", ACallable "CommandlineInterface")].

Fixpoint lookup {A : Type} (k : string) (l : list (string * A)) : option A :=
  match l with
  | [] => None
  | (k', v) :: l' => if String.eqb k k' then Some v else lookup k l'
  end.

(** [getattr(sys.modules[__name__], type_name)] *)
Definition module_getattr (rt : Runtime) (type_name : option string)
  : exn + attribute :=
  match type_name with
  | None => inl (TypeError [Lit "attribute name must be string, not 'NoneType'"])
  | Some n =>
      match lookup n module_globals with
      | Some a => inr a
      | None =>
          match module_attribute rt n with
          | Some Callable => inr (ACallable n)
          | Some (Refused e) => inr (ARefused e)
          | None =>
              inl (AttributeError [Lit "module 'slidepy.cli' has no attribute ";
                                   Val (JStr n)])
          end
      end
  end.

(** [s.lstrip(a)] for a single character. *)
Fixpoint lstrip (a : ascii) (s : string) : string :=
  match s with
  | EmptyString => EmptyString
  | String c s' => if Ascii.eqb c a then lstrip a s' else s
  end.

(** The attribute name argparse derives from a long option string. *)
Definition dest_of (opt : string) : string :=
  replace_char hyphen underscore (lstrip hyphen opt).

(** [parser.add_argument(option_string, action=..., ...)]: argparse refuses
    an option string that leaves no [dest], then a [type] that is not
    callable, then an option string the parser already has; every parser
    starts with [-h] and [--help]. *)
Definition taken (p : Parser) : list string :=
  "-h" :: "--help" :: map option_string (arguments p).

Definition add_action (p : Parser) (a : Argument) : exn + Parser :=
  if mem_string (option_string a) (taken p)
  then inl (ArgumentError [Lit "conflicting option string: "; Lit (option_string a)])
  else inr {| parser_description := parser_description p;
              defaults_cmd := defaults_cmd p;
              arguments := arguments p ++ [a] |}.

Definition add_argument (p : Parser) (opt : string)
  (act : exn + Action) (desc : option string) : exn + Parser :=
  if dest_of opt =? EmptyString
  then inl (ValueError [Lit "dest= is required for options like "; Lit opt])
  else
    match act with
    | inl e => inl e
    | inr a => add_action p {| option_string := opt; action := a; help := desc |}
    end.

(** The action of [action='store', type=type, required=required]. *)
Definition store_action (type : attribute) (required : bool) : exn + Action :=
  match type with
  | AModule => inl (ValueError [Lit "type is not callable"])
  | AType c => inr (store c required)
  | ACallable n => inr (store (conv_callable n) required)
  | ARefused e => inl e
  end.

Definition is_bool (type_name : option string) : bool :=
  match type_name with
  | Some n => n =? "bool"
  | None => false
  end.

Definition py_not (b : option bool) : bool :=
  match b with
  | Some true => false
  | _ => true
  end.

(** The loop [for arg in doc.params]. *)
Fixpoint add_arguments (rt : Runtime) (ps : list DocstringParam)
  (p : Parser) : exn + Parser :=
  match ps with
  | [] => inr p
  | arg :: rest =>
      let opt := ("--" ++ hyphenate (arg_name arg))%string in
      let added :=
        if is_bool (type_name arg)
        then add_argument p opt (inr store_true) (param_description arg)
        else
          match module_getattr rt (type_name arg) with
          | inl e => inl e
          | inr type =>
              add_argument p opt
                (store_action type (py_not (is_optional arg)))
                (param_description arg)
          end in
      match added with
      | inl e => inl e
      | inr p' => add_arguments rt rest p'
      end
  end.

(** [d[k] = v] on an insertion-ordered dict. *)
Fixpoint dict_set {A : Type} (k : string) (v : A) (d : list (string * A))
  : list (string * A) :=
  match d with
  | [] => [(k, v)]
  | (k', v') :: d' =>
      if String.eqb k k' then (k, v) :: d' else (k', v') :: dict_set k v d'
  end.

(** The loop [for attr in dir(self)] of [__init__]; [help_text] is the local
    variable of that name, which keeps its last value between commands. *)
Fixpoint find_commands (rt : Runtime) (attrs : list Function)
  (help_text : string) (self : Interface) : exn + Interface :=
  match attrs with
  | [] => inr self
  | obj :: rest =>
      if is_command obj then
        if is_default_command obj then
          find_commands rt rest help_text
            {| prog := prog self; description := description self;
               parser := parser self; subparsers := subparsers self;
               cmds := dict_set EmptyString obj (cmds self) |}
        else
          let d := parse_doc rt (doc obj) in
          let help_text1 :=
            match short_description d with
            | Some sd => sd
            | None => help_text
            end in
          let help_text2 :=
            match long_description d with
            | Some ld => (help_text1 ++ nl ++ nl ++ ld)%string
            | None => help_text1
            end in
          let cmd := hyphenate (name obj) in
          match add_arguments rt (params d)
                  {| parser_description := help_text2; defaults_cmd := cmd;
                     arguments := [] |} with
          | inl e => inl e
          | inr p =>
              find_commands rt rest help_text2
                {| prog := prog self; description := description self;
                   parser := parser self;
                   subparsers := subparsers self ++ [(cmd, p)];
                   cmds := dict_set cmd obj (cmds self) |}
          end
      else find_commands rt rest help_text self
  end.

(** [CommandlineInterface.__init__(self, prog='')].  With no class docstring
    the [raise] statement evaluates [self.__name__] for its message, an
    attribute instances do not have: the exception is an [AttributeError]
    either way. *)
Definition init (rt : Runtime) (self : Handler) (prog_ : string)
  : exn + Interface :=
  match class_doc self with
  | None => inl (AttributeError [Lit "object has no attribute '__name__'"])
  | Some text =>
      match short_description (docstring_parse rt text),
            long_description (docstring_parse rt text) with
      | Some sd, Some ld =>
          let help_text := (sd ++ nl ++ nl ++ ld)%string in
          find_commands rt (methods self) help_text
            {| prog := prog_; description := sd;
               parser := {| parser_description := help_text;
                            defaults_cmd := EmptyString; arguments := [] |};
               subparsers := []; cmds := [] |}
      | _, _ => inl (TypeError [Lit "unsupported operand type(s) for +: str and NoneType"])
      end
  end.

(** *** Parsing the command line

    argparse as [run] uses it, for command lines of the shape
    [<subcommand> --flag value ...] with option strings written out in full
    (abbreviated flags and [--flag=value] are outside this model).  Usage
    errors end the process with status 2, a help request with status 0. *)

Definition usage_error (m : message) : exn := SystemExit 2 m.

(** [sep.join(l)] *)
Fixpoint join (sep : string) (l : list string) : string :=
  match l with
  | [] => EmptyString
  | [x] => x
  | x :: rest => (x ++ sep ++ join sep rest)%string
  end.

Definition Namespace := list (string * argval).

(** The docstring of [CommandlineInterface], and the class as a handler of
    its own: none of its methods is marked. *)
Definition CommandlineInterface_doc : string := "
    Base class for creating a commandline interface.

    Subclass this class and decorate its methods with ``command`` and 
    ``default_command`` to create a commandline application.

    Args:
        prog (str, optional): The program name to be displayed in the help message. Defaults to ''.
    
    Raises:
        AttributeError: If the subclass has no docstring.
    ".

Definition base_class : Handler :=
  {| class_name := "CommandlineInterface";
     class_doc := Some CommandlineInterface_doc;
     methods :=
       [{| name := "__init__"; doc := None; is_command := false;
           is_default_command := false |};
        {| name := "run";
           doc := Some "
        Parse commandline arguments and execute the corresponding command.
        ";
           is_command := false; is_default_command := false |}] |}.

(** Calling on a string the callable attribute [n] of the module.
    [command] and [default_command] set an attribute on their argument,
    which a [str] does not allow; [CommandlineInterface(raw)] runs
    [__init__] with [prog=raw]; [wraps] returns a partial application; the
    other callables are the runtime's. *)
Definition call (rt : Runtime) (n : string) (raw : string) : conversion :=
  if (n =? "command") || (n =? "default_command") then
    Raised (AttributeError [Lit "'str' object has no attribute 'is_command'"])
  else if n =? "CommandlineInterface" then
    match init rt base_class raw with
    | inr _ => Converted (VConverted n raw)
    | inl e => if is_TypeError e || is_ValueError e then Invalid else Raised e
    end
  else if n =? "wraps" then Converted (VConverted n raw)
  else call_attribute rt n raw.

(** [type(raw)] for the converter of a flag. *)
Definition convert (rt : Runtime) (c : converter) (raw : string)
  : conversion :=
  match c with
  | conv_str => Converted (VStr raw)
  | conv_int =>
      match int_of_str rt raw with
      | Some z => Converted (VInt z)
      | None => Invalid
      end
  | conv_bool => Converted (VBool (negb (raw =? EmptyString)))
  | conv_callable n => call rt n raw
  end.

Definition default_of (a : Argument) : string * argval :=
  match action a with
  | store_true => (dest_of (option_string a), VBool false)
  | store _ _ => (dest_of (option_string a), VNone)
  end.

Fixpoint find_argument (tok : string) (args : list Argument)
  : option Argument :=
  match args with
  | [] => None
  | a :: rest =>
      if tok =? option_string a then Some a else find_argument tok rest
  end.

Definition is_help (tok : string) : bool :=
  (tok =? "-h") || (tok =? "--help").

(** Reading the tokens after the subcommand from left to right; [extras]
    collects the tokens no flag accounts for. *)
Fixpoint consume (rt : Runtime) (args : list Argument) (argv : list string)
  (ns : Namespace) (extras : list string) : exn + (Namespace * list string) :=
  match argv with
  | [] => inr (ns, extras)
  | tok :: rest =>
      if is_help tok then inl (SystemExit 0 [Lit "usage"])
      else
        match find_argument tok args with
        | None => consume rt args rest ns (extras ++ [tok])
        | Some a =>
            match action a with
            | store_true =>
                consume rt args rest
                  (dict_set (dest_of tok) (VBool true) ns) extras
            | store c _ =>
                match rest with
                | [] =>
                    inl (usage_error [Lit "argument "; Lit tok;
                                      Lit ": expected one argument"])
                | raw :: rest' =>
                    if String.prefix "-" raw
                    then inl (usage_error [Lit "argument "; Lit tok;
                                           Lit ": expected one argument"])
                    else
                      match convert rt c raw with
                      | Invalid =>
                          inl (usage_error [Lit "argument "; Lit tok;
                                            Lit ": invalid value: "; Lit raw])
                      | Raised e => inl e
                      | Converted x =>
                          consume rt args rest'
                            (dict_set (dest_of tok) x ns) extras
                      end
                end
            end
        end
  end.

Definition is_missing (ns : Namespace) (a : Argument) : bool :=
  match action a with
  | store _ true =>
      match lookup (dest_of (option_string a)) ns with
      | Some VNone => true
      | _ => false
      end
  | _ => false
  end.

(** The subparser's [parse_known_args], then the checks that follow it: the
    required flags first, the unrecognized tokens second. *)
Definition parse_subcommand (rt : Runtime) (p : Parser) (argv : list string)
  : exn + Namespace :=
  match consume rt (arguments p) argv (map default_of (arguments p)) [] with
  | inl e => inl e
  | inr (ns, extras) =>
      match filter (is_missing ns) (arguments p) with
      | (_ :: _) as missing =>
          inl (usage_error [Lit "the following arguments are required: ";
                            Lit (join ", " (map option_string missing))])
      | [] =>
          match extras with
          | _ :: _ => inl (usage_error [Lit "unrecognized arguments: ";
                                        Lit (join " " extras)])
          | [] => inr ns
          end
      end
  end.

(** [self._parser.parse_args()]: the value of [cmd] and the other
    attributes of the namespace. *)
Definition parse_args (rt : Runtime) (self : Interface) (argv : list string)
  : exn + (string * Namespace) :=
  match argv with
  | [] => inr (defaults_cmd (parser self), [])
  | tok :: rest =>
      if is_help tok then inl (SystemExit 0 [Lit "usage"])
      else
        match lookup tok (subparsers self) with
        | None => inl (usage_error [Lit "invalid choice: "; Lit tok])
        | Some p =>
            match parse_subcommand rt p rest with
            | inl e => inl e
            | inr ns => inr (defaults_cmd p, ns)
            end
        end
  end.

(** A call [f(self, **kwargs)]. *)
Record Call : Type := {
  callee : Function;
  kwargs : Namespace
}.

(** [CommandlineInterface.run(self)]: the call it makes. *)
Definition run (rt : Runtime) (self : Interface) (argv : list string)
  : exn + Call :=
  match parse_args rt self argv with
  | inl e => inl e
  | inr (cmd, ns) =>
      match lookup cmd (cmds self) with
      | Some f => inr {| callee := f; kwargs := ns |}
      | None => inl (KeyError cmd)
      end
  end.

End Cli.

(* ===================================================================== *)
(** ** slidepy/slides.py *)
(* ===================================================================== *)

Module Slides.

(** Binding the keyword arguments of [Variant(presentation, **kwargs)] to
    the parameters of [__init__(self, presentation, ...)]: a key that names
    no parameter, or one already bound positionally, is a [TypeError]. *)
Fixpoint bind_keywords (keywords : list string) (kwargs : pydict)
  : exn + unit :=
  match kwargs with
  | [] => inr tt
  | (k, _) :: rest =>
      if mem_string k ["self"; "presentation"]
      then inl (TypeError [Lit "got multiple values for argument "; Val (JStr k)])
      else if mem_string k keywords
      then bind_keywords keywords rest
      else inl (TypeError [Lit "got an unexpected keyword argument "; Val (JStr k)])
  end.

(** The value of a keyword parameter: the argument, or the default. *)
Definition keyword (kwargs : pydict) (name : string) (default : json) : json :=
  match dict_get name kwargs with
  | Some v => v
  | None => default
  end.

(** [class ListElements(TypedDict)] *)
Definition ListElements : Typeguard.hint :=
  Typeguard.HTypedDict [("level", Typeguard.HInt); ("text", Typeguard.HStr)].

(** [TitleSlide.__init__(self, presentation, title:str="", content:str="")] *)
Definition TitleSlide (kwargs : pydict) : M nat :=
  lift (bind_keywords ["title"; "content"] kwargs) ;;
  let title := keyword kwargs "title" (JStr "") in
  let content := keyword kwargs "content" (JStr "") in
  lift (Typeguard.check_arguments
          [("title", Typeguard.HStr, title);
           ("content", Typeguard.HStr, content)]) ;;
  ref <- Pptx.add_slide 0 ;;
  Pptx.set_title ref title ;;
  Pptx.set_placeholder_text ref content ;;
  ret ref.

(** [TextSlide.__init__(self, presentation, title:str="", content:str="")] *)
Definition TextSlide (kwargs : pydict) : M nat :=
  lift (bind_keywords ["title"; "content"] kwargs) ;;
  let title := keyword kwargs "title" (JStr "") in
  let content := keyword kwargs "content" (JStr "") in
  lift (Typeguard.check_arguments
          [("title", Typeguard.HStr, title);
           ("content", Typeguard.HStr, content)]) ;;
  ref <- Pptx.add_slide 5 ;;
  Pptx.set_title ref title ;;
  let left := Pptx.Inches 1 in
  let width := Pptx.Inches 1 in
  let height := Pptx.Inches 1 in
  let top := Pptx.Inches 2 in
  t <- lift (Pptx.text_value content) ;;
  Pptx.add_shape ref (TextBox left top width height t) ;;
  ret ref.

(** The loop [for kwargs in content] of [ListSlide.__init__]. *)
Fixpoint add_list_items (w : World) (ref : nat) (content : list json)
  : M unit :=
  match content with
  | [] => ret tt
  | kwargs :: rest =>
      p <- Pptx.add_paragraph ref ;;
      t <- lift (subscript kwargs "text") ;;
      Pptx.set_paragraph_text ref p t ;;
      l <- lift (subscript kwargs "level") ;;
      Pptx.set_paragraph_level w ref p l ;;
      add_list_items w ref rest
  end.

(** [ListSlide.__init__(self, presentation, title:str="",
                        content:list[ListElements]=[])] *)
Definition ListSlide (w : World) (kwargs : pydict) : M nat :=
  lift (bind_keywords ["title"; "content"] kwargs) ;;
  let title := keyword kwargs "title" (JStr "") in
  let content := keyword kwargs "content" (JArr []) in
  lift (Typeguard.check_arguments
          [("title", Typeguard.HStr, title);
           ("content", Typeguard.HList ListElements, content)]) ;;
  ref <- Pptx.add_slide 1 ;;
  Pptx.set_title ref title ;;
  match content with
  | JArr items => add_list_items w ref items
  | _ => raise (TypeError [Lit "object is not iterable: "; Val content])
  end ;;
  ret ref.

(** [PictureSlide.__init__(self, presentation, title:str="", content:str="")] *)
Definition PictureSlide (w : World) (kwargs : pydict) : M nat :=
  lift (bind_keywords ["title"; "content"] kwargs) ;;
  let title := keyword kwargs "title" (JStr "") in
  let content := keyword kwargs "content" (JStr "") in
  lift (Typeguard.check_arguments
          [("title", Typeguard.HStr, title);
           ("content", Typeguard.HStr, content)]) ;;
  ref <- Pptx.add_slide 5 ;;
  Pptx.set_title ref title ;;
  let left := Pptx.Inches 1 in
  let top := Pptx.Inches 2 in
  let height := Pptx.Inches 5 in
  Pptx.add_picture_file w ref content left top height ;;
  ret ref.

(** [PlotSlide.__init__(self, presentation, title:str="", content:str="",
                        configuration:dict={})] *)
Definition PlotSlide (w : World) (kwargs : pydict) : M nat :=
  lift (bind_keywords ["title"; "content"; "configuration"] kwargs) ;;
  let title := keyword kwargs "title" (JStr "") in
  let content := keyword kwargs "content" (JStr "") in
  let configuration := keyword kwargs "configuration" (JObj []) in
  lift (Typeguard.check_arguments
          [("title", Typeguard.HStr, title);
           ("content", Typeguard.HStr, content);
           ("configuration", Typeguard.HDict, configuration)]) ;;
  ref <- Pptx.add_slide 5 ;;
  Pptx.set_title ref title ;;
  let left := Pptx.Inches 1 in
  let top := Pptx.Inches 2 in
  let height := Pptx.Inches 5 in
  data <- Numpy.loadtxt w content ;;
  x <- lift (Numpy.column data 0) ;;
  y <- lift (Numpy.column data 1) ;;
  Pyplot.plot x y (2 # 1)%Q ;;
  xl <- lift (subscript configuration "x-label") ;;
  Pyplot.set_xlabel xl ;;
  yl <- lift (subscript configuration "y-label") ;;
  Pyplot.set_ylabel yl ;;
  img_stream <- Pyplot.savefig ;;
  Pptx.add_shape ref (PictureStream img_stream left top height) ;;
  ret ref.

(** [type = dict.pop("type")] on the object at [dict_ref]: the key is
    removed from that object itself. *)
Definition pop_type (dict_ref : nat) : M (json * pydict) :=
  s <- get ;;
  match nth dict_ref (heap s) JNull with
  | JObj d =>
      match dict_pop "type" d with
      | None => raise (KeyError "type")
      | Some (type, d') =>
          modify (set_heap (update_nth dict_ref (fun _ => JObj d'))) ;;
          ret (type, d')
      end
  | JArr _ => raise (TypeError [Lit "'str' object cannot be interpreted as an integer"])
  | v => raise (AttributeError [Lit "object has no attribute 'pop': "; Val v])
  end.

(** The f-string of [from_dict]'s [ValueError]: the type between double
    quotes, then the text. *)
Definition invalid_slide_type (type : json) : message :=
  [Lit dquote; Val type; Lit dquote; Lit " is not a valid slide type!"].

(** The statement [match type: ...] of [from_dict], with the dict as it is
    after the [pop]. *)
Definition match_type (w : World) (type : json) (dict : pydict) : M nat :=
  match type with
  | JStr t =>
      if t =? "title" then TitleSlide dict
      else if t =? "text" then TextSlide dict
      else if t =? "list" then ListSlide w dict
      else if t =? "picture" then PictureSlide w dict
      else if t =? "plot" then PlotSlide w dict
      else raise (ValueError (invalid_slide_type type))
  | _ => raise (ValueError (invalid_slide_type type))
  end.

(** [Slide.from_dict(presentation, dict)] *)
Definition from_dict (w : World) (dict_ref : nat) : M nat :=
  td <- pop_type dict_ref ;;
  match_type w (fst td) (snd td).

End Slides.

(* ===================================================================== *)
(** ** slidepy/app.py *)
(* ===================================================================== *)

Module App.

(** [class Config(TypedDict): presentation: list[dict]] *)
Definition Config : Typeguard.hint :=
  Typeguard.HTypedDict [("presentation", Typeguard.HList Typeguard.HDict)].

(** [self.logger.error(msg)] and [self.logger.info(msg)] *)
Definition error (m : list log_piece) : M unit :=
  modify (set_records (fun r => r ++ [{| levelname := ERROR; msg := m |}])).

Definition info (m : list log_piece) : M unit :=
  modify (set_records (fun r => r ++ [{| levelname := INFO; msg := m |}])).

(** How a block of [generate] ends: control falls through to the next
    statement, or the method has returned. *)
Inductive flow : Type :=
| Next
| Return.

(** What reading raises when it is no [OSError]: [UnicodeDecodeError] is a
    [ValueError], and neither an [OSError] nor a [JSONDecodeError]. *)
Definition undecodable (path : string) : exn :=
  ValueError [Lit "cannot read text from "; Val (JStr path)].

(** The body of the first [try]:
    [with open(config, 'r') as config_file:
         data = json.load(config_file)
         typeguard.check_type(data, Config)] *)
Definition load (w : World) (config : string) : M json :=
  match read_text w config with
  | None =>
      match read_failure w config with
      | RaisesOSError =>
          raise (OSError [Lit "No such file or directory: "; Val (JStr config)])
      | RaisesValueError => raise (undecodable config)
      end
  | Some text =>
      match json_loads w text with
      | inl a => raise (JSONDecodeError a)
      | inr data =>
          lift (Typeguard.check_type data Config) ;;
          ret data
      end
  end.

(** The [except] clauses of the first [try], in source order. *)
Definition load_handlers (config : string) (e : exn) : option (M (option json)) :=
  if is_OSError e then
    Some (error [Text "Couldn't load "; Text dquote; Text config; Text dquote;
                 Text "! Please check if it's a valid path."] ;;
          ret None)
  else if is_JSONDecodeError e then
    Some (error [Text "Config file "; Text dquote; Text config; Text dquote;
                 Text " is not a valid JSON file! "; Str e] ;;
          ret None)
  else if is_TypeCheckError e then
    Some (error [Text "Config file "; Text dquote; Text config; Text dquote;
                 Text " is not in a valid format! "; Str e] ;;
          ret None)
  else None.

(** The [except] clauses around [Slide.from_dict], in source order; [i] is
    the index [enumerate] gives. *)
Definition slide_handlers (i : nat) (e : exn) : option (M flow) :=
  if is_TypeCheckError e then
    Some (error [Text "Slide number "; Number (i + 1);
                 Text " is not in a valid format! "; Str e] ;;
          ret Return)
  else if is_ValueError e then
    Some (error [Text "Slide number "; Number (i + 1);
                 Text " is not in a valid format! "; Str e] ;;
          ret Return)
  else if is_KeyError e then
    Some (error [Text "Slide number "; Number (i + 1);
                 Text " is missing a property! "; Str e] ;;
          ret Return)
  else if is_OSError e then
    Some (error [Text "Slide number "; Number (i + 1);
                 Text " has a file dependency which could not be loaded! ";
                 Str e] ;;
          ret Return)
  else None.

(** [for i, slide_properties in enumerate(data["presentation"])], from
    index [i] on; [items] are the entries still to visit, each of them the
    object at its index in the heap. *)
Fixpoint slides_loop (w : World) (i : nat) (items : list json) : M flow :=
  match items with
  | [] => ret Next
  | _ :: rest =>
      f <- try_except (Slides.from_dict w i ;; ret Next) (slide_handlers i) ;;
      match f with
      | Return => ret Return
      | Next =>
          info [Text "Slide number "; Number (i + 1); Text " generated"] ;;
          slides_loop w (S i) rest
      end
  end.

(** The sequence [data["presentation"]] iterated by the loop. *)
Definition presentation_items (data : json) : M (list json) :=
  p <- lift (subscript data "presentation") ;;
  match p with
  | JArr items => ret items
  | _ => raise (TypeError [Lit "object is not a list: "; Val p])
  end.

(** [App.generate(self, config, output)] *)
Definition generate (w : World) (config output : string) : M unit :=
  modify (set_slides (fun _ => [])) ;;
  loaded <- try_except (data <- load w config ;; ret (Some data))
                       (load_handlers config) ;;
  match loaded with
  | None => ret tt
  | Some data =>
      info [Text "Configuration file loaded: "; Text dquote; Text config;
            Text dquote] ;;
      items <- presentation_items data ;;
      modify (set_heap (fun _ => items)) ;;
      f <- slides_loop w 0 items ;;
      match f with
      | Return => ret tt
      | Next =>
          saved <- try_except (Pptx.save w output ;; ret Next)
                     (fun e =>
                        if is_OSError e then
                          Some (error [Text "Couldn't save presentation to ";
                                       Text dquote; Text output; Text dquote;
                                       Text "! "; Str e] ;;
                                ret Return)
                        else None) ;;
          match saved with
          | Return => ret tt
          | Next =>
              info [Text "Presentation saved: "; Text dquote; Text output;
                    Text dquote]
          end
      end
  end.

(** *** The class [App(CommandlineInterface)] *)

(** The docstring of the class. *)
Definition App_doc : string :=
"SlidePy

    This application is used to generate a report in pptx format based on a configuration file.
    ".

(** The docstring of [generate]. *)
Definition generate_doc : string :=
"Report generation

        Use this subcommand to generate a report based on a configuration file.

        Args:
            config (str): Path to the configuration file
            output (str): Save the generated report into this file
        ".

(** What [docstring_parser.parse] makes of the two docstrings. *)
Definition App_doc_parsed : Cli.Docstring :=
  {| Cli.short_description := Some "SlidePy";
     Cli.long_description :=
       Some "This application is used to generate a report in pptx format based on a configuration file.";
     Cli.params := [] |}.

Definition generate_doc_parsed : Cli.Docstring :=
  {| Cli.short_description := Some "Report generation";
     Cli.long_description :=
       Some "Use this subcommand to generate a report based on a configuration file.";
     Cli.params :=
       [{| Cli.arg_name := "config"; Cli.type_name := Some "str";
           Cli.is_optional := Some false;
           Cli.param_description := Some "Path to the configuration file" |};
        {| Cli.arg_name := "output"; Cli.type_name := Some "str";
           Cli.is_optional := Some false;
           Cli.param_description :=
             Some "Save the generated report into this file" |}] |}.

(** The functions of the class body, before their decorators run. *)
Definition def (name_ : string) (doc_ : option string) : Cli.Function :=
  {| Cli.name := name_; Cli.doc := doc_; Cli.is_command := false;
     Cli.is_default_command := false |}.

Definition def_generate : Cli.Function := def "generate" (Some generate_doc).

Definition def_default : Cli.Function := def "default" None.

(** The class statement: [@command] on [generate], [@default_command] on
    [default]; the callable attributes of an instance in [dir] order. *)
Definition class_App : exn + Cli.Handler :=
  match Cli.command def_generate with
  | inl e => inl e
  | inr generate_ =>
      match Cli.default_command def_default with
      | inl e => inl e
      | inr default_ =>
          inr {| Cli.class_name := "App"; Cli.class_doc := Some App_doc;
                 Cli.methods :=
                   [def "__init__" None; def "_configure_logger" None;
                    default_; generate_;
                    def "run" (Some "Parse commandline arguments and execute the corresponding command.")] |}
      end
  end.


End App.

(* ===================================================================== *)
(** ** Vocabulary of the specification *)
(* ===================================================================== *)

(** The five recognized tags. *)
Definition recognized (type : json) : bool :=
  match type with
  | JStr t =>
      (t =? "title") || (t =? "text") || (t =? "list") || (t =? "picture")
      || (t =? "plot")
  | _ => false
  end.

(** Layouts of the default template, by their index: the title layout, the
    bulleted layout ("Title and Content") and the generic content layout
    ("Title Only"). *)
Definition title_layout : nat := 0.
Definition bulleted_layout : nat := 1.
Definition content_layout : nat := 5.

(** The layout the specification assigns to a tag. *)
Definition layout_of (type : json) : nat :=
  match type with
  | JStr t =>
      if t =? "title" then title_layout
      else if t =? "list" then bulleted_layout
      else content_layout
  | _ => content_layout
  end.

Definition keys_within (ks : list string) (d : pydict) : bool :=
  forallb (fun k => mem_string k ks) (dict_keys d).

Definition str_or_absent (k : string) (d : pydict) : bool :=
  match dict_get k d with
  | None => true
  | Some (JStr _) => true
  | Some _ => false
  end.

(** The text of a field, the default [""] when it is absent. *)
Definition text_of (k : string) (d : pydict) : string :=
  match dict_get k d with
  | Some (JStr t) => t
  | _ => EmptyString
  end.

(** A record [{level: integer, text: string}] and nothing else. *)
Definition is_list_element (e : json) : bool :=
  match e with
  | JObj d =>
      keys_within ["level"; "text"] d
      && match dict_get "level" d with
         | Some l => match as_int l with Some _ => true | None => false end
         | None => false
         end
      && match dict_get "text" d with
         | Some (JStr _) => true
         | _ => false
         end
  | _ => false
  end.

Definition level_of (e : json) : Z :=
  match e with
  | JObj d =>
      match dict_get "level" d with
      | Some l => match as_int l with Some z => z | None => 0%Z end
      | None => 0%Z
      end
  | _ => 0%Z
  end.

Definition paragraph_of (e : json) : Paragraph :=
  match e with
  | JObj d => {| p_text := text_of "text" d; p_level := level_of e |}
  | _ => {| p_text := EmptyString; p_level := 0%Z |}
  end.

(** The entries of a list slide's [content], none when it is absent. *)
Definition entries_of (kw : pydict) : list json :=
  match dict_get "content" kw with
  | Some (JArr items) => items
  | _ => []
  end.

Definition list_or_absent (k : string) (d : pydict) : bool :=
  match dict_get k d with
  | None => true
  | Some (JArr _) => true
  | Some _ => false
  end.

(** The two columns of the table a data file holds, when it holds one. *)
Definition table_of (w : World) (path : string)
  : option (list Q * list Q) :=
  match np_loadtxt w path with
  | LoadtxtArray (Array2 rows) =>
      match Numpy.column_of 0 rows, Numpy.column_of 1 rows with
      | Some x, Some y => Some (x, y)
      | _, _ => None
      end
  | _ => None
  end.

Definition series_of (w : World) (kw : pydict) : Line2D :=
  match table_of w (text_of "content" kw) with
  | Some (x, y) => {| xdata := x; ydata := y; linewidth := (2 # 1)%Q |}
  | None => {| xdata := []; ydata := []; linewidth := (2 # 1)%Q |}
  end.

Definition labels_of (kw : pydict) : option (json * json) :=
  match dict_get "configuration" kw with
  | Some (JObj c) =>
      match dict_get "x-label" c, dict_get "y-label" c with
      | Some x, Some y => Some (x, y)
      | _, _ => None
      end
  | _ => None
  end.

(** A valid slide specification, by variant: the fields left after [type]
    are fields of the variant and have the documented shapes, a picture's
    file can be opened as an image, a plot's data file holds a table of two
    columns and its configuration has both labels, and the levels of a
    list are levels the rendering layer takes. *)
Definition valid_fields (w : World) (t : string) (kw : pydict) : bool :=
  if (t =? "title") || (t =? "text") then
    keys_within ["title"; "content"] kw
    && str_or_absent "title" kw && str_or_absent "content" kw
  else if t =? "list" then
    keys_within ["title"; "content"] kw
    && str_or_absent "title" kw && list_or_absent "content" kw
    && forallb (fun e => is_list_element e && level_accepted w (level_of e))
         (entries_of kw)
  else if t =? "picture" then
    keys_within ["title"; "content"] kw
    && str_or_absent "title" kw && str_or_absent "content" kw
    && image_readable w (text_of "content" kw)
  else if t =? "plot" then
    keys_within ["title"; "content"; "configuration"] kw
    && str_or_absent "title" kw && str_or_absent "content" kw
    && match table_of w (text_of "content" kw) with
       | Some _ => true
       | None => false
       end
    && match labels_of kw with
       | Some _ => true
       | None => false
       end
  else false.

Definition valid_spec (w : World) (d : pydict) : bool :=
  match dict_get "type" d with
  | Some (JStr t) => valid_fields w t (dict_del "type" d)
  | _ => false
  end.

Definition type_of (d : pydict) : json :=
  match dict_get "type" d with
  | Some t => t
  | None => JNull
  end.

(** The figure after one more plot slide. *)
Definition plotted (w : World) (kw : pydict) (fig : Figure) : Figure :=
  {| lines := lines fig ++ [series_of w kw];
     xlabel := match labels_of kw with Some (x, _) => Some x | None => None end;
     ylabel := match labels_of kw with Some (_, y) => Some y | None => None end |}.

(** The slide a valid specification describes, given the pyplot figure at
    the time it is built. *)
Definition slide_of (w : World) (t : string) (kw : pydict) (fig : Figure)
  : Slide :=
  if t =? "title" then
    {| layout := 0; title_text := text_of "title" kw;
       placeholder_text := text_of "content" kw; body := []; shapes := [] |}
  else if t =? "text" then
    {| layout := 5; title_text := text_of "title" kw;
       placeholder_text := EmptyString; body := [];
       shapes := [TextBox (Pptx.Inches 1) (Pptx.Inches 2) (Pptx.Inches 1)
                    (Pptx.Inches 1) (text_of "content" kw)] |}
  else if t =? "list" then
    {| layout := 1; title_text := text_of "title" kw;
       placeholder_text := EmptyString;
       body := map paragraph_of (entries_of kw); shapes := [] |}
  else if t =? "picture" then
    {| layout := 5; title_text := text_of "title" kw;
       placeholder_text := EmptyString; body := [];
       shapes := [PictureFile (text_of "content" kw) (Pptx.Inches 1)
                    (Pptx.Inches 2) (Pptx.Inches 5)] |}
  else
    {| layout := 5; title_text := text_of "title" kw;
       placeholder_text := EmptyString; body := [];
       shapes := [PictureStream (plotted w kw fig) (Pptx.Inches 1)
                    (Pptx.Inches 2) (Pptx.Inches 5)] |}.

Definition figure_after (w : World) (t : string) (kw : pydict) (fig : Figure)
  : Figure :=
  if t =? "plot" then plotted w kw fig else fig.

(** The deck and the figure after building the specifications in order. *)
Fixpoint build_all (w : World) (specs : list pydict) (deck : list Slide)
  (fig : Figure) : list Slide * Figure :=
  match specs with
  | [] => (deck, fig)
  | d :: rest =>
      match dict_get "type" d with
      | Some (JStr t) =>
          build_all w rest
            (deck ++ [slide_of w t (dict_del "type" d) fig])
            (figure_after w t (dict_del "type" d) fig)
      | _ => build_all w rest deck fig
      end
  end.

(** The chart images embedded in a deck, in slide order. *)
Definition charts_of (sl : Slide) : list Figure :=
  flat_map (fun sh => match sh with
                      | PictureStream img _ _ _ => [img]
                      | _ => []
                      end) (shapes sl).

Definition charts (deck : list Slide) : list Figure := flat_map charts_of deck.

Definition is_plot (d : pydict) : bool :=
  match dict_get "type" d with
  | Some (JStr t) => t =? "plot"
  | _ => false
  end.

(** The data series of the plot slides of a configuration, in order. *)
Definition plot_series (w : World) (specs : list pydict) : list Line2D :=
  map (fun d => series_of w (dict_del "type" d)) (filter is_plot specs).

(** The loaded document of a well-formed configuration file. *)
Definition config_document (specs : list pydict) : json :=
  JObj [("presentation", JArr (map JObj specs))].

Definition with_body (sl : Slide) (b : list Paragraph) : Slide :=
  {| layout := layout sl; title_text := title_text sl;
     placeholder_text := placeholder_text sl; body := b; shapes := shapes sl |}.

(** The state a valid specification of tag [t] leaves: its slide at the end
    of the deck, the figure advanced by a plot, [type] gone from the
    object. *)
Definition built (w : World) (i : nat) (t : string) (kw : pydict) (s : State)
  : State :=
  {| slides := slides s ++ [slide_of w t kw (figure s)];
     figure := figure_after w t kw (figure s);
     records := records s; files := files s;
     heap := update_nth i (fun _ => JObj kw) (heap s) |}.

Definition generated (n : nat) : LogRecord :=
  {| levelname := INFO;
     msg := [Text "Slide number "; Number n; Text " generated"] |}.

(** A state relation every step of a computation keeps. *)
Definition keeps {A : Type} (P : State -> State -> Prop) (m : M A) : Prop :=
  forall s, P s (snd (m s)).

(** What the variants leave alone: the files, the log and the loaded
    configuration. *)
Definition same_outputs (s s' : State) : Prop :=
  files s' = files s /\ records s' = records s /\ heap s' = heap s.

(** What [from_dict] on the object at [i] leaves alone: the files, the log
    and every other object of the configuration. *)
Definition touches_only (i : nat) (s s' : State) : Prop :=
  files s' = files s /\ records s' = records s
  /\ forall j, j <> i -> nth j (heap s') JNull = nth j (heap s) JNull.

(** The line sets of successive charts drawn on one figure that starts with
    the lines [base]: each chart shows the earlier series and its own. *)
Fixpoint cumulative (base : list Line2D) (series : list Line2D)
  : list (list Line2D) :=
  match series with
  | [] => []
  | x :: rest => (base ++ [x]) :: cumulative (base ++ [x]) rest
  end.

(** The text the driver logs for an exception of the slide numbered [n],
    [None] for a class none of its [except] clauses names. *)
Definition slide_report (n : nat) (e : exn) : option (list log_piece) :=
  match e with
  | TypeCheckError _ | ValueError _ | JSONDecodeError _ =>
      Some [Text "Slide number "; Number n;
            Text " is not in a valid format! "; Str e]
  | KeyError _ =>
      Some [Text "Slide number "; Number n;
            Text " is missing a property! "; Str e]
  | OSError _ =>
      Some [Text "Slide number "; Number n;
            Text " has a file dependency which could not be loaded! "; Str e]
  | _ => None
  end.

Definition logged (lv : Level) (m : list log_piece) : LogRecord :=
  {| levelname := lv; msg := m |}.

Definition loaded (config : string) : LogRecord :=
  logged INFO [Text "Configuration file loaded: "; Text dquote; Text config;
               Text dquote].

(** The state of a run when it reaches the slide after the valid
    specifications [pre]: their slides are built, each is logged, and their
    objects have lost [type]; [rest] are the objects not yet visited. *)
Definition before_slide (w : World) (config : string) (pre : list pydict)
  (rest : list json) (s0 : State) : State :=
  {| slides := fst (build_all w pre [] (figure s0));
     figure := snd (build_all w pre [] (figure s0));
     records := records s0 ++ loaded config
                :: map generated (seq 1 (length pre));
     files := files s0;
     heap := map JObj (map (dict_del "type") pre) ++ rest |}.

Definition dict_or_absent (k : string) (d : pydict) : bool :=
  match dict_get k d with
  | None => true
  | Some (JObj _) => true
  | Some _ => false
  end.

(** The fields of a plot specification pass the argument checks: only
    fields of the variant, [title] and [content] strings, [configuration] an
    object. *)
Definition plot_typed (kw : pydict) : bool :=
  keys_within ["title"; "content"; "configuration"] kw
  && str_or_absent "title" kw && str_or_absent "content" kw
  && dict_or_absent "configuration" kw.

(** The label the configuration of a plot lacks: [x-label] if it is absent,
    else [y-label] if that one is; an absent configuration is empty. *)
Definition missing_label (kw : pydict) : option string :=
  let c := match dict_get "configuration" kw with
           | Some (JObj c) => c
           | _ => []
           end in
  match dict_get "x-label" c, dict_get "y-label" c with
  | None, _ => Some "x-label"
  | Some _, None => Some "y-label"
  | Some _, Some _ => None
  end.

(** A run that ends at the slide after the [n] valid ones with the error
    text [m] logged: it returns normally, has logged the load, each slide
    built, then the error, and has written nothing. *)
Definition reported (w : World) (config output : string) (n : nat)
  (s0 : State) (m : list log_piece) : Prop :=
  exists s,
    App.generate w config output s0 = (inr tt, s)
    /\ files s = files s0
    /\ records s =
         (records s0 ++ loaded config :: map generated (seq 1 n))
         ++ [logged ERROR m].

(** A run that ends at that slide with the exception [e] leaving
    [generate]: nothing is logged for it and nothing is written. *)
Definition escaped (w : World) (config output : string) (n : nat)
  (s0 : State) (e : exn) : Prop :=
  exists s,
    App.generate w config output s0 = (inl e, s)
    /\ files s = files s0
    /\ records s = records s0 ++ loaded config :: map generated (seq 1 n).

Module Examples.

(** A small environment: the configuration file [config.json] holds the
    document [doc], [binary.json] holds bytes that are no text, no other
    file exists, [picture.png] is an image, [data.csv] loads as [table],
    the rendering layer takes the levels 0 to 8, and every path can be
    written. *)
Definition world (doc : json) (table : loadtxt_result) : World :=
  {| read_text := fun path =>
       if path =? "config.json" then Some "contents of config.json" else None;
     read_failure := fun path =>
       if path =? "binary.json" then RaisesValueError else RaisesOSError;
     json_loads := fun _ => inr doc;
     image_readable := fun path => path =? "picture.png";
     np_loadtxt := fun path =>
       if path =? "data.csv" then table
       else LoadtxtOSError [Lit "not found: "; Val (JStr path)];
     level_accepted := fun z => ((0 <=? z) && (z <=? 8))%Z;
     writable := fun _ => true |}.

(** [1;2] and [3;4] on two lines. *)
Definition two_rows : loadtxt_result :=
  LoadtxtArray (Array2 [[(1 # 1)%Q; (2 # 1)%Q]; [(3 # 1)%Q; (4 # 1)%Q]]).

Definition malformed : loadtxt_result :=
  LoadtxtValueError [Lit "could not convert string to float64"].

Definition title_spec : pydict :=
  [("type", JStr "title"); ("title", JStr "T"); ("content", JStr "C")].

Definition list_items : list json :=
  [JObj [("level", JInt 0); ("text", JStr "a")];
   JObj [("level", JInt 1); ("text", JStr "b")]].

Definition list_spec : pydict :=
  [("type", JStr "list"); ("title", JStr "L"); ("content", JArr list_items)].

Definition plot_spec : pydict :=
  [("type", JStr "plot"); ("title", JStr "P"); ("content", JStr "data.csv");
   ("configuration", JObj [("x-label", JStr "x"); ("y-label", JStr "y")])].

(** A plot specification without [x-label]. *)
Definition plot_spec_no_xlabel : pydict :=
  [("type", JStr "plot"); ("content", JStr "data.csv");
   ("configuration", JObj [("y-label", JStr "y")])].

(** A title specification with a field the variant does not have. *)
Definition title_spec_extra : pydict :=
  [("type", JStr "title"); ("subtitle", JStr "S")].

Definition unknown_spec : pydict :=
  [("type", JStr "chart"); ("title", JStr "U")].

End Examples.

Module Runs.

(** Concrete runs of [generate] used below, all on [config.json] and
    [out.pptx], from the state of a fresh process. *)

Definition valid_specs : list pydict :=
  [Examples.title_spec; Examples.list_spec; Examples.plot_spec;
   Examples.plot_spec].

Definition valid_world : World :=
  Examples.world (config_document valid_specs) Examples.two_rows.

(** A configuration whose second item is not an object. *)
Definition mixed_document : json :=
  JObj [("presentation", JArr [JObj Examples.title_spec; JInt 5])].

Definition mixed_world : World :=
  Examples.world mixed_document Examples.two_rows.

(** A valid slide, then one with a field its variant does not have, then
    another valid one. *)
Definition extra_field_specs : list pydict :=
  [Examples.title_spec; Examples.title_spec_extra; Examples.list_spec].

Definition extra_field_world : World :=
  Examples.world (config_document extra_field_specs) Examples.two_rows.

(** A plot slide whose data file numpy rejects. *)
Definition malformed_world : World :=
  Examples.world (config_document [Examples.plot_spec]) Examples.malformed.

Definition unknown_specs : list pydict :=
  [Examples.title_spec; Examples.unknown_spec; Examples.list_spec].

Definition unknown_world : World :=
  Examples.world (config_document unknown_specs) Examples.two_rows.

Definition no_xlabel_specs : list pydict :=
  [Examples.title_spec; Examples.plot_spec_no_xlabel].

Definition no_xlabel_world : World :=
  Examples.world (config_document no_xlabel_specs) Examples.two_rows.

End Runs.

(** *** Vocabulary for the dispatcher *)


Definition option_of (p : Cli.DocstringParam) : string :=
  ("--" ++ Cli.hyphenate (Cli.arg_name p))%string.





Module CliExamples.

(** A parameter documented as [factor (float): The factor]. *)
Definition float_param : Cli.DocstringParam :=
  {| Cli.arg_name := "factor"; Cli.type_name := Some "float";
     Cli.is_optional := Some false;
     Cli.param_description := Some "The factor" |}.

(** [verbose (bool): More output], [count (int, optional): How many] and
    [out_file (str): Where to write]. *)
Definition mixed_params : list Cli.DocstringParam :=
  [{| Cli.arg_name := "verbose"; Cli.type_name := Some "bool";
      Cli.is_optional := Some false;
      Cli.param_description := Some "More output" |};
   {| Cli.arg_name := "count"; Cli.type_name := Some "int";
      Cli.is_optional := Some true;
      Cli.param_description := Some "How many" |};
   {| Cli.arg_name := "out_file"; Cli.type_name := Some "str";
      Cli.is_optional := Some false;
      Cli.param_description := Some "Where to write" |}].

Definition scale_doc : string := "Scale the deck

        Multiplies every size.

        Args:
            factor (float): The factor
        ".

Definition scale_doc_parsed : Cli.Docstring :=
  {| Cli.short_description := Some "Scale the deck";
     Cli.long_description := Some "Multiplies every size.";
     Cli.params := [float_param] |}.

(** A runtime that reads the docstrings of [App] and [scale_doc] as
    docstring_parser does, and no integers.  Of the attributes the
    interpreter gives the module object it shows [__class__], the module
    type, which makes a module of any string, and [__name__] and [__doc__],
    strings, which argparse refuses as not callable. *)
Definition runtime : Cli.Runtime :=
  {| Cli.docstring_parse := fun text =>
       if text =? App.App_doc then App.App_doc_parsed
       else if text =? App.generate_doc then App.generate_doc_parsed
       else if text =? scale_doc then scale_doc_parsed
       else Cli.empty_docstring;
     Cli.int_of_str := fun _ => None;
     Cli.module_attribute := fun n =>
       if n =? "__class__" then Some Cli.Callable
       else if (n =? "__name__") || (n =? "__doc__")
       then Some (Cli.Refused (ValueError [Lit "type is not callable"]))
       else None;
     Cli.call_attribute := fun n raw => Cli.Converted (Cli.VConverted n raw) |}.


Definition fresh_parser : Cli.Parser :=
  {| Cli.parser_description := "Scale the deck"; Cli.defaults_cmd := "scale";
     Cli.arguments := [] |}.

(** A handler whose class has no docstring. *)
Definition undocumented : Cli.Handler :=
  {| Cli.class_name := "Bare"; Cli.class_doc := None; Cli.methods := [] |}.

End CliExamples.

(** *** Vocabulary for the variants *)

(** The keyword parameters of the constructor a tag selects. *)
Definition keywords_of (t : string) : list string :=
  if t =? "plot" then ["title"; "content"; "configuration"]
  else ["title"; "content"].

(** The slide a variant has appended when all it has done is set the
    title: the layout, the title, nothing else. *)
Definition titled_slide (layout_index : nat) (title : string) : Slide :=
  {| layout := layout_index; title_text := title;
     placeholder_text := EmptyString; body := []; shapes := [] |}.

(** The value of [level] in an entry of a list slide, as loaded. *)
Definition level_json (e : json) : json :=
  match e with
  | JObj d => match dict_get "level" d with Some l => l | None => JNull end
  | _ => JNull
  end.

(** The paragraph an entry has become when its level is refused: the text
    is set, the level is still the default. *)
Definition paragraph_without_level (e : json) : Paragraph :=
  {| p_text := p_text (paragraph_of e); p_level := 0%Z |}.

(** A step keeps the deck of the form [l] plus the slide under
    construction. *)
Definition holds_deck (l : list Slide) (s s' : State) : Prop :=
  (exists x, slides s = l ++ [x]) -> exists x', slides s' = l ++ [x'].

(** A step leaves the pyplot figure alone. *)
Definition same_figure (s s' : State) : Prop := figure s' = figure s.

(** The last record of a run that saved the deck, and of one that could
    not. *)
Definition saved (output : string) : LogRecord :=
  logged INFO [Text "Presentation saved: "; Text dquote; Text output;
               Text dquote].

Definition not_saved (output : string) : LogRecord :=
  logged ERROR [Text "Couldn't save presentation to "; Text dquote;
                Text output; Text dquote; Text "! ";
                Str (OSError [Lit "cannot write "; Val (JStr output)])].

(** A loaded document the shape check is sure to refuse: it is no object,
    it has no [presentation] key, the value of that key is no list, or the
    first item of the list is no object. *)
Definition refused_shape (data : json) : bool :=
  match data with
  | JObj d =>
      match dict_get "presentation" d with
      | None => true
      | Some (JArr []) => false
      | Some (JArr (JObj _ :: _)) => false
      | Some _ => true
      end
  | _ => true
  end.

(** The state of a run that ended in its first [try]: the deck is new and
    empty, the error text [m] is logged, nothing else has changed. *)
Definition load_failed (s0 : State) (m : list log_piece) : State :=
  set_records (fun r => r ++ [logged ERROR m]) (set_slides (fun _ => []) s0).

(** The documents the shape check lets through: an object whose only key is
    [presentation], holding a list that is empty or starts with an
    object. *)
Definition accepted_shape (data : json) : bool :=
  match data with
  | JObj d =>
      keys_within ["presentation"] d
      && match dict_get "presentation" d with
         | Some (JArr []) => true
         | Some (JArr (JObj _ :: _)) => true
         | _ => false
         end
  | _ => false
  end.

(** Names as the dispatcher's callers write them: Python identifiers hold no
    hyphen; [plain_name] also excludes a leading underscore and the name
    [cmd], which [run] keeps for the subcommand. *)
Fixpoint no_hyphen (s : string) : bool :=
  match s with
  | EmptyString => true
  | String c s' => negb (Ascii.eqb c Cli.hyphen) && no_hyphen s'
  end.

Definition plain_name (s : string) : bool :=
  no_hyphen s
  && match s with
     | EmptyString => true
     | String c _ => negb (Ascii.eqb c Cli.underscore)
     end
  && negb (s =? "cmd").

Definition named (f : Cli.Function) : bool :=
  negb (Cli.name f =? EmptyString).

(** The method the loop of [__init__] leaves under the key [''] : the last
    in [dir] order that carries both marks. *)
Fixpoint last_default (attrs : list Cli.Function) : option Cli.Function :=
  match attrs with
  | [] => None
  | f :: rest =>
      match last_default rest with
      | Some g => Some g
      | None =>
          if Cli.is_command f && Cli.is_default_command f then Some f
          else None
      end
  end.

(** No flag of any subcommand writes the attribute [cmd] of the
    namespace. *)
Definition no_cmd_flag (self : Cli.Interface) : bool :=
  forallb
    (fun np =>
       forallb
         (fun a => negb (Cli.dest_of (Cli.option_string a) =? "cmd"))
         (Cli.arguments (snd np)))
    (Cli.subparsers self).

(** Every subcommand has its method: the subparser registered under a name
    sets [cmd] to that name, and [_cmds] holds under it a method of the
    handler marked as a command and not as the default, whose name,
    hyphenated, is that name. *)
Definition subcommand_of (all : list Cli.Function) (n : string)
  (f : Cli.Function) : Prop :=
  In f all
  /\ Cli.hyphenate (Cli.name f) = n
  /\ Cli.is_command f = true
  /\ Cli.is_default_command f = false.

Definition dispatchable (all : list Cli.Function) (self : Cli.Interface)
  : Prop :=
  forall n p,
    In (n, p) (Cli.subparsers self) ->
    Cli.defaults_cmd p = n
    /\ exists f, Cli.lookup n (Cli.cmds self) = Some f /\ subcommand_of all n f.

(** The two marked methods of [App] and the handler the class statement
    makes of them. *)
Definition generate_method : Cli.Function :=
  {| Cli.name := "generate"; Cli.doc := Some App.generate_doc;
     Cli.is_command := true; Cli.is_default_command := false |}.

Definition default_method : Cli.Function :=
  {| Cli.name := "default"; Cli.doc := None;
     Cli.is_command := true; Cli.is_default_command := true |}.

Definition App_handler : Cli.Handler :=
  {| Cli.class_name := "App"; Cli.class_doc := Some App.App_doc;
     Cli.methods :=
       [App.def "__init__" None; App.def "_configure_logger" None;
        default_method; generate_method;
        App.def "run" (Some "Parse commandline arguments and execute the corresponding command.")] |}.

(** [placeholders[1].text_frame.paragraphs] of a slide whose placeholder
    text was not set: the empty paragraph the text frame of a new
    placeholder holds, then the appended ones. *)
Definition frame_paragraphs (sl : Slide) : list Paragraph :=
  {| p_text := EmptyString; p_level := 0%Z |} :: body sl.

Module Edge.




(** Two records with integer levels, the second at level 9. *)
Definition deep_items : list json :=
  [JObj [("level", JInt 0); ("text", JStr "a")];
   JObj [("level", JInt 9); ("text", JStr "b")]].

End Edge.

(** The exception [e] is what the type of a flag of the parser, a callable
    attribute of the module, raises on some string, and argparse does not
    catch it. *)
Definition converter_raises (rt : Cli.Runtime) (p : Cli.Parser) (e : exn)
  : Prop :=
  exists a n req raw,
    In a (Cli.arguments p)
    /\ Cli.action a = Cli.store (Cli.conv_callable n) req
    /\ Cli.call rt n raw = Cli.Raised e.

Module Marker.

(** A command whose parameter is documented with the type [command], a
    callable the module binds:
    [x (command): A value]. *)
Definition go_doc : string := "Go somewhere

        The long description.

        Args:
            x (command): A value
        ".

Definition go_doc_parsed : Cli.Docstring :=
  {| Cli.short_description := Some "Go somewhere";
     Cli.long_description := Some "The long description.";
     Cli.params :=
       [{| Cli.arg_name := "x"; Cli.type_name := Some "command";
           Cli.is_optional := Some false;
           Cli.param_description := Some "A value" |}] |}.

Definition runtime : Cli.Runtime :=
  {| Cli.docstring_parse := fun text =>
       if text =? go_doc then go_doc_parsed
       else Cli.docstring_parse CliExamples.runtime text;
     Cli.int_of_str := Cli.int_of_str CliExamples.runtime;
     Cli.module_attribute := Cli.module_attribute CliExamples.runtime;
     Cli.call_attribute := Cli.call_attribute CliExamples.runtime |}.

Definition go_method : Cli.Function :=
  {| Cli.name := "go"; Cli.doc := Some go_doc; Cli.is_command := true;
     Cli.is_default_command := false |}.

Definition goer : Cli.Handler :=
  {| Cli.class_name := "Goer"; Cli.class_doc := Some App.App_doc;
     Cli.methods := [go_method] |}.

End Marker.

(* ===================================================================== *)
(** ** Properties *)
(* ===================================================================== *)

(** *** Lists and dicts *)

Lemma update_nth_middle {A : Type} (f : A -> A) (l r : list A) (x : A) :
  update_nth (length l) f (l ++ x :: r) = l ++ f x :: r.
Proof. induction l as [|a l IH]; simpl; [reflexivity | now rewrite IH]. Qed.

Lemma update_nth_last {A : Type} (f : A -> A) (l : list A) (x : A) :
  update_nth (length l) f (l ++ [x]) = l ++ [f x].
Proof. apply update_nth_middle. Qed.

Lemma update_nth_other {A : Type} (f : A -> A) (l : list A) (n j : nat) (d : A) :
  j <> n -> nth j (update_nth n f l) d = nth j l d.
Proof.
  revert n j. induction l as [|a l IH]; intros [|n] [|j] H; simpl; auto.
  - contradiction.
Qed.

Lemma update_nth_same {A : Type} (f : A -> A) (l : list A) (n : nat) (d : A) :
  n < length l -> nth n (update_nth n f l) d = f (nth n l d).
Proof.
  revert n. induction l as [|a l IH]; intros [|n] H; simpl in *; try lia; auto.
  apply IH. lia.
Qed.

Lemma dict_get_del_same (k : string) (d : pydict) :
  dict_get k (dict_del k d) = None.
Proof.
  induction d as [|[k' v] d IH]; simpl; auto.
  destruct (k =? k') eqn:E; auto. simpl. now rewrite E.
Qed.

Lemma dict_get_keys (k : string) (d : pydict) (v : json) :
  dict_get k d = Some v -> mem_string k (dict_keys d) = true.
Proof.
  induction d as [|[k' x] d IH]; simpl; [discriminate|].
  destruct (k =? k'); simpl; auto.
Qed.

Lemma bind_keywords_within (ks : list string) (d : pydict) :
  keys_within ks d = true ->
  mem_string "self" ks = false ->
  mem_string "presentation" ks = false ->
  Slides.bind_keywords ks d = inr tt.
Proof.
  intros H Hs Hp. induction d as [|[k v] d IH]; [reflexivity|].
  unfold keys_within in H. simpl in H. apply andb_prop in H as [Hk H].
  change (Slides.bind_keywords ks ((k, v) :: d)) with
    (if mem_string k ["self"; "presentation"]
     then inl (TypeError [Lit "got multiple values for argument "; Val (JStr k)])
     else if mem_string k ks then Slides.bind_keywords ks d
     else inl (TypeError [Lit "got an unexpected keyword argument "; Val (JStr k)])).
  assert (E : mem_string k ["self"; "presentation"] = false).
  { unfold mem_string at 1. cbn [existsb].
    destruct (k =? "self") eqn:E1.
    - apply String.eqb_eq in E1. subst. congruence.
    - destruct (k =? "presentation") eqn:E2; [|reflexivity].
      apply String.eqb_eq in E2. subst. congruence. }
  rewrite E, Hk. now apply IH.
Qed.

(** *** Running the variants on valid fields *)

Ltac split_andb :=
  repeat match goal with
         | H : _ && _ = true |- _ => apply andb_prop in H; destruct H
         end.

Ltac keywords_ok H :=
  unfold bind at 1; unfold lift at 1;
  rewrite (bind_keywords_within _ _ H eq_refl eq_refl).

Lemma TitleSlide_valid (w : World) (kw : pydict) (s : State) :
  valid_fields w "title" kw = true ->
  Slides.TitleSlide kw s =
  (inr (length (slides s)),
   set_slides (fun l => l ++ [slide_of w "title" kw (figure s)]) s).
Proof.
  intro V. cbn in V. split_andb. unfold Slides.TitleSlide.
  keywords_ok H.
  unfold str_or_absent, Slides.keyword in *.
  unfold slide_of, text_of; cbn [String.eqb Ascii.eqb Bool.eqb].
  destruct (dict_get "title" kw) as [[]|]; try discriminate;
  destruct (dict_get "content" kw) as [[]|]; try discriminate;
  cbn; unfold ret, set_slides; simpl; rewrite !update_nth_last; reflexivity.
Qed.

Lemma TextSlide_valid (w : World) (kw : pydict) (s : State) :
  valid_fields w "text" kw = true ->
  Slides.TextSlide kw s =
  (inr (length (slides s)),
   set_slides (fun l => l ++ [slide_of w "text" kw (figure s)]) s).
Proof.
  intro V. cbn in V. split_andb. unfold Slides.TextSlide.
  keywords_ok H.
  unfold str_or_absent, Slides.keyword in *.
  unfold slide_of, text_of; cbn [String.eqb Ascii.eqb Bool.eqb].
  destruct (dict_get "title" kw) as [[]|]; try discriminate;
  destruct (dict_get "content" kw) as [[]|]; try discriminate;
  cbn; unfold ret, set_slides; simpl; rewrite !update_nth_last; reflexivity.
Qed.

Lemma PictureSlide_valid (w : World) (kw : pydict) (s : State) :
  valid_fields w "picture" kw = true ->
  Slides.PictureSlide w kw s =
  (inr (length (slides s)),
   set_slides (fun l => l ++ [slide_of w "picture" kw (figure s)]) s).
Proof.
  intro V. cbn in V. split_andb. unfold Slides.PictureSlide.
  keywords_ok H.
  unfold str_or_absent, Slides.keyword in *.
  unfold slide_of; cbn [String.eqb Ascii.eqb Bool.eqb].
  unfold text_of in *.
  destruct (dict_get "title" kw) as [[]|]; try discriminate;
  destruct (dict_get "content" kw) as [[]|]; try discriminate;
  cbn; unfold Pptx.add_picture_file; cbn;
  match goal with H : image_readable _ _ = true |- _ => rewrite H end;
  cbn; unfold ret, set_slides; simpl; rewrite !update_nth_last; reflexivity.
Qed.

Lemma nth_error_last {A : Type} (l : list A) (x : A) :
  nth_error (l ++ [x]) (length l) = Some x.
Proof. induction l; simpl; auto. Qed.

Lemma add_list_items_valid (w : World) (l : list Slide) (items : list json) :
  forall (sl : Slide) (fig : Figure) rs fs hp,
  forallb (fun e => is_list_element e && level_accepted w (level_of e)) items = true ->
  Slides.add_list_items w (length l) items
    {| slides := l ++ [sl]; figure := fig; records := rs; files := fs; heap := hp |} =
  (inr tt,
   {| slides := l ++ [with_body sl (body sl ++ map paragraph_of items)];
      figure := fig; records := rs; files := fs; heap := hp |}).
Proof.
  induction items as [|e items IH]; intros sl fig rs fs hp V.
  - simpl. unfold ret, with_body. rewrite app_nil_r. now destruct sl.
  - simpl in V. split_andb.
    destruct e as [| | | | | |d]; try discriminate.
    cbn [is_list_element] in H. split_andb.
    destruct (dict_get "level" d) as [lv|] eqn:El; try discriminate.
    destruct (as_int lv) as [z|] eqn:Ez; try discriminate.
    destruct (dict_get "text" d) as [[]|] eqn:Et; try discriminate.
    assert (Hz : level_accepted w z = true).
    { match goal with
      | L : level_accepted w (level_of (JObj d)) = true |- _ =>
          unfold level_of in L; rewrite El, Ez in L; exact L
      end. }
    cbn [Slides.add_list_items].
    unfold bind at 1. unfold Pptx.add_paragraph. unfold bind at 1. unfold get.
    unfold bind at 1. unfold Pptx.on_body, Pptx.on_slide, modify, set_slides; cbn [slides figure records files heap].
    rewrite nth_error_last, update_nth_last. unfold ret.
    unfold bind at 1. unfold lift at 1. cbn [subscript]. rewrite Et.
    unfold bind at 1. unfold Pptx.set_paragraph_text. unfold bind at 1. unfold lift at 1.
    cbn [Pptx.text_value as_str]. unfold Pptx.on_body, Pptx.on_slide, modify, set_slides; cbn [slides figure records files heap body layout title_text placeholder_text shapes].
    rewrite !update_nth_last.
    unfold bind at 1. unfold lift at 1. rewrite El.
    unfold bind at 1. unfold Pptx.set_paragraph_level. rewrite Ez.
    rewrite Hz.
    unfold Pptx.on_body, Pptx.on_slide, modify, set_slides; cbn [slides figure records files heap body layout title_text placeholder_text shapes].
    rewrite !update_nth_last.
    rewrite IH by assumption.
    unfold with_body; cbn [layout title_text placeholder_text body shapes p_text p_level].
    rewrite !update_nth_last. cbn [p_text p_level]. rewrite <- app_assoc. cbn [map app paragraph_of].
    unfold level_of, text_of. rewrite El, Ez, Et. reflexivity.
Qed.

Lemma no_extra_keys (ks : list string) (d : pydict) :
  keys_within ks d = true ->
  filter (fun k => negb (mem_string k ks)) (dict_keys d) = [].
Proof.
  unfold keys_within, dict_keys.
  induction (map fst d) as [|k l IH]; simpl; intro H; [reflexivity|].
  apply andb_prop in H as [Hk H]. rewrite Hk. simpl. auto.
Qed.

Lemma list_element_checks (st : Typeguard.CollectionCheckStrategy) (e : json) :
  is_list_element e = true -> Typeguard.check st Slides.ListElements e = None.
Proof.
  destruct e as [| | | | | |d]; try discriminate.
  cbn [is_list_element]. intro H. split_andb.
  destruct (dict_get "level" d) as [lv|] eqn:El; try discriminate.
  destruct (dict_get "text" d) as [tx|] eqn:Et; try discriminate.
  unfold Slides.ListElements. cbn [Typeguard.check map fst].
  rewrite (no_extra_keys _ _ H).
  cbn [filter]. rewrite (dict_get_keys _ _ _ El), (dict_get_keys _ _ _ Et).
  cbn [negb]. rewrite El, Et.
  destruct lv; try discriminate; destruct tx; try discriminate; reflexivity.
Qed.

Lemma list_content_checks (w : World) (items : list json) :
  forallb (fun e => is_list_element e && level_accepted w (level_of e)) items = true ->
  Typeguard.check Typeguard.default_strategy
    (Typeguard.HList Slides.ListElements) (JArr items) = None.
Proof.
  intro V. cbn [Typeguard.check Typeguard.default_strategy Typeguard.iterate_samples].
  destruct items as [|e items]; [reflexivity|].
  simpl in V. split_andb. cbn [firstn Typeguard.check_items].
  now rewrite list_element_checks.
Qed.

Lemma ListSlide_valid (w : World) (kw : pydict) (s : State) :
  valid_fields w "list" kw = true ->
  Slides.ListSlide w kw s =
  (inr (length (slides s)),
   set_slides (fun l => l ++ [slide_of w "list" kw (figure s)]) s).
Proof.
  intro V. cbn in V. split_andb. unfold Slides.ListSlide.
  keywords_ok H.
  unfold str_or_absent, list_or_absent, entries_of, Slides.keyword in *.
  unfold slide_of; cbn [String.eqb Ascii.eqb Bool.eqb].
  unfold text_of, entries_of.
  destruct s as [sls fig rs fs hp].
  destruct (dict_get "title" kw) as [[]|]; try discriminate;
  destruct (dict_get "content" kw) as [[]|]; try discriminate;
  unfold bind at 1; unfold lift at 1;
  cbn [Typeguard.check_arguments];
  rewrite (list_content_checks w _ H0);
  cbn -[Slides.add_list_items];
  unfold set_slides; cbn [slides figure records files heap];
  rewrite update_nth_last;
  unfold bind at 1; rewrite add_list_items_valid by assumption; reflexivity.
Qed.

Lemma PlotSlide_valid (w : World) (kw : pydict) (s : State) :
  valid_fields w "plot" kw = true ->
  Slides.PlotSlide w kw s =
  (inr (length (slides s)),
   set_figure (plotted w kw)
     (set_slides (fun l => l ++ [slide_of w "plot" kw (figure s)]) s)).
Proof.
  intro V. cbn in V. split_andb. unfold Slides.PlotSlide.
  keywords_ok H.
  unfold slide_of; cbn [String.eqb Ascii.eqb Bool.eqb].
  unfold plotted, series_of.
  destruct (labels_of kw) as [[xl yl]|] eqn:L; try discriminate.
  destruct (table_of w (text_of "content" kw)) as [[x y]|] eqn:T; try discriminate.
  unfold labels_of in L. unfold table_of in T.
  unfold str_or_absent, Slides.keyword in *. unfold text_of in *.
  destruct s as [sls fig rs fs hp].
  destruct (dict_get "configuration" kw) as [[]|]; try discriminate.
  destruct (dict_get "x-label" entries) as [xl'|] eqn:Ex; try discriminate.
  destruct (dict_get "y-label" entries) as [yl'|] eqn:Ey; try discriminate.
  injection L as -> ->.
  destruct (dict_get "title" kw) as [[]|]; try discriminate;
  destruct (dict_get "content" kw) as [[]|]; try discriminate;
  (destruct (np_loadtxt w _) as [| |[|rows]] eqn:N; try discriminate);
  (destruct (Numpy.column_of 0 rows) eqn:C0; try discriminate);
  (destruct (Numpy.column_of 1 rows) eqn:C1; try discriminate);
  injection T as -> ->;
  cbn; unfold Numpy.loadtxt; cbn; rewrite N; cbn; rewrite C0; cbn; rewrite C1; cbn;
  rewrite Ex; cbn; rewrite Ey; cbn;
  unfold ret, set_slides, set_figure; simpl; rewrite !update_nth_last; reflexivity.
Qed.

Lemma pop_type_some (i : nat) (s : State) (d : pydict) (t : json) :
  nth i (heap s) JNull = JObj d ->
  dict_get "type" d = Some t ->
  Slides.pop_type i s =
  (inr (t, dict_del "type" d),
   set_heap (update_nth i (fun _ => JObj (dict_del "type" d))) s).
Proof.
  intros H T. unfold Slides.pop_type, bind, get. rewrite H.
  unfold dict_pop. rewrite T. reflexivity.
Qed.

Lemma pop_type_none (i : nat) (s : State) (d : pydict) :
  nth i (heap s) JNull = JObj d ->
  dict_get "type" d = None ->
  Slides.pop_type i s = (inl (KeyError "type"), s).
Proof.
  intros H T. unfold Slides.pop_type, bind, get. rewrite H.
  unfold dict_pop. rewrite T. reflexivity.
Qed.

Lemma from_dict_valid (w : World) (i : nat) (s : State) (d : pydict) (t : string) :
  nth i (heap s) JNull = JObj d ->
  dict_get "type" d = Some (JStr t) ->
  valid_fields w t (dict_del "type" d) = true ->
  Slides.from_dict w i s =
  (inr (length (slides s)), built w i t (dict_del "type" d) s).
Proof.
  intros H T V. unfold Slides.from_dict. unfold bind at 1.
  rewrite (pop_type_some _ _ _ _ H T). cbn [fst snd Slides.match_type].
  unfold built, figure_after.
  destruct (t =? "title") eqn:E1.
  { apply String.eqb_eq in E1. subst t. rewrite (TitleSlide_valid w) by exact V.
    now destruct s. }
  destruct (t =? "text") eqn:E2.
  { apply String.eqb_eq in E2. subst t. rewrite (TextSlide_valid w) by exact V.
    now destruct s. }
  destruct (t =? "list") eqn:E3.
  { apply String.eqb_eq in E3. subst t. rewrite (ListSlide_valid w) by exact V.
    now destruct s. }
  destruct (t =? "picture") eqn:E4.
  { apply String.eqb_eq in E4. subst t. rewrite (PictureSlide_valid w) by exact V.
    now destruct s. }
  destruct (t =? "plot") eqn:E5.
  { apply String.eqb_eq in E5. subst t. rewrite (PlotSlide_valid w) by exact V.
    now destruct s. }
  unfold valid_fields in V. rewrite E1, E2, E3, E4, E5 in V. discriminate.
Qed.

Lemma valid_spec_inv (w : World) (d : pydict) :
  valid_spec w d = true ->
  exists t, dict_get "type" d = Some (JStr t)
            /\ valid_fields w t (dict_del "type" d) = true.
Proof.
  unfold valid_spec. destruct (dict_get "type" d) as [[]|]; try discriminate.
  eauto.
Qed.

Lemma slides_loop_valid (w : World) (specs : list pydict) (tl : list json) :
  forall (done : list pydict) (s : State),
  heap s = map JObj done ++ map JObj specs ++ tl ->
  forallb (valid_spec w) specs = true ->
  exists s',
    App.slides_loop w (length done) (map JObj specs) s = (inr App.Next, s')
    /\ slides s' = fst (build_all w specs (slides s) (figure s))
    /\ figure s' = snd (build_all w specs (slides s) (figure s))
    /\ records s' =
         records s ++ map generated (seq (S (length done)) (length specs))
    /\ files s' = files s
    /\ heap s' = map JObj done ++ map JObj (map (dict_del "type") specs) ++ tl.
Proof.
  induction specs as [|d specs IH]; intros done s Hh V.
  - exists s. simpl. rewrite app_nil_r. simpl in Hh. repeat split; auto.
  - simpl in V. apply andb_prop in V as [Vd V].
    destruct (valid_spec_inv _ _ Vd) as (t & T & F).
    assert (Hn : nth (length done) (heap s) JNull = JObj d).
    { rewrite Hh. cbn [map app]. rewrite <- (@length_map pydict json JObj done).
      apply nth_middle. }
    cbn [map App.slides_loop]. unfold bind at 1. unfold try_except.
    unfold bind at 1. rewrite (from_dict_valid w _ _ _ _ Hn T F).
    unfold ret at 1. unfold bind at 1. unfold App.info at 1, modify at 1.
    match goal with
    | |- context [App.slides_loop w (S (length done)) _ ?s1] =>
        destruct (IH (done ++ [dict_del "type" d]) s1)
          as (s' & L & S1 & S2 & S3 & S4 & S5)
    end.
    + cbn [heap set_records built]. rewrite Hh. cbn [map app].
      rewrite <- (@length_map pydict json JObj done), update_nth_middle.
      rewrite map_app, <- app_assoc. reflexivity.
    + exact V.
    + rewrite length_app, Nat.add_comm in L. cbn [length Nat.add] in L.
      exists s'. split; [exact L|].
      cbn [slides figure records files heap set_records built] in *.
      cbn [build_all]. rewrite T.
      repeat split; try assumption.
      * rewrite S3. rewrite length_app, Nat.add_comm. cbn [length Nat.add seq map].
        rewrite <- app_assoc. rewrite Nat.add_comm. reflexivity.
      * rewrite S5, map_app, <- app_assoc. reflexivity.
Qed.

Lemma dict_get_del_other (k k' : string) (d : pydict) :
  (k =? k') = false -> dict_get k (dict_del k' d) = dict_get k d.
Proof.
  intro N. induction d as [|[k0 v] d IH]; simpl; auto.
  destruct (k' =? k0) eqn:E.
  - apply String.eqb_eq in E. subst k0. now rewrite N.
  - simpl. now rewrite IH.
Qed.

Lemma slide_of_layout (w : World) (t : string) (kw : pydict) (fig : Figure) :
  valid_fields w t kw = true ->
  layout (slide_of w t kw fig) = layout_of (JStr t)
  /\ title_text (slide_of w t kw fig) = text_of "title" kw.
Proof.
  unfold valid_fields, slide_of, layout_of.
  destruct (t =? "title") eqn:E1; [now split|].
  destruct (t =? "text") eqn:E2.
  { apply String.eqb_eq in E2. subst t. now split. }
  destruct (t =? "list") eqn:E3; [now split|].
  destruct (t =? "picture") eqn:E4; [now split|].
  destruct (t =? "plot") eqn:E5; [now split|].
  discriminate.
Qed.

Lemma build_all_app (w : World) (specs : list pydict) :
  forall deck fig,
  forallb (valid_spec w) specs = true ->
  exists new,
    fst (build_all w specs deck fig) = deck ++ new
    /\ map layout new = map (fun d => layout_of (type_of d)) specs
    /\ map title_text new = map (text_of "title") specs.
Proof.
  induction specs as [|d specs IH]; intros deck fig V.
  - exists []. simpl. now rewrite app_nil_r.
  - simpl in V. apply andb_prop in V as [Vd V].
    destruct (valid_spec_inv _ _ Vd) as (t & T & F).
    cbn [build_all]. rewrite T.
    destruct (IH (deck ++ [slide_of w t (dict_del "type" d) fig])
                 (figure_after w t (dict_del "type" d) fig) V)
      as (new & E & L & Ti).
    exists (slide_of w t (dict_del "type" d) fig :: new).
    rewrite E, <- app_assoc. split; [reflexivity|].
    destruct (slide_of_layout w t _ fig F) as [Sl St].
    cbn [map]. unfold type_of at 1. rewrite T, Sl, St, L, Ti.
    unfold text_of at 1. rewrite dict_get_del_other by reflexivity.
    split; reflexivity.
Qed.

Lemma config_document_checks (specs : list pydict) :
  Typeguard.check_type (config_document specs) App.Config = inr tt.
Proof.
  unfold Typeguard.check_type, config_document, App.Config.
  destruct specs; reflexivity.
Qed.

Lemma generate_valid
  (w : World) (config output text : string) (specs : list pydict) (s0 : State) :
  read_text w config = Some text ->
  json_loads w text = inr (config_document specs) ->
  forallb (valid_spec w) specs = true ->
  exists s,
    App.generate w config output s0 = (inr tt, s)
    /\ slides s = fst (build_all w specs [] (figure s0))
    /\ figure s = snd (build_all w specs [] (figure s0))
    /\ length (slides s) = length specs
    /\ map layout (slides s) = map (fun d => layout_of (type_of d)) specs
    /\ map title_text (slides s) = map (text_of "title") specs
    /\ files s =
         files s0 ++ (if writable w output then [(output, slides s)] else []).
Proof.
  intros R J V. unfold App.generate.
  unfold bind at 1. unfold modify at 1.
  unfold bind at 1. unfold try_except at 1. unfold bind at 1.
  unfold App.load. rewrite R, J. unfold bind at 1. unfold lift at 1.
  rewrite config_document_checks. unfold ret at 1 2.
  unfold bind at 1. unfold App.info at 1, modify at 1.
  unfold bind at 1. unfold App.presentation_items, config_document.
  cbn [subscript dict_get String.eqb Ascii.eqb Bool.eqb]. unfold bind at 1, lift at 1, ret at 1.
  unfold bind at 1. unfold modify at 1.
  unfold bind at 1.
  match goal with
  | |- context [App.slides_loop w 0 _ ?s1] =>
      destruct (slides_loop_valid w specs [] [] s1
                  (eq_sym (app_nil_r _)) V)
        as (s' & L & S1 & S2 & S3 & S4 & S5)
  end.
  cbn [length] in L. rewrite L.
  cbn [slides figure records files heap set_slides set_records set_heap] in *.
  destruct (build_all_app w specs [] (figure s0) V) as (new & E & La & Ti).
  cbn [app] in E.
  assert (Len : length (slides s') = length specs).
  { rewrite S1, E, <- (length_map layout), La. apply length_map. }
  unfold bind at 1, try_except at 1, bind at 1, Pptx.save.
  destruct (writable w output) eqn:Wr.
  - unfold bind at 1, get at 1, modify at 1, ret at 1.
    eexists. split; [reflexivity|].
    cbn [slides figure records files heap set_files set_records App.info modify].
    rewrite S1, S2, S4, E. repeat split; auto. now rewrite <- E, <- S1.
  - unfold raise at 1. cbn [is_OSError]. unfold bind at 1, App.error at 1, modify at 1, ret.
    eexists. split; [reflexivity|].
    cbn [slides figure records files heap set_files set_records].
    rewrite S1, S2, S4, E, app_nil_r. repeat split; auto. now rewrite <- E, <- S1.
Qed.

(** *** Frames *)

Section Keeps.

Variable P : State -> State -> Prop.
Hypothesis P_refl : forall s, P s s.
Hypothesis P_trans : forall s1 s2 s3, P s1 s2 -> P s2 s3 -> P s1 s3.

Lemma keeps_ret {A : Type} (a : A) : keeps P (ret a).
Proof. intro s. apply P_refl. Qed.

Lemma keeps_raise {A : Type} (e : exn) : keeps P (@raise A e).
Proof. intro s. apply P_refl. Qed.

Lemma keeps_lift {A : Type} (r : exn + A) : keeps P (lift r).
Proof. intro s. apply P_refl. Qed.

Lemma keeps_get : keeps P get.
Proof. intro s. apply P_refl. Qed.

Lemma keeps_bind {A B : Type} (m : M A) (k : A -> M B) :
  keeps P m -> (forall a, keeps P (k a)) -> keeps P (bind m k).
Proof.
  intros Hm Hk s. unfold bind. specialize (Hm s).
  destruct (m s) as [[e|a] s1]; simpl in *; [exact Hm|].
  eapply P_trans; [exact Hm | apply Hk].
Qed.

Lemma keeps_modify (f : State -> State) :
  (forall s, P s (f s)) -> keeps P (modify f).
Proof. intros H s. apply H. Qed.

End Keeps.

Lemma same_outputs_refl (s : State) : same_outputs s s.
Proof. unfold same_outputs. auto. Qed.

Lemma same_outputs_trans (s1 s2 s3 : State) :
  same_outputs s1 s2 -> same_outputs s2 s3 -> same_outputs s1 s3.
Proof. unfold same_outputs. intros (A & B & C) (D & E & F). repeat split; congruence. Qed.

Lemma same_outputs_slides (f : list Slide -> list Slide) (s : State) :
  same_outputs s (set_slides f s).
Proof. unfold same_outputs. auto. Qed.

Lemma same_outputs_figure (f : Figure -> Figure) (s : State) :
  same_outputs s (set_figure f s).
Proof. unfold same_outputs. auto. Qed.

Ltac frame_step :=
  first
    [ apply (keeps_ret _ same_outputs_refl)
    | apply (keeps_raise _ same_outputs_refl)
    | apply (keeps_lift _ same_outputs_refl)
    | apply (keeps_get _ same_outputs_refl)
    | apply keeps_modify; intro;
      first [apply same_outputs_slides | apply same_outputs_figure]
    | apply (keeps_bind _ same_outputs_trans); [|intro]
    | match goal with
      | |- keeps _ (match ?x with _ => _ end) => destruct x
      | |- keeps _ (if ?x then _ else _) => destruct x
      end ].

Ltac frame := repeat frame_step.

Lemma add_list_items_frame (w : World) (ref : nat) (content : list json) :
  keeps same_outputs (Slides.add_list_items w ref content).
Proof.
  induction content as [|e content IH]; cbn [Slides.add_list_items].
  - frame.
  - unfold Pptx.add_paragraph, Pptx.set_paragraph_text, Pptx.set_paragraph_level,
      Pptx.on_body, Pptx.on_slide.
    frame; exact IH.
Qed.

Lemma variants_frame (w : World) (kw : pydict) :
  keeps same_outputs (Slides.TitleSlide kw)
  /\ keeps same_outputs (Slides.TextSlide kw)
  /\ keeps same_outputs (Slides.ListSlide w kw)
  /\ keeps same_outputs (Slides.PictureSlide w kw)
  /\ keeps same_outputs (Slides.PlotSlide w kw).
Proof.
  unfold Slides.TitleSlide, Slides.TextSlide, Slides.ListSlide,
    Slides.PictureSlide, Slides.PlotSlide,
    Pptx.add_slide, Pptx.set_title, Pptx.set_placeholder_text, Pptx.add_shape,
    Pptx.add_picture_file, Pptx.on_slide,
    Numpy.loadtxt, Pyplot.plot, Pyplot.set_xlabel, Pyplot.set_ylabel,
    Pyplot.savefig.
  repeat split; frame; apply add_list_items_frame.
Qed.

Lemma match_type_frame (w : World) (type : json) (kw : pydict) :
  keeps same_outputs (Slides.match_type w type kw).
Proof.
  destruct (variants_frame w kw) as (T1 & T2 & T3 & T4 & T5).
  unfold Slides.match_type.
  destruct type; try apply (keeps_raise _ same_outputs_refl).
  repeat match goal with
         | |- keeps _ (if ?x then _ else _) => destruct x
         end;
    first [assumption | apply (keeps_raise _ same_outputs_refl)].
Qed.

Lemma from_dict_popped (w : World) (i : nat) (s : State) (d : pydict) (t : json) :
  nth i (heap s) JNull = JObj d ->
  dict_get "type" d = Some t ->
  Slides.from_dict w i s =
  Slides.match_type w t (dict_del "type" d)
    (set_heap (update_nth i (fun _ => JObj (dict_del "type" d))) s).
Proof.
  intros H T. unfold Slides.from_dict. unfold bind at 1.
  now rewrite (pop_type_some _ _ _ _ H T).
Qed.

Lemma from_dict_no_type (w : World) (i : nat) (s : State) (d : pydict) :
  nth i (heap s) JNull = JObj d ->
  dict_get "type" d = None ->
  Slides.from_dict w i s = (inl (KeyError "type"), s).
Proof.
  intros H T. unfold Slides.from_dict. unfold bind at 1.
  now rewrite (pop_type_none _ _ _ H T).
Qed.

Lemma nth_JObj_in_range (i : nat) (l : list json) (d : pydict) :
  nth i l JNull = JObj d -> i < length l.
Proof.
  intro H. destruct (Nat.lt_ge_cases i (length l)) as [L|G]; [exact L|].
  rewrite nth_overflow in H by exact G. discriminate.
Qed.

(** What [from_dict] does to the object it is given, whatever the variant
    constructor does afterwards. *)
Lemma from_dict_pops (w : World) (i : nat) (s : State) (d : pydict) (t : json) :
  nth i (heap s) JNull = JObj d ->
  dict_get "type" d = Some t ->
  heap (snd (Slides.from_dict w i s))
  = update_nth i (fun _ => JObj (dict_del "type" d)) (heap s)
  /\ files (snd (Slides.from_dict w i s)) = files s
  /\ records (snd (Slides.from_dict w i s)) = records s.
Proof.
  intros H T. rewrite (from_dict_popped w i s d t H T).
  destruct (match_type_frame w t (dict_del "type" d)
              (set_heap (update_nth i (fun _ => JObj (dict_del "type" d))) s))
    as (F & R & Hp).
  cbn [heap files records set_heap] in *. auto.
Qed.

Lemma from_dict_touches (w : World) (i : nat) (s : State) :
  touches_only i s (snd (Slides.from_dict w i s)).
Proof.
  unfold touches_only.
  destruct (nth i (heap s) JNull) as [| | | | | |d] eqn:H;
    try solve [unfold Slides.from_dict, Slides.pop_type, bind, get; rewrite H;
               cbn; auto].
  destruct (dict_get "type" d) as [t|] eqn:T.
  - destruct (from_dict_pops w i s d t H T) as (Hp & F & R).
    repeat split; [exact F | exact R |].
    intros j N. rewrite Hp. now apply update_nth_other.
  - rewrite (from_dict_no_type w i s d H T). cbn. auto.
Qed.

(** C10.  [Slide.from_dict] mutates its input.  For the object [d] at
    [dict_ref] in the loaded configuration: if [d] has a [type] key, then
    after the call the object itself no longer has it (whatever the variant
    constructor did, success or failure), so passing the same object a
    second time raises [KeyError('type')] and changes nothing; and if [d]
    has no [type] key, the call raises [KeyError('type')] at once, with the
    state, and so the deck, unchanged. *)
Theorem C10_from_dict_consumes_type (w : World) (i : nat) (s : State) (d : pydict) :
  nth i (heap s) JNull = JObj d ->
  match dict_get "type" d with
  | Some t =>
      let s' := snd (Slides.from_dict w i s) in
      nth i (heap s') JNull = JObj (dict_del "type" d)
      /\ dict_get "type" (dict_del "type" d) = None
      /\ Slides.from_dict w i s' = (inl (KeyError "type"), s')
  | None => Slides.from_dict w i s = (inl (KeyError "type"), s)
  end.
Proof.
  intro H. destruct (dict_get "type" d) as [t|] eqn:T.
  - cbv zeta. destruct (from_dict_pops w i s d t H T) as (Hp & _ & _).
    assert (N : nth i (heap (snd (Slides.from_dict w i s))) JNull
                = JObj (dict_del "type" d)).
    { rewrite Hp. rewrite update_nth_same with (f := fun _ => JObj (dict_del "type" d)).
      - reflexivity.
      - eapply nth_JObj_in_range; eassumption. }
    split; [exact N|]. split; [apply dict_get_del_same|].
    apply (from_dict_no_type w i _ _ N (dict_get_del_same _ _)).
  - apply (from_dict_no_type w i s d H T).
Qed.

(** *** The driver's loop and its exits *)

Lemma slide_handlers_report (i : nat) (e : exn) :
  App.slide_handlers i e =
  match slide_report (i + 1) e with
  | Some m => Some (App.error m ;; ret App.Return)
  | None => None
  end.
Proof. destruct e; reflexivity. Qed.

Lemma slides_loop_fail (w : World) (i : nat) (x : json) (rest : list json)
  (s s1 : State) (e : exn) :
  Slides.from_dict w i s = (inl e, s1) ->
  App.slides_loop w i (x :: rest) s =
  match slide_report (i + 1) e with
  | Some m => (inr App.Return, set_records (fun r => r ++ [logged ERROR m]) s1)
  | None => (inl e, s1)
  end.
Proof.
  intro F. cbn [App.slides_loop]. unfold bind at 1, try_except, bind at 1.
  rewrite F, slide_handlers_report.
  destruct (slide_report (i + 1) e); reflexivity.
Qed.

Lemma slides_loop_app (w : World) (l1 l2 : list json) :
  forall (i : nat) (s s1 : State),
  App.slides_loop w i l1 s = (inr App.Next, s1) ->
  App.slides_loop w i (l1 ++ l2) s = App.slides_loop w (i + length l1) l2 s1.
Proof.
  induction l1 as [|x l1 IH]; intros i s s1 L.
  - simpl in L. injection L as <-. simpl. now rewrite Nat.add_0_r.
  - cbn [App.slides_loop app] in *. unfold bind at 1 in L. unfold bind at 1.
    destruct (try_except _ _ s) as [[e|[|]] s2]; try discriminate.
    unfold bind at 1 in L. unfold bind at 1.
    destruct (App.info _ s2) as [[e|[]] s3]; try discriminate.
    rewrite (IH _ _ _ L). cbn [length]. now rewrite Nat.add_succ_r.
Qed.

(** A run over a configuration whose first specifications [pre] are valid
    reaches the next one in the state [before_slide]; if building that one
    raises [e], the run ends there: with the error logged if a clause names
    the class of [e], with [e] itself otherwise. *)
Lemma generate_at_failure (w : World) (config output text : string)
  (pre : list pydict) (d : pydict) (post : list pydict) (s0 s1 : State)
  (e : exn) :
  read_text w config = Some text ->
  json_loads w text = inr (config_document (pre ++ d :: post)) ->
  forallb (valid_spec w) pre = true ->
  Slides.from_dict w (length pre)
    (before_slide w config pre (map JObj (d :: post)) s0) = (inl e, s1) ->
  App.generate w config output s0 =
  match slide_report (length pre + 1) e with
  | Some m => (inr tt, set_records (fun r => r ++ [logged ERROR m]) s1)
  | None => (inl e, s1)
  end.
Proof.
  intros R J V F. unfold App.generate.
  unfold bind at 1. unfold modify at 1.
  unfold bind at 1. unfold try_except at 1. unfold bind at 1.
  unfold App.load. rewrite R, J. unfold bind at 1. unfold lift at 1.
  rewrite config_document_checks. unfold ret at 1 2.
  unfold bind at 1. unfold App.info at 1, modify at 1.
  unfold bind at 1. unfold App.presentation_items, config_document.
  cbn [subscript dict_get String.eqb Ascii.eqb Bool.eqb].
  unfold bind at 1, lift at 1, ret at 1.
  unfold bind at 1. unfold modify at 1.
  unfold bind at 1.
  rewrite map_app.
  match goal with
  | |- context [App.slides_loop w 0 _ ?s1] =>
      destruct (slides_loop_valid w pre (map JObj (d :: post)) [] s1) as
        (s' & L & S1 & S2 & S3 & S4 & S5);
        [cbn [heap set_heap set_records set_slides map app]; reflexivity
        | exact V | ]
  end.
  cbn [length] in L. rewrite (slides_loop_app _ _ _ _ _ _ L).
  cbn [slides figure records files heap set_slides set_records set_heap
       map app Nat.add] in *.
  rewrite length_map.
  assert (E : s' = before_slide w config pre (map JObj (d :: post)) s0).
  { destruct s' as [sl fg rc fl hp]. unfold before_slide. cbn [slides figure records files heap] in *.
    subst. cbn [map]. rewrite <- app_assoc. reflexivity. }
  rewrite E. cbn [map]. rewrite (slides_loop_fail _ _ _ _ _ _ _ F).
  destruct (slide_report (length pre + 1) e); reflexivity.
Qed.

Lemma generate_unfinished (w : World) (config output text : string)
  (specs : list pydict) (s0 s' : State) (r : exn + App.flow) :
  read_text w config = Some text ->
  json_loads w text = inr (config_document specs) ->
  App.slides_loop w 0 (map JObj specs)
    (before_slide w config [] (map JObj specs) s0) = (r, s') ->
  r <> inr App.Next ->
  App.generate w config output s0 =
  (match r with inl e => inl e | inr _ => inr tt end, s').
Proof.
  intros R J L N. unfold App.generate.
  unfold bind at 1. unfold modify at 1.
  unfold bind at 1. unfold try_except at 1. unfold bind at 1.
  unfold App.load. rewrite R, J. unfold bind at 1. unfold lift at 1.
  rewrite config_document_checks. unfold ret at 1 2.
  unfold bind at 1. unfold App.info at 1, modify at 1.
  unfold bind at 1. unfold App.presentation_items, config_document.
  cbn [subscript dict_get String.eqb Ascii.eqb Bool.eqb].
  unfold bind at 1, lift at 1, ret at 1.
  unfold bind at 1. unfold modify at 1.
  unfold bind at 1.
  unfold before_slide, loaded, logged in L.
  cbn [build_all fst snd length seq map app] in L.
  unfold set_heap, set_records, set_slides.
  cbn [slides figure records files heap].
  rewrite L. destruct r as [e|[|]]; try reflexivity. now contradiction N.
Qed.

Lemma match_type_unrecognized (w : World) (t : json) (kw : pydict) (s : State) :
  recognized t = false ->
  Slides.match_type w t kw s =
  (inl (ValueError (Slides.invalid_slide_type t)), s).
Proof.
  intro U. unfold Slides.match_type. destruct t; try reflexivity.
  cbn [recognized] in U.
  repeat match goal with
         | H : _ || _ = false |- _ => apply orb_false_elim in H; destruct H
         end.
  repeat match goal with
         | H : (_ =? _) = false |- _ => rewrite H; clear H
         end.
  reflexivity.
Qed.

Lemma from_dict_unrecognized (w : World) (i : nat) (s : State) (d : pydict)
  (t : json) :
  nth i (heap s) JNull = JObj d ->
  dict_get "type" d = Some t ->
  recognized t = false ->
  Slides.from_dict w i s =
  (inl (ValueError (Slides.invalid_slide_type t)),
   set_heap (update_nth i (fun _ => JObj (dict_del "type" d))) s).
Proof.
  intros H T U. rewrite (from_dict_popped w i s d t H T).
  now apply match_type_unrecognized.
Qed.

(** A loop that has a specification of unrecognized type ahead of it never
    completes, writes nothing, and leaves the objects after that
    specification as they are. *)
Lemma slides_loop_stops (w : World) (d : pydict) (t : json) (post : list json) :
  dict_get "type" d = Some t ->
  recognized t = false ->
  forall (pre : list json) (x : json) (i : nat) (s : State),
  nth (i + length pre) (heap s) JNull = JObj d ->
  fst (App.slides_loop w i (pre ++ x :: post) s) <> inr App.Next
  /\ files (snd (App.slides_loop w i (pre ++ x :: post) s)) = files s
  /\ forall j, i + length pre < j ->
       nth j (heap (snd (App.slides_loop w i (pre ++ x :: post) s))) JNull
       = nth j (heap s) JNull.
Proof.
  intros T U. induction pre as [|a pre IH]; intros x i s H.
  - cbn [length app] in *. rewrite Nat.add_0_r in *.
    rewrite (slides_loop_fail _ _ _ _ _ _ _ (from_dict_unrecognized w i s d t H T U)).
    cbn [slide_report fst snd files heap set_records set_heap].
    repeat split; try discriminate.
    intros j L. apply update_nth_other. lia.
  - cbn [length app] in *.
    destruct (Slides.from_dict w i s) as [[e|n] s1] eqn:F.
    + rewrite (slides_loop_fail _ _ _ _ _ _ _ F).
      destruct (from_dict_touches w i s) as (Fi & Re & Hp). rewrite F in *.
      cbn [snd] in *.
      destruct (slide_report (i + 1) e);
        cbn [fst snd files heap set_records]; repeat split;
        try discriminate; try assumption; intros j L; apply Hp; lia.
    + cbn [App.slides_loop]. unfold bind at 1 3 5, try_except, bind at 1 3 5.
      rewrite F. unfold ret at 1 2 3. unfold bind at 1 2 3.
      unfold App.info, modify.
      destruct (from_dict_touches w i s) as (Fi & Re & Hp). rewrite F in *.
      cbn [snd] in *.
      match goal with
      | |- context [App.slides_loop w (S i) _ ?s2] =>
          destruct (IH x (S i) s2) as (A & B & C)
      end.
      * cbn [heap set_records]. rewrite Hp by lia.
        rewrite <- H. f_equal. lia.
      * cbn [files heap set_records] in *. repeat split.
        -- exact A.
        -- now rewrite B.
        -- intros j L. rewrite C by lia. apply Hp. lia.
Qed.

Lemma before_slide_nth (w : World) (config : string) (pre : list pydict)
  (d : pydict) (post : list json) (s0 : State) :
  nth (length pre) (heap (before_slide w config pre (JObj d :: post) s0)) JNull
  = JObj d.
Proof.
  unfold before_slide. cbn [heap].
  rewrite <- (length_map (dict_del "type") pre).
  rewrite <- (@length_map pydict json JObj (map (dict_del "type") pre)).
  apply nth_middle.
Qed.

Lemma before_slide_count (w : World) (config : string) (pre : list pydict)
  (rest : list json) (s0 : State) :
  forallb (valid_spec w) pre = true ->
  length (slides (before_slide w config pre rest s0)) = length pre.
Proof.
  intro V. unfold before_slide. cbn [slides].
  destruct (build_all_app w pre [] (figure s0) V) as (new & E & L & _).
  rewrite E. cbn [app]. rewrite <- (length_map layout), L. apply length_map.
Qed.

(** The run reports a failure of the slide after the valid specifications
    [pre] when a clause names its class, and lets it escape otherwise;
    nothing is written either way. *)
Lemma generate_reports (w : World) (config output text : string)
  (pre : list pydict) (d : pydict) (post : list pydict) (s0 : State)
  (e : exn) :
  read_text w config = Some text ->
  json_loads w text = inr (config_document (pre ++ d :: post)) ->
  forallb (valid_spec w) pre = true ->
  fst (Slides.from_dict w (length pre)
         (before_slide w config pre (map JObj (d :: post)) s0)) = inl e ->
  exists s,
    App.generate w config output s0 =
    (match slide_report (length pre + 1) e with
     | Some _ => inr tt
     | None => inl e
     end, s)
    /\ files s = files s0
    /\ records s =
         (records s0 ++ loaded config :: map generated (seq 1 (length pre)))
         ++ match slide_report (length pre + 1) e with
            | Some m => [logged ERROR m]
            | None => []
            end.
Proof.
  intros R J V F.
  destruct (Slides.from_dict w (length pre)
              (before_slide w config pre (map JObj (d :: post)) s0))
    as [r s1] eqn:E.
  cbn [fst] in F. subst r.
  destruct (from_dict_touches w (length pre)
              (before_slide w config pre (map JObj (d :: post)) s0))
    as (Fi & Re & _).
  rewrite E in Fi, Re. cbn [snd before_slide files records] in Fi, Re.
  rewrite (generate_at_failure w config output text pre d post s0 s1 e R J V E).
  destruct (slide_report (length pre + 1) e); eexists; split; try reflexivity;
    cbn [files records set_records]; rewrite Fi, Re; split; try reflexivity.
  now rewrite app_nil_r.
Qed.

(** C3.  A slide specification [d] whose [type] is none of the five tags.
    Building it raises [ValueError] with the message
    ["<type>" is not a valid slide type!], naming the offending type, and
    adds no slide.  In a run over a configuration [pre ++ d :: post],
    whatever [pre] is, no file is written and the objects after [d] are left
    as loaded: no later slide is processed.  When the specifications [pre]
    before it are valid, the run returns normally with one slide per
    specification of [pre], and its last log record is the error for slide
    number [length pre + 1], carrying the exception's text. *)
Theorem C3_unrecognized_type_aborts
  (w : World) (config output text : string)
  (pre : list pydict) (d : pydict) (post : list pydict) (t : json) (s0 : State) :
  read_text w config = Some text ->
  json_loads w text = inr (config_document (pre ++ d :: post)) ->
  dict_get "type" d = Some t ->
  recognized t = false ->
  (forall i s, nth i (heap s) JNull = JObj d ->
     fst (Slides.from_dict w i s)
     = inl (ValueError [Lit dquote; Val t; Lit dquote;
                        Lit " is not a valid slide type!"])
     /\ slides (snd (Slides.from_dict w i s)) = slides s)
  /\ files (snd (App.generate w config output s0)) = files s0
  /\ (forall j, length pre < j ->
        nth j (heap (snd (App.generate w config output s0))) JNull
        = nth j (map JObj (pre ++ d :: post)) JNull)
  /\ (forallb (valid_spec w) pre = true ->
      exists s,
        App.generate w config output s0 = (inr tt, s)
        /\ length (slides s) = length pre
        /\ records s =
             (records s0 ++ loaded config :: map generated (seq 1 (length pre)))
             ++ [logged ERROR
                   [Text "Slide number "; Number (length pre + 1);
                    Text " is not in a valid format! ";
                    Str (ValueError [Lit dquote; Val t; Lit dquote;
                                     Lit " is not a valid slide type!"])]]).
Proof.
  intros R J T U.
  change [Lit dquote; Val t; Lit dquote; Lit " is not a valid slide type!"]
    with (Slides.invalid_slide_type t).
  assert (Eq : map JObj (pre ++ d :: post)
               = map JObj pre ++ JObj d :: map JObj post).
  { now rewrite map_app. }
  pose proof (slides_loop_stops w d t (map JObj post) T U (map JObj pre)
                (JObj d) 0
                (before_slide w config [] (map JObj (pre ++ d :: post)) s0))
    as Stop.
  rewrite <- Eq in Stop.
  specialize (Stop ltac:(cbn [before_slide heap map app Nat.add];
                         rewrite Eq; apply nth_middle)).
  split; [|split; [|split]].
  - intros i s H. rewrite (from_dict_unrecognized w i s d t H T U). auto.
  - destruct Stop as (A & B & _).
    destruct (App.slides_loop w 0 (map JObj (pre ++ d :: post))
                (before_slide w config [] (map JObj (pre ++ d :: post)) s0))
      as [r s'] eqn:L.
    cbn [fst snd] in A, B.
    rewrite (generate_unfinished w config output text _ s0 s' r R J L A).
    exact B.
  - intros j Lt. destruct Stop as (A & _ & C).
    destruct (App.slides_loop w 0 (map JObj (pre ++ d :: post))
                (before_slide w config [] (map JObj (pre ++ d :: post)) s0))
      as [r s'] eqn:L.
    cbn [fst snd] in A, C.
    rewrite (generate_unfinished w config output text _ s0 s' r R J L A).
    cbn [snd]. rewrite C by (cbn [Nat.add]; rewrite length_map; exact Lt).
    reflexivity.
  - intro V.
    pose proof (before_slide_nth w config pre d (map JObj post) s0) as N.
    pose proof (from_dict_unrecognized w (length pre) _ d t N T U) as F.
    rewrite (generate_at_failure w config output text pre d post s0 _ _ R J V F).
    cbn [slide_report]. eexists. split; [reflexivity|].
    cbn [slides records set_records set_heap before_slide].
    split; [|reflexivity].
    apply (before_slide_count w config pre [] s0 V).
Qed.

(** *** Failures of a plot slide *)

Lemma plot_arguments_check (kw : pydict) :
  plot_typed kw = true ->
  Slides.bind_keywords ["title"; "content"; "configuration"] kw = inr tt
  /\ Typeguard.check_arguments
       [("title", Typeguard.HStr, Slides.keyword kw "title" (JStr EmptyString));
        ("content", Typeguard.HStr, Slides.keyword kw "content" (JStr EmptyString));
        ("configuration", Typeguard.HDict,
         Slides.keyword kw "configuration" (JObj []))] = inr tt
  /\ Slides.keyword kw "title" (JStr EmptyString) = JStr (text_of "title" kw)
  /\ Slides.keyword kw "content" (JStr EmptyString) = JStr (text_of "content" kw).
Proof.
  unfold plot_typed. intro V. split_andb.
  split; [now apply bind_keywords_within|].
  unfold str_or_absent, dict_or_absent, Slides.keyword, text_of in *.
  destruct (dict_get "title" kw) as [[]|]; try discriminate;
  destruct (dict_get "content" kw) as [[]|]; try discriminate;
  destruct (dict_get "configuration" kw) as [[]|]; try discriminate;
  repeat split.
Qed.

(** A plot slide up to the point where its data file is read. *)
Lemma PlotSlide_loads (w : World) (kw : pydict) (s : State) :
  plot_typed kw = true ->
  fst (Slides.PlotSlide w kw s) =
  match np_loadtxt w (text_of "content" kw) with
  | LoadtxtOSError a => inl (OSError a)
  | LoadtxtValueError a => inl (ValueError a)
  | LoadtxtArray data =>
      match Numpy.column data 0, Numpy.column data 1 with
      | inl e, _ => inl e
      | inr _, inl e => inl e
      | inr _, inr _ =>
          match missing_label kw with
          | Some k => inl (KeyError k)
          | None => inr (length (slides s))
          end
      end
  end.
Proof.
  intro V. destruct (plot_arguments_check kw V) as (B & C & Et & Ec).
  assert (Ed : exists c, Slides.keyword kw "configuration" (JObj []) = JObj c
                         /\ missing_label kw =
                            match dict_get "x-label" c, dict_get "y-label" c with
                            | None, _ => Some "x-label"
                            | Some _, None => Some "y-label"
                            | Some _, Some _ => None
                            end).
  { unfold plot_typed in V. split_andb.
    unfold dict_or_absent, Slides.keyword, missing_label in *.
    destruct (dict_get "configuration" kw) as [[]|]; try discriminate; eauto. }
  destruct Ed as (c & Ecf & Em).
  unfold Slides.PlotSlide.
  unfold bind at 1, lift at 1. rewrite B.
  unfold bind at 1, lift at 1. rewrite C.
  rewrite Et, Ec, Ecf, Em.
  destruct s as [sl fg rc fl hp].
  unfold bind at 1. unfold Pptx.add_slide. unfold bind at 1, get at 1.
  unfold bind at 1, modify at 1, ret at 1.
  unfold bind at 1. unfold Pptx.set_title at 1. unfold bind at 1, lift at 1.
  cbn [Pptx.text_value as_str]. unfold Pptx.on_slide, modify.
  unfold bind at 1. unfold Numpy.loadtxt. cbn [as_str].
  destruct (np_loadtxt w (text_of "content" kw)) as [a|a|data]; try reflexivity.
  unfold ret at 1. unfold bind at 1, lift at 1.
  destruct (Numpy.column data 0) as [e|x]; [reflexivity|].
  unfold bind at 1, lift at 1.
  destruct (Numpy.column data 1) as [e|y]; [reflexivity|].
  unfold bind at 1. unfold Pyplot.plot, modify.
  unfold bind at 1, lift at 1. cbn [subscript].
  destruct (dict_get "x-label" c) as [xl|]; [|reflexivity].
  unfold bind at 1. unfold Pyplot.set_xlabel, modify.
  unfold bind at 1, lift at 1.
  destruct (dict_get "y-label" c) as [yl|]; [|reflexivity].
  cbn. reflexivity.
Qed.

Lemma from_dict_plot (w : World) (i : nat) (s : State) (d : pydict) :
  nth i (heap s) JNull = JObj d ->
  dict_get "type" d = Some (JStr "plot") ->
  Slides.from_dict w i s =
  Slides.PlotSlide w (dict_del "type" d)
    (set_heap (update_nth i (fun _ => JObj (dict_del "type" d))) s).
Proof.
  intros H T. now rewrite (from_dict_popped w i s d _ H T).
Qed.

(** C6, as amended.  A plot specification [d] that passes the argument
    checks, after valid specifications [pre].  If its data file loads as a
    table of two columns and its configuration lacks [x-label] (or has it
    and lacks [y-label]), the run logs that slide [length pre + 1] is
    missing a property, with the [KeyError] of that label, and writes no
    file.  If the data file cannot be read ([OSError]), the run logs a file
    dependency that could not be loaded.  If numpy rejects the contents of
    the file ([ValueError]), the run logs that the slide is not in a valid
    format: the driver files this under the format errors, not under the
    file dependencies.  No file is written in any of the three cases. *)
Theorem C6_plot_failures
  (w : World) (config output text : string)
  (pre : list pydict) (d : pydict) (post : list pydict) (s0 : State) :
  read_text w config = Some text ->
  json_loads w text = inr (config_document (pre ++ d :: post)) ->
  forallb (valid_spec w) pre = true ->
  dict_get "type" d = Some (JStr "plot") ->
  plot_typed (dict_del "type" d) = true ->
  (forall k,
     table_of w (text_of "content" (dict_del "type" d)) <> None ->
     missing_label (dict_del "type" d) = Some k ->
     reported w config output (length pre) s0
       [Text "Slide number "; Number (length pre + 1);
        Text " is missing a property! "; Str (KeyError k)])
  /\ (forall a,
        np_loadtxt w (text_of "content" (dict_del "type" d)) = LoadtxtOSError a ->
        reported w config output (length pre) s0
          [Text "Slide number "; Number (length pre + 1);
           Text " has a file dependency which could not be loaded! ";
           Str (OSError a)])
  /\ (forall a,
        np_loadtxt w (text_of "content" (dict_del "type" d)) = LoadtxtValueError a ->
        reported w config output (length pre) s0
          [Text "Slide number "; Number (length pre + 1);
           Text " is not in a valid format! "; Str (ValueError a)]).
Proof.
  intros R J V T P.
  pose proof (before_slide_nth w config pre d (map JObj post) s0) as N.
  pose proof (from_dict_plot w (length pre) _ d N T) as F.
  pose proof (PlotSlide_loads w (dict_del "type" d)
                (set_heap (update_nth (length pre)
                             (fun _ => JObj (dict_del "type" d)))
                   (before_slide w config pre (JObj d :: map JObj post) s0)) P)
    as L.
  rewrite <- F in L.
  assert (G : forall e m,
            fst (Slides.from_dict w (length pre)
                   (before_slide w config pre (map JObj (d :: post)) s0)) = inl e ->
            slide_report (length pre + 1) e = Some m ->
            reported w config output (length pre) s0 m).
  { intros e m Fe Sr.
    destruct (generate_reports w config output text pre d post s0 e R J V Fe)
      as (s & Ge & Fi & Re).
    rewrite Sr in Ge, Re. exists s. auto. }
  repeat split.
  - intros k Tb Mk. apply (G (KeyError k)); [|reflexivity].
    cbn [map]. rewrite L. unfold table_of in Tb.
    destruct (np_loadtxt w _) as [a|a|[xs|rows]]; try congruence.
    cbn [Numpy.column].
    destruct (Numpy.column_of 0 rows); try congruence.
    destruct (Numpy.column_of 1 rows); try congruence.
    now rewrite Mk.
  - intros a E. apply (G (OSError a)); [|reflexivity].
    cbn [map]. now rewrite L, E.
  - intros a E. apply (G (ValueError a)); [|reflexivity].
    cbn [map]. now rewrite L, E.
Qed.

(** *** Charts drawn on the shared figure *)

Lemma charts_app (deck : list Slide) (sl : Slide) :
  charts (deck ++ [sl]) = charts deck ++ charts_of sl.
Proof.
  unfold charts. rewrite flat_map_app. cbn [flat_map]. now rewrite app_nil_r.
Qed.

(** What one valid specification adds to the charts and to the figure. *)
Lemma valid_fields_chart (w : World) (t : string) (kw : pydict) (fig : Figure) :
  valid_fields w t kw = true ->
  if t =? "plot"
  then charts_of (slide_of w t kw fig) = [plotted w kw fig]
  else charts_of (slide_of w t kw fig) = [].
Proof.
  unfold valid_fields, slide_of.
  destruct (t =? "title") eqn:E1.
  { apply String.eqb_eq in E1. subst t. reflexivity. }
  destruct (t =? "text") eqn:E2.
  { apply String.eqb_eq in E2. subst t. reflexivity. }
  destruct (t =? "list") eqn:E3.
  { apply String.eqb_eq in E3. subst t. reflexivity. }
  destruct (t =? "picture") eqn:E4.
  { apply String.eqb_eq in E4. subst t. reflexivity. }
  destruct (t =? "plot") eqn:E5; [reflexivity | discriminate].
Qed.

Lemma build_all_charts (w : World) (specs : list pydict) :
  forall deck fig,
  forallb (valid_spec w) specs = true ->
  map lines (charts (fst (build_all w specs deck fig)))
  = map lines (charts deck) ++ cumulative (lines fig) (plot_series w specs)
  /\ lines (snd (build_all w specs deck fig))
     = lines fig ++ plot_series w specs.
Proof.
  induction specs as [|d specs IH]; intros deck fig V.
  - cbn. now rewrite !app_nil_r.
  - simpl in V. apply andb_prop in V as [Vd V].
    destruct (valid_spec_inv _ _ Vd) as (t & T & F).
    cbn [build_all]. rewrite T.
    destruct (IH (deck ++ [slide_of w t (dict_del "type" d) fig])
                 (figure_after w t (dict_del "type" d) fig) V) as (C & L).
    rewrite C, L, charts_app, map_app.
    pose proof (valid_fields_chart w t (dict_del "type" d) fig F) as Ch.
    assert (Ip : is_plot d = (t =? "plot")) by (unfold is_plot; now rewrite T).
    unfold plot_series, figure_after. cbn [filter]. rewrite Ip.
    destruct (t =? "plot"); rewrite Ch.
    + cbn [map cumulative plotted lines]. rewrite <- !app_assoc. split; reflexivity.
    + cbn [map]. rewrite app_nil_r. split; reflexivity.
Qed.

Lemma cumulative_base (series : list Line2D) :
  forall base j x, In x base -> j < length series ->
  In x (nth j (cumulative base series) []).
Proof.
  induction series as [|y series IH]; intros base j x I L; [inversion L|].
  destruct j as [|j]; cbn [cumulative nth].
  - apply in_or_app. now left.
  - apply IH; [apply in_or_app; now left | simpl in L; lia].
Qed.

Lemma cumulative_earlier (series : list Line2D) (dflt : Line2D) :
  forall base i j, i <= j -> j < length series ->
  In (nth i series dflt) (nth j (cumulative base series) []).
Proof.
  induction series as [|y series IH]; intros base i j Le L; [inversion L|].
  destruct j as [|j]; cbn [cumulative].
  - assert (i = 0) by lia. subst i. cbn [nth]. apply in_or_app. right. now left.
  - destruct i as [|i]; cbn [nth].
    + apply cumulative_base; [apply in_or_app; right; now left | simpl in L; lia].
    + apply IH; simpl in L; lia.
Qed.

(** C9.  [PlotSlide.__init__] draws on the module-global pyplot figure and
    never clears it.  In a run over valid specifications, the chart images
    embedded in the deck show, one after the other, the lines the figure had
    before the run followed by the data series of the plot slides built so
    far; the figure after the run holds all of them; so the chart of every
    plot slide contains the series of each earlier plot slide besides its
    own. *)
Theorem C9_plots_accumulate
  (w : World) (config output text : string) (specs : list pydict) (s0 : State) :
  read_text w config = Some text ->
  json_loads w text = inr (config_document specs) ->
  forallb (valid_spec w) specs = true ->
  map lines (charts (slides (snd (App.generate w config output s0))))
  = cumulative (lines (figure s0)) (plot_series w specs)
  /\ lines (figure (snd (App.generate w config output s0)))
     = lines (figure s0) ++ plot_series w specs
  /\ forall i j dflt,
       i <= j -> j < length (plot_series w specs) ->
       In (nth i (plot_series w specs) dflt)
          (nth j (map lines
                    (charts (slides (snd (App.generate w config output s0)))))
             []).
Proof.
  intros R J V.
  destruct (generate_valid w config output text specs s0 R J V)
    as (s & G & S1 & S2 & _).
  rewrite G. cbn [snd].
  destruct (build_all_charts w specs [] (figure s0) V) as (C & L).
  rewrite S1, S2, C, L. cbn [charts flat_map map app].
  repeat split. intros i j dflt Le Lt. now apply cumulative_earlier.
Qed.

(** *** The claims about [generate] *)




Lemma C3_unrecognized_type_aborts_witness :
  exists s,
    App.generate Runs.unknown_world "config.json" "out.pptx" initial_state
    = (inr tt, s)
    /\ length (slides s) = 1
    /\ records s =
       [loaded "config.json"; generated 1;
        logged ERROR
          [Text "Slide number "; Number 2; Text " is not in a valid format! ";
           Str (ValueError [Lit dquote; Val (JStr "chart"); Lit dquote;
                            Lit " is not a valid slide type!"])]].
Proof.
  exact (proj2 (proj2 (proj2
    (C3_unrecognized_type_aborts Runs.unknown_world "config.json" "out.pptx"
       "contents of config.json" [Examples.title_spec] Examples.unknown_spec
       [Examples.list_spec] (JStr "chart") initial_state
       eq_refl eq_refl eq_refl eq_refl))) eq_refl).
Defined.

Lemma C6_plot_failures_witness :
  reported Runs.no_xlabel_world "config.json" "out.pptx" 1 initial_state
    [Text "Slide number "; Number 2; Text " is missing a property! ";
     Str (KeyError "x-label")].
Proof.
  apply (proj1
    (C6_plot_failures Runs.no_xlabel_world "config.json" "out.pptx"
       "contents of config.json" [Examples.title_spec]
       Examples.plot_spec_no_xlabel [] initial_state
       eq_refl eq_refl eq_refl eq_refl eq_refl) "x-label").
  - discriminate.
  - reflexivity.
Defined.

(** C6 as stated fails: for a plot slide whose data file numpy rejects as
    malformed, the run logs a format error carrying a [ValueError], which is
    no [OSError]: the malformed file is not reported as a resource that
    could not be loaded. *)
Lemma C6_malformed_data_reported_as_format_error :
  np_loadtxt Runs.malformed_world "data.csv" = Examples.malformed
  /\ reported Runs.malformed_world "config.json" "out.pptx" 0 initial_state
       [Text "Slide number "; Number 1; Text " is not in a valid format! ";
        Str (ValueError [Lit "could not convert string to float64"])]
  /\ is_OSError (ValueError [Lit "could not convert string to float64"]) = false.
Proof.
  split; [reflexivity|]. split; [|reflexivity].
  eexists. vm_compute. repeat split.
Qed.

Lemma C9_plots_accumulate_witness :
  map lines
    (charts (slides (snd (App.generate Runs.valid_world "config.json"
                            "out.pptx" initial_state))))
  = cumulative [] (plot_series Runs.valid_world Runs.valid_specs).
Proof.
  exact (proj1
    (C9_plots_accumulate Runs.valid_world "config.json" "out.pptx"
       "contents of config.json" Runs.valid_specs initial_state
       eq_refl eq_refl eq_refl)).
Defined.

Lemma C10_from_dict_consumes_type_witness :
  let s := set_heap (fun _ => [JObj Examples.title_spec]) initial_state in
  let s' := snd (Slides.from_dict Runs.valid_world 0 s) in
  nth 0 (heap s') JNull = JObj [("title", JStr "T"); ("content", JStr "C")]
  /\ dict_get "type" (dict_del "type" Examples.title_spec) = None
  /\ Slides.from_dict Runs.valid_world 0 s' = (inl (KeyError "type"), s').
Proof.
  exact (C10_from_dict_consumes_type Runs.valid_world 0
           (set_heap (fun _ => [JObj Examples.title_spec]) initial_state)
           Examples.title_spec eq_refl).
Defined.

(** C2 at its failing input: a title slide with the field [subtitle], which
    the variant does not have, after one valid slide.  The call raises
    [TypeError], no [except] clause of the driver names that class, and the
    exception leaves [generate]: nothing is logged for slide 2. *)
Theorem C2_unrecognized_field_escapes :
  escaped Runs.extra_field_world "config.json" "out.pptx" 1 initial_state
    (TypeError [Lit "got an unexpected keyword argument ";
                Val (JStr "subtitle")])
  /\ slide_report 2
       (TypeError [Lit "got an unexpected keyword argument ";
                   Val (JStr "subtitle")]) = None.
Proof.
  split; [|reflexivity]. eexists. vm_compute. repeat split.
Qed.

(** Were every item checked, the shape check would refuse the document of
    the next theorem at its second item. *)
Lemma mixed_document_refused_when_all_items_are_checked :
  Typeguard.check Typeguard.ALL_ITEMS App.Config Runs.mixed_document
  = Some (AtKey "presentation" (AtItem 1 NotADict)).
Proof. reflexivity. Qed.

(** C4 at its failing input: a [presentation] list whose second item is the
    number 5.  The shape check samples the first item only and passes, the
    first slide is built and logged, and the second item raises
    [AttributeError], which leaves [generate]: no format error is logged. *)
Theorem C4_later_items_unchecked :
  Typeguard.check_type Runs.mixed_document App.Config = inr tt
  /\ exists s,
       App.generate Runs.mixed_world "config.json" "out.pptx" initial_state
       = (inl (AttributeError [Lit "object has no attribute 'pop': ";
                               Val (JInt 5)]), s)
       /\ length (slides s) = 1
       /\ records s = [loaded "config.json"; generated 1]
       /\ files s = [].
Proof.
  split; [reflexivity|]. eexists. vm_compute. repeat split.
Qed.

(** *** The dispatcher *)






(** C7, as amended.  Marking a method with [command] when it has no
    docstring raises [AttributeError]; marking it with [default_command]
    checks nothing and succeeds, docstring or not; constructing the
    dispatcher for a handler whose class has no docstring raises
    [AttributeError]. *)
Theorem C7_documentation_checks :
  (forall f,
     Cli.doc f = None ->
     Cli.command f = inl (AttributeError [Lit (Cli.name f);
                                          Lit " has no docstring!"]))
  /\ (forall f,
        exists g,
          Cli.default_command f = inr g
          /\ Cli.is_command g = true /\ Cli.is_default_command g = true
          /\ Cli.doc g = Cli.doc f)
  /\ (forall rt self prog_,
        Cli.class_doc self = None ->
        exists m, Cli.init rt self prog_ = inl (AttributeError m)).
Proof.
  repeat split.
  - intros f D. unfold Cli.command. now rewrite D.
  - intro f. eexists. unfold Cli.default_command. repeat split.
  - intros rt self prog_ D. unfold Cli.init. rewrite D. eauto.
Qed.

Lemma C7_documentation_checks_witness :
  Cli.command App.def_default
  = inl (AttributeError [Lit "default"; Lit " has no docstring!"])
  /\ exists m,
       Cli.init CliExamples.runtime CliExamples.undocumented "bare"
       = inl (AttributeError m).
Proof.
  split.
  - exact (proj1 C7_documentation_checks App.def_default eq_refl).
  - exact (proj2 (proj2 C7_documentation_checks) CliExamples.runtime
             CliExamples.undocumented "bare" eq_refl).
Defined.

(** C7 as stated fails: [App.default] has no docstring and is marked as the
    default command without an error. *)
Lemma C7_default_command_needs_no_docstring :
  Cli.doc App.def_default = None
  /\ Cli.default_command App.def_default =
     inr {| Cli.name := "default"; Cli.doc := None; Cli.is_command := true;
            Cli.is_default_command := true |}.
Proof. split; reflexivity. Qed.

(** *** Failures of the load *)

(** What [generate] does for the three failures of the load its first [try]
    names: the error is logged, no slide is built and no file is written.
    The failure it does not name, a file whose bytes do not decode, leaves
    [generate]. *)
Lemma generate_load_failures (w : World) (config output : string) (s0 : State) :
  let failed (m : list log_piece) :=
    App.generate w config output s0 =
    (inr tt,
     set_records (fun r => r ++ [logged ERROR m])
       (set_slides (fun _ => []) s0)) in
  (read_text w config = None -> read_failure w config = RaisesOSError ->
   failed [Text "Couldn't load "; Text dquote; Text config; Text dquote;
           Text "! Please check if it's a valid path."])
  /\ (read_text w config = None -> read_failure w config = RaisesValueError ->
      App.generate w config output s0 =
      (inl (App.undecodable config), set_slides (fun _ => []) s0))
  /\ (forall text a,
        read_text w config = Some text -> json_loads w text = inl a ->
        failed [Text "Config file "; Text dquote; Text config; Text dquote;
                Text " is not a valid JSON file! "; Str (JSONDecodeError a)])
  /\ (forall text data f,
        read_text w config = Some text -> json_loads w text = inr data ->
        Typeguard.check Typeguard.default_strategy App.Config data = Some f ->
        failed [Text "Config file "; Text dquote; Text config; Text dquote;
                Text " is not in a valid format! "; Str (TypeCheckError f)]).
Proof.
  cbv zeta. repeat split.
  - intros R F. unfold App.generate, App.load. unfold bind at 1, modify at 1.
    unfold bind at 1, try_except at 1, bind at 1. rewrite R, F. reflexivity.
  - intros R F. unfold App.generate, App.load. unfold bind at 1, modify at 1.
    unfold bind at 1, try_except at 1, bind at 1. rewrite R, F. reflexivity.
  - intros text a R J. unfold App.generate, App.load.
    unfold bind at 1, modify at 1.
    unfold bind at 1, try_except at 1, bind at 1. rewrite R, J. reflexivity.
  - intros text data f R J C. unfold App.generate, App.load.
    unfold bind at 1, modify at 1.
    unfold bind at 1, try_except at 1, bind at 1. rewrite R, J.
    unfold bind at 1, lift at 1, Typeguard.check_type. rewrite C. reflexivity.
Qed.

Lemma dict_get_none_keys (k : string) (d : pydict) :
  dict_get k d = None -> mem_string k (dict_keys d) = false.
Proof.
  induction d as [|[k' x] d IH]; simpl; [reflexivity|].
  destruct (k =? k'); [discriminate | exact IH].
Qed.

(** The shape check refuses a document that is no object, one without the
    [presentation] key, one whose [presentation] is no list, and one whose
    first item is no object. *)
Lemma Config_check_rejects (data : json) :
  match data with
  | JObj d =>
      match dict_get "presentation" d with
      | None => True
      | Some (JArr (JObj _ :: _)) | Some (JArr []) => False
      | Some _ => True
      end
  | _ => True
  end ->
  exists f, Typeguard.check Typeguard.default_strategy App.Config data = Some f.
Proof.
  destruct data as [| | | | | |d]; try (intros _; cbn; eauto; fail).
  intro H. unfold App.Config. cbn [Typeguard.check map fst].
  destruct (filter _ (dict_keys d)) as [|k ks] eqn:Ex; [|eauto].
  cbn [filter].
  destruct (dict_get "presentation" d) as [p|] eqn:P.
  - rewrite (dict_get_keys _ _ _ P). cbn [negb].
    destruct p as [| | | | |items|]; cbn; eauto.
    destruct items as [|[| | | | | |] items]; cbn; eauto; contradiction.
  - rewrite (dict_get_none_keys _ _ P). cbn [negb]. eauto.
Qed.

(** *** The variants, one by one *)

(** X1.  [TitleSlide], given only the fields [title] and [content], each a
    string or absent, appends one slide of layout 0 to the deck, with the
    title as its title and the content in its second placeholder (absent
    fields read as the empty string), and returns; nothing else of the
    state changes. *)
Theorem TitleSlide_sets_title_and_subtitle (kw : pydict) (s : State) :
  keys_within ["title"; "content"] kw = true ->
  str_or_absent "title" kw = true ->
  str_or_absent "content" kw = true ->
  Slides.TitleSlide kw s =
  (inr (length (slides s)),
   set_slides (fun l => l ++ [{| layout := 0;
                                 title_text := text_of "title" kw;
                                 placeholder_text := text_of "content" kw;
                                 body := []; shapes := [] |}]) s).
Proof.
  intros K T C.
  apply (TitleSlide_valid (Examples.world JNull Examples.two_rows)).
  cbn [valid_fields String.eqb Ascii.eqb Bool.eqb orb]. now rewrite K, T, C.
Qed.

Lemma TitleSlide_sets_title_and_subtitle_witness :
  Slides.TitleSlide [("title", JStr "T"); ("content", JStr "C")] initial_state =
  (inr 0,
   set_slides (fun l => l ++ [{| layout := 0; title_text := "T";
                                 placeholder_text := "C";
                                 body := []; shapes := [] |}]) initial_state).
Proof.
  exact (TitleSlide_sets_title_and_subtitle
           [("title", JStr "T"); ("content", JStr "C")] initial_state
           eq_refl eq_refl eq_refl).
Defined.

(** X2.  [TextSlide], given only the fields [title] and [content], each a
    string or absent, appends one slide of layout 5 whose title is the
    title and whose only shape is a text box one inch wide and high, one
    inch from the left and two from the top, holding the content. *)
Theorem TextSlide_places_text_box (kw : pydict) (s : State) :
  keys_within ["title"; "content"] kw = true ->
  str_or_absent "title" kw = true ->
  str_or_absent "content" kw = true ->
  Slides.TextSlide kw s =
  (inr (length (slides s)),
   set_slides (fun l => l ++ [{| layout := 5;
                                 title_text := text_of "title" kw;
                                 placeholder_text := EmptyString;
                                 body := [];
                                 shapes := [TextBox 914400 1828800 914400 914400
                                              (text_of "content" kw)] |}]) s).
Proof.
  intros K T C.
  apply (TextSlide_valid (Examples.world JNull Examples.two_rows)).
  cbn [valid_fields String.eqb Ascii.eqb Bool.eqb orb]. now rewrite K, T, C.
Qed.

Lemma TextSlide_places_text_box_witness :
  Slides.TextSlide [("content", JStr "C")] initial_state =
  (inr 0,
   set_slides (fun l => l ++ [{| layout := 5; title_text := EmptyString;
                                 placeholder_text := EmptyString;
                                 body := [];
                                 shapes := [TextBox 914400 1828800 914400 914400
                                              "C"] |}]) initial_state).
Proof.
  exact (TextSlide_places_text_box [("content", JStr "C")] initial_state
           eq_refl eq_refl eq_refl).
Defined.

Lemma PictureSlide_outcome (w : World) (kw : pydict) (s : State) :
  keys_within ["title"; "content"] kw = true ->
  str_or_absent "title" kw = true ->
  str_or_absent "content" kw = true ->
  Slides.PictureSlide w kw s =
  if image_readable w (text_of "content" kw)
  then
    (inr (length (slides s)),
     set_slides (fun l => l ++ [{| layout := 5;
                                   title_text := text_of "title" kw;
                                   placeholder_text := EmptyString;
                                   body := [];
                                   shapes := [PictureFile (text_of "content" kw)
                                                914400 1828800 4572000] |}]) s)
  else
    (inl (OSError [Lit "cannot open image file ";
                   Val (JStr (text_of "content" kw))]),
     set_slides (fun l => l ++ [titled_slide 5 (text_of "title" kw)]) s).
Proof.
  intros K T C.
  destruct (image_readable w (text_of "content" kw)) eqn:I.
  - apply (PictureSlide_valid w).
    cbn [valid_fields String.eqb Ascii.eqb Bool.eqb orb]. now rewrite K, T, C, I.
  - unfold Slides.PictureSlide. keywords_ok K.
    unfold str_or_absent, Slides.keyword in *. unfold text_of in *.
    destruct (dict_get "title" kw) as [[]|]; try discriminate;
    destruct (dict_get "content" kw) as [[]|]; try discriminate;
    cbn; unfold Pptx.add_picture_file; cbn; rewrite I;
    cbn; unfold raise, set_slides, titled_slide; simpl;
    rewrite !update_nth_last; reflexivity.
Qed.

(** X3.  [PictureSlide], given only the fields [title] and [content], each
    a string or absent: if the file named by the content can be read as an
    image, the slide of layout 5 carries the title and that picture, one
    inch from the left, two from the top, five inches high; if not, the
    constructor raises [OSError] and the deck has already gained a slide
    that has the title and no picture. *)
Theorem PictureSlide_embeds_or_fails (w : World) (kw : pydict) (s : State) :
  keys_within ["title"; "content"] kw = true ->
  str_or_absent "title" kw = true ->
  str_or_absent "content" kw = true ->
  Slides.PictureSlide w kw s =
  if image_readable w (text_of "content" kw)
  then
    (inr (length (slides s)),
     set_slides (fun l => l ++ [{| layout := 5;
                                   title_text := text_of "title" kw;
                                   placeholder_text := EmptyString;
                                   body := [];
                                   shapes := [PictureFile (text_of "content" kw)
                                                914400 1828800 4572000] |}]) s)
  else
    (inl (OSError [Lit "cannot open image file ";
                   Val (JStr (text_of "content" kw))]),
     set_slides (fun l => l ++ [titled_slide 5 (text_of "title" kw)]) s).
Proof. apply PictureSlide_outcome. Qed.

Lemma PictureSlide_embeds_or_fails_witness :
  Slides.PictureSlide (Examples.world JNull Examples.two_rows)
    [("content", JStr "missing.png")] initial_state =
  (inl (OSError [Lit "cannot open image file "; Val (JStr "missing.png")]),
   set_slides (fun l => l ++ [titled_slide 5 EmptyString]) initial_state).
Proof.
  exact (PictureSlide_embeds_or_fails (Examples.world JNull Examples.two_rows)
           [("content", JStr "missing.png")] initial_state
           eq_refl eq_refl eq_refl).
Defined.

(** *** Failures of one slide, as the run reports them *)

Lemma reported_of (w : World) (config output text : string)
  (pre : list pydict) (d : pydict) (post : list pydict) (s0 : State)
  (e : exn) (m : list log_piece) :
  read_text w config = Some text ->
  json_loads w text = inr (config_document (pre ++ d :: post)) ->
  forallb (valid_spec w) pre = true ->
  fst (Slides.from_dict w (length pre)
         (before_slide w config pre (map JObj (d :: post)) s0)) = inl e ->
  slide_report (length pre + 1) e = Some m ->
  reported w config output (length pre) s0 m.
Proof.
  intros R J V F S.
  destruct (generate_reports w config output text pre d post s0 e R J V F)
    as (s & Ge & Fi & Re).
  rewrite S in Ge, Re. exists s. auto.
Qed.

Lemma escaped_of (w : World) (config output text : string)
  (pre : list pydict) (d : pydict) (post : list pydict) (s0 : State)
  (e : exn) :
  read_text w config = Some text ->
  json_loads w text = inr (config_document (pre ++ d :: post)) ->
  forallb (valid_spec w) pre = true ->
  fst (Slides.from_dict w (length pre)
         (before_slide w config pre (map JObj (d :: post)) s0)) = inl e ->
  slide_report (length pre + 1) e = None ->
  escaped w config output (length pre) s0 e.
Proof.
  intros R J V F S.
  destruct (generate_reports w config output text pre d post s0 e R J V F)
    as (s & Ge & Fi & Re).
  rewrite S in Ge, Re. rewrite app_nil_r in Re. exists s. auto.
Qed.

Lemma recognized_cases (t : string) :
  recognized (JStr t) = true ->
  t = "title" \/ t = "text" \/ t = "list" \/ t = "picture" \/ t = "plot".
Proof.
  cbn [recognized]. intro H.
  repeat (apply orb_prop in H; destruct H as [H|H]);
    apply String.eqb_eq in H; auto 6.
Qed.

Lemma title_mismatch_checks (v : json) (rest : list (string * Typeguard.hint * json)) :
  as_str v = None ->
  Typeguard.check_arguments (("title", Typeguard.HStr, v) :: rest)
  = inl (TypeCheckError (AtArgument "title" (NotInstance "str"))).
Proof. destruct v; try discriminate; reflexivity. Qed.

(** A variant given a [title] that is no string stops at the argument check:
    nothing has been added to the deck. *)
Lemma match_type_title_mismatch (w : World) (t : string) (kw : pydict)
  (s : State) (v : json) :
  recognized (JStr t) = true ->
  keys_within (keywords_of t) kw = true ->
  dict_get "title" kw = Some v ->
  as_str v = None ->
  Slides.match_type w (JStr t) kw s =
  (inl (TypeCheckError (AtArgument "title" (NotInstance "str"))), s).
Proof.
  intros Rc K T A.
  destruct (recognized_cases t Rc) as [E|[E|[E|[E|E]]]]; subst t;
    cbn [Slides.match_type String.eqb Ascii.eqb Bool.eqb];
    cbn [keywords_of String.eqb Ascii.eqb Bool.eqb] in K;
    unfold Slides.TitleSlide, Slides.TextSlide, Slides.ListSlide,
      Slides.PictureSlide, Slides.PlotSlide;
    keywords_ok K;
    unfold Slides.keyword at 1; rewrite T;
    unfold bind at 1, lift at 1;
    rewrite (title_mismatch_checks v _ A); reflexivity.
Qed.

(** X4.  In a configuration whose earlier specifications are valid, a
    specification of a recognized type that has only fields of its variant
    and a [title] that is no string is refused by the argument check before
    anything is built; the run logs the earlier slides, then the error
    [Slide number n is not in a valid format!] with the cause, returns
    normally and writes no file. *)
Theorem title_of_wrong_type_is_reported
  (w : World) (config output text : string)
  (pre : list pydict) (d : pydict) (post : list pydict) (s0 : State)
  (t : string) (v : json) :
  read_text w config = Some text ->
  json_loads w text = inr (config_document (pre ++ d :: post)) ->
  forallb (valid_spec w) pre = true ->
  dict_get "type" d = Some (JStr t) ->
  recognized (JStr t) = true ->
  keys_within (keywords_of t) (dict_del "type" d) = true ->
  dict_get "title" d = Some v ->
  as_str v = None ->
  (forall s,
     Slides.match_type w (JStr t) (dict_del "type" d) s =
     (inl (TypeCheckError (AtArgument "title" (NotInstance "str"))), s))
  /\ reported w config output (length pre) s0
       [Text "Slide number "; Number (length pre + 1);
        Text " is not in a valid format! ";
        Str (TypeCheckError (AtArgument "title" (NotInstance "str")))].
Proof.
  intros R J V T Rc K Ti A.
  assert (Ti' : dict_get "title" (dict_del "type" d) = Some v).
  { now rewrite dict_get_del_other. }
  split.
  - intro s. now apply match_type_title_mismatch with (v := v).
  - apply (reported_of w config output text pre d post s0
             (TypeCheckError (AtArgument "title" (NotInstance "str"))));
      try assumption; try reflexivity.
    cbn [map].
    rewrite (from_dict_popped w (length pre) _ d (JStr t)
               (before_slide_nth w config pre d (map JObj post) s0) T).
    now rewrite (match_type_title_mismatch w t _ _ v Rc K Ti' A).
Qed.

Lemma title_of_wrong_type_is_reported_witness :
  reported
    (Examples.world
       (config_document [Examples.title_spec;
                         [("type", JStr "text"); ("title", JInt 7)]])
       Examples.two_rows)
    "config.json" "out.pptx" 1 initial_state
    [Text "Slide number "; Number 2; Text " is not in a valid format! ";
     Str (TypeCheckError (AtArgument "title" (NotInstance "str")))].
Proof.
  exact (proj2
    (title_of_wrong_type_is_reported
       (Examples.world
          (config_document [Examples.title_spec;
                            [("type", JStr "text"); ("title", JInt 7)]])
          Examples.two_rows)
       "config.json" "out.pptx" "contents of config.json"
       [Examples.title_spec] [("type", JStr "text"); ("title", JInt 7)] []
       initial_state "text" (JInt 7)
       eq_refl eq_refl eq_refl eq_refl eq_refl eq_refl eq_refl eq_refl)).
Defined.

Lemma bind_keywords_outside (ks : list string) (d : pydict) :
  keys_within ks d = false ->
  exists m, Slides.bind_keywords ks d = inl (TypeError m).
Proof.
  induction d as [|[k v] d IH]; [discriminate|].
  unfold keys_within. cbn [dict_keys map fst forallb].
  intro H. cbn [Slides.bind_keywords].
  destruct (mem_string k ["self"; "presentation"]); [eauto|].
  destruct (mem_string k ks); [|eauto].
  apply IH. exact H.
Qed.

(** X5.  In a configuration whose earlier specifications are valid, a
    specification of a recognized type with a field its variant does not
    take makes the constructor call raise [TypeError] before anything is
    built.  No [except] clause of [generate] names that class: the exception
    leaves [generate], the error is not logged and no file is written. *)
Theorem unknown_field_escapes
  (w : World) (config output text : string)
  (pre : list pydict) (d : pydict) (post : list pydict) (s0 : State)
  (t : string) :
  read_text w config = Some text ->
  json_loads w text = inr (config_document (pre ++ d :: post)) ->
  forallb (valid_spec w) pre = true ->
  dict_get "type" d = Some (JStr t) ->
  recognized (JStr t) = true ->
  keys_within (keywords_of t) (dict_del "type" d) = false ->
  exists m,
    (forall s,
       Slides.match_type w (JStr t) (dict_del "type" d) s
       = (inl (TypeError m), s))
    /\ escaped w config output (length pre) s0 (TypeError m).
Proof.
  intros R J V T Rc K.
  destruct (bind_keywords_outside _ _ K) as (m & B).
  exists m.
  assert (M : forall s,
            Slides.match_type w (JStr t) (dict_del "type" d) s
            = (inl (TypeError m), s)).
  { intro s.
    destruct (recognized_cases t Rc) as [E|[E|[E|[E|E]]]]; subst t;
      cbn [Slides.match_type String.eqb Ascii.eqb Bool.eqb];
      cbn [keywords_of String.eqb Ascii.eqb Bool.eqb] in B;
      unfold Slides.TitleSlide, Slides.TextSlide, Slides.ListSlide,
        Slides.PictureSlide, Slides.PlotSlide;
      unfold bind at 1, lift at 1; rewrite B; reflexivity. }
  split; [exact M|].
  apply (escaped_of w config output text pre d post s0 (TypeError m));
    try assumption; try reflexivity.
  cbn [map].
  rewrite (from_dict_popped w (length pre) _ d (JStr t)
             (before_slide_nth w config pre d (map JObj post) s0) T).
  now rewrite M.
Qed.

Lemma unknown_field_escapes_witness :
  exists m,
    (forall s,
       Slides.match_type Runs.extra_field_world (JStr "title")
         (dict_del "type" Examples.title_spec_extra) s
       = (inl (TypeError m), s))
    /\ escaped Runs.extra_field_world "config.json" "out.pptx" 1
         initial_state (TypeError m).
Proof.
  exact (unknown_field_escapes Runs.extra_field_world "config.json" "out.pptx"
           "contents of config.json" [Examples.title_spec]
           Examples.title_spec_extra [Examples.list_spec] initial_state "title"
           eq_refl eq_refl eq_refl eq_refl eq_refl eq_refl).
Defined.

(** X6.  In a configuration whose earlier specifications are valid, a
    specification without the field [type] ends the run with the logged
    error [Slide number n is missing a property! 'type']; the run returns
    normally and writes no file. *)
Theorem missing_type_is_reported
  (w : World) (config output text : string)
  (pre : list pydict) (d : pydict) (post : list pydict) (s0 : State) :
  read_text w config = Some text ->
  json_loads w text = inr (config_document (pre ++ d :: post)) ->
  forallb (valid_spec w) pre = true ->
  dict_get "type" d = None ->
  reported w config output (length pre) s0
    [Text "Slide number "; Number (length pre + 1);
     Text " is missing a property! "; Str (KeyError "type")].
Proof.
  intros R J V T.
  apply (reported_of w config output text pre d post s0 (KeyError "type"));
    try assumption; try reflexivity.
  cbn [map].
  now rewrite (from_dict_no_type w (length pre) _ d
                 (before_slide_nth w config pre d (map JObj post) s0) T).
Qed.

Lemma missing_type_is_reported_witness :
  reported
    (Examples.world
       (config_document [Examples.title_spec; [("title", JStr "no type")]])
       Examples.two_rows)
    "config.json" "out.pptx" 1 initial_state
    [Text "Slide number "; Number 2; Text " is missing a property! ";
     Str (KeyError "type")].
Proof.
  exact (missing_type_is_reported
           (Examples.world
              (config_document [Examples.title_spec;
                                [("title", JStr "no type")]])
              Examples.two_rows)
           "config.json" "out.pptx" "contents of config.json"
           [Examples.title_spec] [("title", JStr "no type")] []
           initial_state eq_refl eq_refl eq_refl eq_refl).
Defined.

(** X7.  In a configuration whose earlier specifications are valid, a
    picture specification whose fields pass the argument check and whose
    file cannot be read as an image ends the run with the logged error
    [Slide number n has a file dependency which could not be loaded!] and
    the cause; the run returns normally and writes no file. *)
Theorem unreadable_picture_is_reported
  (w : World) (config output text : string)
  (pre : list pydict) (d : pydict) (post : list pydict) (s0 : State) :
  read_text w config = Some text ->
  json_loads w text = inr (config_document (pre ++ d :: post)) ->
  forallb (valid_spec w) pre = true ->
  dict_get "type" d = Some (JStr "picture") ->
  keys_within ["title"; "content"] (dict_del "type" d) = true ->
  str_or_absent "title" (dict_del "type" d) = true ->
  str_or_absent "content" (dict_del "type" d) = true ->
  image_readable w (text_of "content" (dict_del "type" d)) = false ->
  reported w config output (length pre) s0
    [Text "Slide number "; Number (length pre + 1);
     Text " has a file dependency which could not be loaded! ";
     Str (OSError [Lit "cannot open image file ";
                   Val (JStr (text_of "content" (dict_del "type" d)))])].
Proof.
  intros R J V T K Ti C I.
  apply (reported_of w config output text pre d post s0
           (OSError [Lit "cannot open image file ";
                     Val (JStr (text_of "content" (dict_del "type" d)))]));
    try assumption; [|reflexivity].
  cbn [map].
  rewrite (from_dict_popped w (length pre) _ d (JStr "picture")
             (before_slide_nth w config pre d (map JObj post) s0) T).
  cbn [Slides.match_type String.eqb Ascii.eqb Bool.eqb].
  rewrite (PictureSlide_outcome w _ _ K Ti C), I. reflexivity.
Qed.

Lemma unreadable_picture_is_reported_witness :
  reported
    (Examples.world
       (config_document [[("type", JStr "picture"); ("content", JStr "gone.png")]])
       Examples.two_rows)
    "config.json" "out.pptx" 0 initial_state
    [Text "Slide number "; Number 1;
     Text " has a file dependency which could not be loaded! ";
     Str (OSError [Lit "cannot open image file "; Val (JStr "gone.png")])].
Proof.
  exact (unreadable_picture_is_reported
           (Examples.world
              (config_document
                 [[("type", JStr "picture"); ("content", JStr "gone.png")]])
              Examples.two_rows)
           "config.json" "out.pptx" "contents of config.json"
           [] [("type", JStr "picture"); ("content", JStr "gone.png")] []
           initial_state eq_refl eq_refl eq_refl eq_refl eq_refl eq_refl
           eq_refl eq_refl).
Defined.

(** X8.  In a configuration whose earlier specifications are valid, a plot
    specification whose fields pass the argument check and whose data file
    loads as a one-dimensional array (a single row, or one column) fails at
    the column selection with [IndexError], which no [except] clause of
    [generate] names: the exception leaves [generate], nothing is logged
    for it and no file is written. *)
Theorem one_dimensional_data_escapes
  (w : World) (config output text : string)
  (pre : list pydict) (d : pydict) (post : list pydict) (s0 : State)
  (xs : list Q) :
  read_text w config = Some text ->
  json_loads w text = inr (config_document (pre ++ d :: post)) ->
  forallb (valid_spec w) pre = true ->
  dict_get "type" d = Some (JStr "plot") ->
  plot_typed (dict_del "type" d) = true ->
  np_loadtxt w (text_of "content" (dict_del "type" d))
  = LoadtxtArray (Array1 xs) ->
  escaped w config output (length pre) s0
    (IndexError [Lit "too many indices for array"]).
Proof.
  intros R J V T P N.
  apply (escaped_of w config output text pre d post s0
           (IndexError [Lit "too many indices for array"])); try assumption;
    [|reflexivity].
  cbn [map].
  rewrite (from_dict_plot w (length pre) _ d
             (before_slide_nth w config pre d (map JObj post) s0) T).
  rewrite (PlotSlide_loads w _ _ P), N. reflexivity.
Qed.

Lemma one_dimensional_data_escapes_witness :
  escaped
    (Examples.world (config_document [Examples.plot_spec])
       (LoadtxtArray (Array1 [(1 # 1)%Q; (2 # 1)%Q])))
    "config.json" "out.pptx" 0 initial_state
    (IndexError [Lit "too many indices for array"]).
Proof.
  exact (one_dimensional_data_escapes
           (Examples.world (config_document [Examples.plot_spec])
              (LoadtxtArray (Array1 [(1 # 1)%Q; (2 # 1)%Q])))
           "config.json" "out.pptx" "contents of config.json"
           [] Examples.plot_spec [] initial_state [(1 # 1)%Q; (2 # 1)%Q]
           eq_refl eq_refl eq_refl eq_refl eq_refl eq_refl).
Defined.

(** *** A level the rendering layer refuses *)

Lemma add_list_items_step (w : World) (l : list Slide) (e : json)
  (items : list json) (sl : Slide) (fig : Figure) (rs : list LogRecord)
  (fs : list (string * list Slide)) (hp : list json) :
  is_list_element e = true ->
  Slides.add_list_items w (length l) (e :: items)
    {| slides := l ++ [sl]; figure := fig; records := rs; files := fs;
       heap := hp |} =
  if level_accepted w (level_of e)
  then Slides.add_list_items w (length l) items
         {| slides := l ++ [with_body sl (body sl ++ [paragraph_of e])];
            figure := fig; records := rs; files := fs; heap := hp |}
  else (inl (ValueError [Lit "paragraph level out of range: ";
                         Val (level_json e)]),
        {| slides := l ++ [with_body sl (body sl ++ [paragraph_without_level e])];
           figure := fig; records := rs; files := fs; heap := hp |}).
Proof.
  intro H. destruct e as [| | | | | |d]; try discriminate.
  cbn [is_list_element] in H. split_andb.
  destruct (dict_get "level" d) as [lv|] eqn:El; try discriminate.
  destruct (as_int lv) as [z|] eqn:Ez; try discriminate.
  destruct (dict_get "text" d) as [[]|] eqn:Et; try discriminate.
  unfold level_json, paragraph_without_level, paragraph_of, text_of, level_of.
  rewrite El, Ez, Et. cbn [p_text].
  cbn [Slides.add_list_items].
  unfold bind at 1. unfold Pptx.add_paragraph. unfold bind at 1. unfold get.
  unfold bind at 1. unfold Pptx.on_body, Pptx.on_slide, modify, set_slides;
    cbn [slides figure records files heap body layout title_text
         placeholder_text shapes].
  rewrite nth_error_last, update_nth_last. unfold ret.
  unfold bind at 1. unfold lift at 1. cbn [subscript]. rewrite Et.
  unfold bind at 1. unfold Pptx.set_paragraph_text. unfold bind at 1.
  unfold lift at 1.
  cbn [Pptx.text_value as_str].
  unfold Pptx.on_body, Pptx.on_slide, modify, set_slides;
    cbn [slides figure records files heap body layout title_text
         placeholder_text shapes].
  rewrite !update_nth_last.
  unfold bind at 1. unfold lift at 1. rewrite El.
  unfold bind at 1. unfold Pptx.set_paragraph_level. rewrite Ez.
  destruct (level_accepted w z).
  - unfold Pptx.on_body, Pptx.on_slide, modify, set_slides;
      cbn [slides figure records files heap body layout title_text
           placeholder_text shapes].
    unfold with_body.
    cbv [layout title_text placeholder_text body shapes].
    rewrite ?update_nth_last. cbv [p_text p_level]. reflexivity.
  - unfold raise, with_body.
    cbv [layout title_text placeholder_text body shapes].
    rewrite ?update_nth_last. cbv [p_text p_level]. reflexivity.
Qed.

Lemma add_list_items_refused (w : World) (l : list Slide) (e : json)
  (rest : list json) (ok : list json) :
  forall (sl : Slide) (fig : Figure) rs fs hp,
  forallb (fun x => is_list_element x && level_accepted w (level_of x)) ok = true ->
  is_list_element e = true ->
  level_accepted w (level_of e) = false ->
  Slides.add_list_items w (length l) (ok ++ e :: rest)
    {| slides := l ++ [sl]; figure := fig; records := rs; files := fs;
       heap := hp |} =
  (inl (ValueError [Lit "paragraph level out of range: "; Val (level_json e)]),
   {| slides := l ++ [with_body sl (body sl ++ map paragraph_of ok
                                    ++ [paragraph_without_level e])];
      figure := fig; records := rs; files := fs; heap := hp |}).
Proof.
  induction ok as [|x ok IH]; intros sl fig rs fs hp V E A.
  - cbn [app map]. now rewrite (add_list_items_step w l e rest), A.
  - cbn [forallb] in V. split_andb. cbn [app map].
    rewrite (add_list_items_step w l x (ok ++ e :: rest)) by assumption.
    match goal with H : level_accepted w (level_of x) = true |- _ => rewrite H end.
    rewrite IH by assumption.
    unfold with_body; cbn [layout title_text placeholder_text body shapes].
    now rewrite <- !app_assoc.
Qed.

Lemma list_first_item_checks (items : list json) :
  match items with
  | [] => True
  | e :: _ => is_list_element e = true
  end ->
  Typeguard.check Typeguard.default_strategy
    (Typeguard.HList Slides.ListElements) (JArr items) = None.
Proof.
  intro V.
  cbn [Typeguard.check Typeguard.default_strategy Typeguard.iterate_samples].
  destruct items as [|e items]; [reflexivity|].
  cbn [firstn Typeguard.check_items]. now rewrite list_element_checks.
Qed.

(** *** List slides *)

(** C5, as amended.  A list slide whose [content] is a sequence of records
    [{level: integer, text: string}].  If the document takes every level
    (python-pptx takes 0 to 8), [ListSlide.__init__] appends one slide with
    the bulleted layout and, to the text frame of its body placeholder, one
    paragraph per entry, in the order given, each with the entry's text and
    level; they follow the empty paragraph the placeholder starts with, so
    that for [[{level 0, text a}, {level 1, text b}]] the frame holds that
    empty paragraph and then two paragraphs with levels 0 and 1.  The
    constructor compares no level with a bound; the document does: at the
    first entry whose level it refuses the constructor raises
    [ValueError]. *)
Theorem C5_list_paragraphs
  (w : World) (kw : pydict) (items : list json) (s : State) :
  keys_within ["title"; "content"] kw = true ->
  str_or_absent "title" kw = true ->
  dict_get "content" kw = Some (JArr items) ->
  forallb is_list_element items = true ->
  ((forall e, In e items -> level_accepted w (level_of e) = true) ->
   exists sl,
     Slides.ListSlide w kw s =
     (inr (length (slides s)), set_slides (fun l => l ++ [sl]) s)
     /\ layout sl = bulleted_layout
     /\ body sl = map paragraph_of items
     /\ frame_paragraphs sl
        = {| p_text := EmptyString; p_level := 0%Z |} :: map paragraph_of items
     /\ map p_level (body sl) = map level_of items
     /\ (items = Examples.list_items ->
         frame_paragraphs sl
         = [{| p_text := EmptyString; p_level := 0%Z |};
            {| p_text := "a"; p_level := 0%Z |};
            {| p_text := "b"; p_level := 1%Z |}]))
  /\ (forall ok e rest,
        items = ok ++ e :: rest ->
        (forall x, In x ok -> level_accepted w (level_of x) = true) ->
        level_accepted w (level_of e) = false ->
        fst (Slides.ListSlide w kw s)
        = inl (ValueError [Lit "paragraph level out of range: ";
                           Val (level_json e)])).
Proof.
  intros K Ti C E. split.
  - intro A.
    assert (V : valid_fields w "list" kw = true).
    { cbn [valid_fields String.eqb Ascii.eqb Bool.eqb orb].
      unfold list_or_absent, entries_of. rewrite K, Ti, C. cbn [andb].
      apply forallb_forall. intros e I.
      rewrite forallb_forall in E. now rewrite (E e I), (A e I). }
    exists (slide_of w "list" kw (figure s)).
    split; [now apply ListSlide_valid|].
    unfold frame_paragraphs, slide_of;
      cbn [String.eqb Ascii.eqb Bool.eqb layout body].
    unfold entries_of. rewrite C.
    repeat split.
    + rewrite map_map. apply map_ext_in. intros e I.
      rewrite forallb_forall in E. specialize (E e I).
      destruct e; try discriminate. reflexivity.
    + intros ->. reflexivity.
  - intros ok e rest -> A R.
    rewrite forallb_app in E. apply andb_prop in E as [Eok E].
    cbn [forallb] in E. apply andb_prop in E as [Ee _].
    assert (V : forallb (fun x => is_list_element x
                                  && level_accepted w (level_of x)) ok = true).
    { apply forallb_forall. intros x I. rewrite forallb_forall in Eok.
      now rewrite (Eok x I), (A x I). }
    assert (F : match ok ++ e :: rest with
                | [] => True
                | x :: _ => is_list_element x = true
                end).
    { destruct ok as [|x ok]; [exact Ee|]. cbn [app]. cbn [forallb] in V.
      now split_andb. }
    unfold Slides.ListSlide. keywords_ok K.
    unfold str_or_absent, Slides.keyword, text_of in *. rewrite C.
    destruct s as [sls fig rs fs hp].
    destruct (dict_get "title" kw) as [[]|]; try discriminate;
    unfold bind at 1; unfold lift at 1;
    cbn [Typeguard.check_arguments];
    rewrite (list_first_item_checks _ F);
    cbn -[Slides.add_list_items];
    unfold set_slides; cbn [slides figure records files heap];
    rewrite update_nth_last;
    unfold bind at 1;
    rewrite (add_list_items_refused w sls e rest ok) by assumption;
    reflexivity.
Qed.

Lemma C5_list_paragraphs_witness :
  exists sl,
    Slides.ListSlide (Examples.world JNull Examples.two_rows)
      (dict_del "type" Examples.list_spec) initial_state =
    (inr 0, set_slides (fun l => l ++ [sl]) initial_state)
    /\ layout sl = bulleted_layout
    /\ body sl = map paragraph_of Examples.list_items
    /\ frame_paragraphs sl
       = {| p_text := EmptyString; p_level := 0%Z |}
         :: map paragraph_of Examples.list_items
    /\ map p_level (body sl) = map level_of Examples.list_items
    /\ (Examples.list_items = Examples.list_items ->
        frame_paragraphs sl
        = [{| p_text := EmptyString; p_level := 0%Z |};
           {| p_text := "a"; p_level := 0%Z |};
           {| p_text := "b"; p_level := 1%Z |}]).
Proof.
  apply (proj1 (C5_list_paragraphs (Examples.world JNull Examples.two_rows)
                  (dict_del "type" Examples.list_spec) Examples.list_items
                  initial_state eq_refl eq_refl eq_refl eq_refl)).
  intros e [<-|[<-|[]]]; reflexivity.
Defined.

(** C5 as stated fails.  The two records of [Edge.deep_items] have integer
    levels, 0 and 9; the document refuses level 9: the constructor raises
    [ValueError] and has left the second paragraph at level 0, not 9.  And
    for the list of the specification's example the text frame of the body
    placeholder holds three paragraphs, not two: the empty one it starts
    with comes first. *)
Lemma C5_level_nine_refused :
  forallb is_list_element Edge.deep_items = true
  /\ Slides.ListSlide (Examples.world JNull Examples.two_rows)
       [("content", JArr Edge.deep_items)] initial_state =
     (inl (ValueError [Lit "paragraph level out of range: "; Val (JInt 9)]),
      set_slides
        (fun l => l ++ [{| layout := 1; title_text := EmptyString;
                           placeholder_text := EmptyString;
                           body := [{| p_text := "a"; p_level := 0%Z |};
                                    {| p_text := "b"; p_level := 0%Z |}];
                           shapes := [] |}]) initial_state)
  /\ exists sl,
       Slides.ListSlide (Examples.world JNull Examples.two_rows)
         (dict_del "type" Examples.list_spec) initial_state =
       (inr 0, set_slides (fun l => l ++ [sl]) initial_state)
       /\ length (frame_paragraphs sl) = 3.
Proof.
  split; [reflexivity|]. split; [reflexivity|].
  exists {| layout := 1; title_text := "L"; placeholder_text := EmptyString;
            body := [{| p_text := "a"; p_level := 0%Z |};
                     {| p_text := "b"; p_level := 1%Z |}];
            shapes := [] |}.
  split; reflexivity.
Qed.

(** X9.  [ListSlide] adds the paragraphs of its entries in order and stops
    at the first entry whose level the document refuses: it raises
    [ValueError], the entries before that one have their paragraphs with
    text and level, the refused entry has left a paragraph with its text
    and the default level, and the entries after it have left nothing. *)
Theorem ListSlide_stops_at_refused_level
  (w : World) (kw : pydict) (ok : list json) (e : json) (rest : list json)
  (s : State) :
  keys_within ["title"; "content"] kw = true ->
  str_or_absent "title" kw = true ->
  dict_get "content" kw = Some (JArr (ok ++ e :: rest)) ->
  forallb (fun x => is_list_element x && level_accepted w (level_of x)) ok = true ->
  is_list_element e = true ->
  level_accepted w (level_of e) = false ->
  Slides.ListSlide w kw s =
  (inl (ValueError [Lit "paragraph level out of range: "; Val (level_json e)]),
   set_slides
     (fun l => l ++ [{| layout := 1; title_text := text_of "title" kw;
                        placeholder_text := EmptyString;
                        body := map paragraph_of ok
                                ++ [paragraph_without_level e];
                        shapes := [] |}]) s).
Proof.
  intros K Ti C V E A. unfold Slides.ListSlide. keywords_ok K.
  unfold str_or_absent, Slides.keyword, text_of in *. rewrite C.
  destruct s as [sls fig rs fs hp].
  assert (F : match ok ++ e :: rest with
              | [] => True
              | x :: _ => is_list_element x = true
              end).
  { destruct ok as [|x ok]; [exact E|]. cbn [app]. cbn [forallb] in V.
    now split_andb. }
  destruct (dict_get "title" kw) as [[]|]; try discriminate;
  unfold bind at 1; unfold lift at 1;
  cbn [Typeguard.check_arguments];
  rewrite (list_first_item_checks _ F);
  cbn -[Slides.add_list_items];
  unfold set_slides; cbn [slides figure records files heap];
  rewrite update_nth_last;
  unfold bind at 1;
  rewrite (add_list_items_refused w sls e rest ok) by assumption;
  reflexivity.
Qed.

Lemma ListSlide_stops_at_refused_level_witness :
  Slides.ListSlide (Examples.world JNull Examples.two_rows)
    [("content",
      JArr [JObj [("level", JInt 0); ("text", JStr "a")];
            JObj [("level", JInt 9); ("text", JStr "b")];
            JStr "never reached"])]
    initial_state =
  (inl (ValueError [Lit "paragraph level out of range: "; Val (JInt 9)]),
   set_slides
     (fun l => l ++ [{| layout := 1; title_text := EmptyString;
                        placeholder_text := EmptyString;
                        body := [{| p_text := "a"; p_level := 0%Z |};
                                 {| p_text := "b"; p_level := 0%Z |}];
                        shapes := [] |}]) initial_state).
Proof.
  exact (ListSlide_stops_at_refused_level
           (Examples.world JNull Examples.two_rows)
           [("content",
             JArr [JObj [("level", JInt 0); ("text", JStr "a")];
                   JObj [("level", JInt 9); ("text", JStr "b")];
                   JStr "never reached"])]
           [JObj [("level", JInt 0); ("text", JStr "a")]]
           (JObj [("level", JInt 9); ("text", JStr "b")])
           [JStr "never reached"] initial_state
           eq_refl eq_refl eq_refl eq_refl eq_refl eq_refl).
Defined.

(** *** What building one slide can change *)

Lemma holds_deck_refl (l : list Slide) (s : State) : holds_deck l s s.
Proof. unfold holds_deck. auto. Qed.

Lemma holds_deck_trans (l : list Slide) (s1 s2 s3 : State) :
  holds_deck l s1 s2 -> holds_deck l s2 s3 -> holds_deck l s1 s3.
Proof. unfold holds_deck. auto. Qed.

Lemma holds_deck_on_slide (l : list Slide) (f : Slide -> Slide) (s : State) :
  holds_deck l s (set_slides (update_nth (length l) f) s).
Proof.
  intros (x & E). cbn [slides set_slides]. rewrite E, update_nth_last. eauto.
Qed.

Lemma holds_deck_figure (l : list Slide) (f : Figure -> Figure) (s : State) :
  holds_deck l s (set_figure f s).
Proof. intros (x & E). cbn [slides set_figure]. eauto. Qed.

Ltac deck_step l :=
  first
    [ apply (keeps_ret _ (holds_deck_refl l))
    | apply (keeps_raise _ (holds_deck_refl l))
    | apply (keeps_lift _ (holds_deck_refl l))
    | apply (keeps_get _ (holds_deck_refl l))
    | apply keeps_modify; intro;
      first [apply holds_deck_on_slide | apply holds_deck_figure]
    | apply (keeps_bind _ (holds_deck_trans l)); [|intro]
    | match goal with
      | |- keeps _ (match ?x with _ => _ end) => destruct x
      | |- keeps _ (if ?x then _ else _) => destruct x
      end ].

Lemma add_list_items_deck (w : World) (l : list Slide) (content : list json) :
  keeps (holds_deck l) (Slides.add_list_items w (length l) content).
Proof.
  induction content as [|e content IH]; cbn [Slides.add_list_items].
  - repeat deck_step l.
  - unfold Pptx.add_paragraph, Pptx.set_paragraph_text, Pptx.set_paragraph_level,
      Pptx.on_body, Pptx.on_slide.
    repeat deck_step l; exact IH.
Qed.

Lemma after_add_slide {A : Type} (L : nat) (k : nat -> M A) (s : State) :
  (forall l, keeps (holds_deck l) (k (length l))) ->
  exists x, slides (snd (bind (Pptx.add_slide L) k s)) = slides s ++ [x].
Proof.
  intro K.
  change (bind (Pptx.add_slide L) k s)
    with (k (length (slides s))
            (set_slides (fun l => l ++ [{| layout := L;
                                           title_text := EmptyString;
                                           placeholder_text := EmptyString;
                                           body := []; shapes := [] |}]) s)).
  apply (K (slides s)). cbn [slides set_slides]. eauto.
Qed.

Lemma variants_deck (w : World) (kw : pydict) (s : State) :
  let grows (m : M nat) :=
    slides (snd (m s)) = slides s \/ exists x, slides (snd (m s)) = slides s ++ [x] in
  grows (Slides.TitleSlide kw) /\ grows (Slides.TextSlide kw)
  /\ grows (Slides.ListSlide w kw) /\ grows (Slides.PictureSlide w kw)
  /\ grows (Slides.PlotSlide w kw).
Proof.
  cbv zeta.
  unfold Slides.TitleSlide, Slides.TextSlide, Slides.ListSlide,
    Slides.PictureSlide, Slides.PlotSlide.
  repeat split.
  all: unfold bind at 1, lift at 1;
    destruct (Slides.bind_keywords _ kw) as [?|[]]; [left; reflexivity|];
    unfold bind at 1, lift at 1;
    destruct (Typeguard.check_arguments _) as [?|[]]; [left; reflexivity|];
    right; apply after_add_slide; intro l;
    unfold Pptx.set_title, Pptx.set_placeholder_text, Pptx.add_shape,
      Pptx.add_picture_file, Pptx.on_slide, Numpy.loadtxt, Pyplot.plot,
      Pyplot.set_xlabel, Pyplot.set_ylabel, Pyplot.savefig;
    repeat deck_step l; apply add_list_items_deck.
Qed.

Lemma same_figure_refl (s : State) : same_figure s s.
Proof. reflexivity. Qed.

Lemma same_figure_trans (s1 s2 s3 : State) :
  same_figure s1 s2 -> same_figure s2 s3 -> same_figure s1 s3.
Proof. unfold same_figure. congruence. Qed.

Ltac figure_step :=
  first
    [ apply (keeps_ret _ same_figure_refl)
    | apply (keeps_raise _ same_figure_refl)
    | apply (keeps_lift _ same_figure_refl)
    | apply (keeps_get _ same_figure_refl)
    | apply keeps_modify; intro; reflexivity
    | apply (keeps_bind _ same_figure_trans); [|intro]
    | match goal with
      | |- keeps _ (match ?x with _ => _ end) => destruct x
      | |- keeps _ (if ?x then _ else _) => destruct x
      end ].

Lemma add_list_items_figure (w : World) (ref : nat) (content : list json) :
  keeps same_figure (Slides.add_list_items w ref content).
Proof.
  induction content as [|e content IH]; cbn [Slides.add_list_items].
  - repeat figure_step.
  - unfold Pptx.add_paragraph, Pptx.set_paragraph_text, Pptx.set_paragraph_level,
      Pptx.on_body, Pptx.on_slide.
    repeat figure_step; exact IH.
Qed.

Lemma other_variants_figure (w : World) (kw : pydict) :
  keeps same_figure (Slides.TitleSlide kw)
  /\ keeps same_figure (Slides.TextSlide kw)
  /\ keeps same_figure (Slides.ListSlide w kw)
  /\ keeps same_figure (Slides.PictureSlide w kw).
Proof.
  unfold Slides.TitleSlide, Slides.TextSlide, Slides.ListSlide,
    Slides.PictureSlide,
    Pptx.add_slide, Pptx.set_title, Pptx.set_placeholder_text, Pptx.add_shape,
    Pptx.add_picture_file, Pptx.on_slide.
  repeat split; repeat figure_step; apply add_list_items_figure.
Qed.

Lemma match_type_deck (w : World) (type : json) (kw : pydict) (s : State) :
  slides (snd (Slides.match_type w type kw s)) = slides s
  \/ exists x, slides (snd (Slides.match_type w type kw s)) = slides s ++ [x].
Proof.
  destruct (variants_deck w kw s) as (T1 & T2 & T3 & T4 & T5).
  unfold Slides.match_type.
  destruct type; try (left; reflexivity).
  repeat match goal with
         | |- context [if ?x then _ else _] => destruct x
         end; first [assumption | left; reflexivity].
Qed.

Lemma match_type_figure (w : World) (type : json) (kw : pydict) (s : State) :
  type <> JStr "plot" ->
  figure (snd (Slides.match_type w type kw s)) = figure s.
Proof.
  intro N. destruct (other_variants_figure w kw) as (T1 & T2 & T3 & T4).
  unfold Slides.match_type.
  destruct type as [| | | |t| |]; try reflexivity.
  destruct (t =? "title"); [apply T1|].
  destruct (t =? "text"); [apply T2|].
  destruct (t =? "list"); [apply T3|].
  destruct (t =? "picture"); [apply T4|].
  destruct (t =? "plot") eqn:E; [|reflexivity].
  apply String.eqb_eq in E. subst t. now contradiction N.
Qed.

(** X10.  Whatever the object at index [i] of the loaded configuration
    is, [from_dict] on it appends at most one slide to the deck and removes
    none, writes no file, logs nothing, and leaves every other object of
    the configuration as it was; unless the object has the type [plot], it
    leaves the pyplot figure as it was. *)
Theorem from_dict_changes_little (w : World) (i : nat) (s : State) :
  (slides (snd (Slides.from_dict w i s)) = slides s
   \/ exists x, slides (snd (Slides.from_dict w i s)) = slides s ++ [x])
  /\ files (snd (Slides.from_dict w i s)) = files s
  /\ records (snd (Slides.from_dict w i s)) = records s
  /\ (forall j, j <> i ->
        nth j (heap (snd (Slides.from_dict w i s))) JNull
        = nth j (heap s) JNull)
  /\ (match nth i (heap s) JNull with
      | JObj d => dict_get "type" d <> Some (JStr "plot")
      | _ => True
      end ->
      figure (snd (Slides.from_dict w i s)) = figure s).
Proof.
  destruct (from_dict_touches w i s) as (F & R & H).
  split; [|split; [exact F|split; [exact R|split; [exact H|]]]].
  - destruct (nth i (heap s) JNull) as [| | | | | |d] eqn:E;
      try solve [unfold Slides.from_dict, Slides.pop_type, bind, get;
                 rewrite E; left; reflexivity].
    destruct (dict_get "type" d) as [t|] eqn:T.
    + rewrite (from_dict_popped w i s d t E T).
      apply (match_type_deck w t (dict_del "type" d)
               (set_heap (update_nth i (fun _ => JObj (dict_del "type" d))) s)).
    + rewrite (from_dict_no_type w i s d E T). now left.
  - destruct (nth i (heap s) JNull) as [| | | | | |d] eqn:E;
      try solve [intros _; unfold Slides.from_dict, Slides.pop_type, bind, get;
                 rewrite E; reflexivity].
    intro N. destruct (dict_get "type" d) as [t|] eqn:T.
    + rewrite (from_dict_popped w i s d t E T).
      apply (match_type_figure w t (dict_del "type" d)
               (set_heap (update_nth i (fun _ => JObj (dict_del "type" d))) s)).
      congruence.
    + now rewrite (from_dict_no_type w i s d E T).
Qed.

Lemma from_dict_changes_little_witness :
  figure (snd (Slides.from_dict Runs.valid_world 0
                 (set_heap (fun _ => [JObj Examples.title_spec]) initial_state)))
  = figure (set_heap (fun _ => [JObj Examples.title_spec]) initial_state).
Proof.
  apply (proj2 (proj2 (proj2 (proj2
           (from_dict_changes_little Runs.valid_world 0
              (set_heap (fun _ => [JObj Examples.title_spec]) initial_state)))))).
  cbn. discriminate.
Defined.

(** *** The run as a whole *)

(** A constructor that returns has appended its slide. *)
Lemma variants_built (w : World) (kw : pydict) (s : State) :
  let built (m : M nat) :=
    forall n, fst (m s) = inr n ->
    exists x, slides (snd (m s)) = slides s ++ [x] in
  built (Slides.TitleSlide kw) /\ built (Slides.TextSlide kw)
  /\ built (Slides.ListSlide w kw) /\ built (Slides.PictureSlide w kw)
  /\ built (Slides.PlotSlide w kw).
Proof.
  cbv zeta.
  unfold Slides.TitleSlide, Slides.TextSlide, Slides.ListSlide,
    Slides.PictureSlide, Slides.PlotSlide.
  repeat split.
  all: intro n; unfold bind at 1 2, lift at 1 2;
    destruct (Slides.bind_keywords _ kw) as [?|[]]; [discriminate|];
    unfold bind at 1 2, lift at 1 2;
    destruct (Typeguard.check_arguments _) as [?|[]]; [discriminate|];
    intros _; apply after_add_slide; intro l;
    unfold Pptx.set_title, Pptx.set_placeholder_text, Pptx.add_shape,
      Pptx.add_picture_file, Pptx.on_slide, Numpy.loadtxt, Pyplot.plot,
      Pyplot.set_xlabel, Pyplot.set_ylabel, Pyplot.savefig;
    repeat deck_step l; apply add_list_items_deck.
Qed.

Lemma match_type_built (w : World) (type : json) (kw : pydict) (s : State)
  (n : nat) :
  fst (Slides.match_type w type kw s) = inr n ->
  exists x, slides (snd (Slides.match_type w type kw s)) = slides s ++ [x].
Proof.
  destruct (variants_built w kw s) as (T1 & T2 & T3 & T4 & T5).
  unfold Slides.match_type.
  destruct type; try discriminate.
  repeat match goal with
         | |- context [if ?x then _ else _] => destruct x
         end;
    first [apply T1 | apply T2 | apply T3 | apply T4 | apply T5 | discriminate].
Qed.

Lemma from_dict_built (w : World) (i : nat) (s : State) (n : nat) :
  fst (Slides.from_dict w i s) = inr n ->
  exists x, slides (snd (Slides.from_dict w i s)) = slides s ++ [x].
Proof.
  destruct (nth i (heap s) JNull) as [| | | | | |d] eqn:E;
    try solve [unfold Slides.from_dict, Slides.pop_type, bind, get;
               rewrite E; discriminate].
  destruct (dict_get "type" d) as [t|] eqn:T.
  - rewrite (from_dict_popped w i s d t E T).
    apply (match_type_built w t (dict_del "type" d)
             (set_heap (update_nth i (fun _ => JObj (dict_del "type" d))) s)).
  - rewrite (from_dict_no_type w i s d E T). discriminate.
Qed.

Lemma slides_loop_frame (w : World) (items : list json) :
  forall (i : nat) (s : State),
  files (snd (App.slides_loop w i items s)) = files s
  /\ (fst (App.slides_loop w i items s) = inr App.Next ->
      records (snd (App.slides_loop w i items s))
      = records s ++ map generated (seq (S i) (length items))
      /\ length (slides (snd (App.slides_loop w i items s)))
         = length (slides s) + length items).
Proof.
  induction items as [|x items IH]; intros i s.
  - cbn. rewrite app_nil_r, Nat.add_0_r. auto.
  - destruct (Slides.from_dict w i s) as [[e|n] s1] eqn:F;
      destruct (from_dict_touches w i s) as (Fi & Re & _);
      pose proof (from_dict_built w i s) as Bu;
      rewrite F in Fi, Re, Bu; cbn [fst snd] in Fi, Re, Bu.
    + rewrite (slides_loop_fail _ _ _ _ _ _ _ F).
      destruct (slide_report (i + 1) e); cbn [fst snd files set_records];
        split; try assumption; discriminate.
    + assert (E : App.slides_loop w i (x :: items) s
                  = App.slides_loop w (S i) items
                      (set_records (fun r => r ++ [generated (i + 1)]) s1)).
      { cbn [App.slides_loop]. unfold bind at 1, try_except, bind at 1.
        now rewrite F. }
      rewrite E.
      destruct (IH (S i) (set_records (fun r => r ++ [generated (i + 1)]) s1))
        as (A & B).
      cbn [files records slides set_records] in A, B. split.
      * rewrite A. exact Fi.
      * intro N. destruct (B N) as (B1 & B2). split.
        -- rewrite B1, Re. cbn [length seq map].
           rewrite <- app_assoc. cbn [app]. now rewrite Nat.add_1_r.
        -- destruct (Bu n eq_refl) as (sl & Sl).
           rewrite B2, Sl, length_app. cbn [length]. lia.
Qed.

(** X11.  Every run of [generate], whatever the environment and the
    configuration, either writes no file at all, or writes exactly one, at
    the output path and holding the whole deck.  In the second case the run
    has returned normally, the path was writable, the configuration file
    held an object whose [presentation] is a list, the deck has exactly one
    slide per item of that list, and the log is the load record, one record
    per item numbered from 1, and the record of the save. *)
Theorem generate_writes_at_most_one_file
  (w : World) (config output : string) (s0 : State) :
  files (snd (App.generate w config output s0)) = files s0
  \/ (files (snd (App.generate w config output s0))
      = files s0 ++ [(output, slides (snd (App.generate w config output s0)))]
      /\ fst (App.generate w config output s0) = inr tt
      /\ writable w output = true
      /\ exists text d items,
           read_text w config = Some text
           /\ json_loads w text = inr (JObj d)
           /\ dict_get "presentation" d = Some (JArr items)
           /\ length (slides (snd (App.generate w config output s0)))
              = length items
           /\ records (snd (App.generate w config output s0))
              = records s0
                ++ loaded config :: map generated (seq 1 (length items))
                ++ [saved output]).
Proof.
  destruct (App.generate w config output s0) as [r s] eqn:G. cbn [fst snd].
  unfold App.generate in G.
  unfold bind at 1 in G. unfold modify at 1 in G.
  unfold bind at 1 in G. unfold try_except at 1 in G. unfold bind at 1 in G.
  unfold App.load in G.
  destruct (read_text w config) as [text|] eqn:Rd;
    [|destruct (read_failure w config);
      injection G as <- <-; left; reflexivity].
  destruct (json_loads w text) as [a|data] eqn:Js;
    [injection G as <- <-; left; reflexivity|].
  unfold bind at 1 in G. unfold lift at 1 in G.
  destruct (Typeguard.check_type data App.Config) as [e|[]] eqn:Ck.
  { unfold Typeguard.check_type in Ck.
    destruct (Typeguard.check _ _ _); [|discriminate].
    injection Ck as <-. injection G as <- <-. left. reflexivity. }
  unfold ret at 1 2 in G.
  unfold bind at 1 in G. unfold App.info at 1, modify at 1 in G.
  unfold bind at 1 in G. unfold App.presentation_items in G.
  unfold bind at 1 in G. unfold lift at 1 in G.
  destruct (subscript data "presentation") as [e|p] eqn:Sub;
    [injection G as <- <-; left; reflexivity|].
  destruct p as [| | | | |items|];
    try (injection G as <- <-; left; reflexivity).
  unfold ret at 1 in G. unfold bind at 1 in G. unfold modify at 1 in G.
  unfold bind at 1 in G.
  match type of G with
  | context [App.slides_loop w 0 items ?s1] =>
      destruct (slides_loop_frame w items 0 s1) as (F & R);
      destruct (App.slides_loop w 0 items s1) as [[e|[|]] s2]
  end; cbn [fst snd files records slides set_heap set_records set_slides] in F, R.
  - injection G as <- <-. left. exact F.
  - destruct (R eq_refl) as (R1 & R2).
    unfold bind at 1, try_except at 1, bind at 1, Pptx.save in G.
    destruct (writable w output) eqn:Wr.
    + unfold bind at 1, get at 1, modify at 1, ret at 1 in G.
      cbn in G. injection G as <- <-. right.
      cbn [files records slides set_files set_records].
      rewrite F, R1. repeat split.
      destruct data as [| | | | | |d]; try discriminate.
      unfold subscript in Sub.
      destruct (dict_get "presentation" d) as [v|] eqn:P; [|discriminate].
      injection Sub as ->.
      exists text, d, items. repeat split; try assumption.
      rewrite <- !app_assoc. reflexivity.
    + unfold raise at 1 in G. cbn [is_OSError] in G.
      unfold bind at 1, App.error at 1, modify at 1, ret in G.
      injection G as <- <-. left. cbn [files set_records]. exact F.
  - injection G as <- <-. left. exact F.
Qed.

(** X12.  For a configuration whose specifications are all valid, the run
    returns normally and its log is: the configuration was loaded, then
    [Slide number k generated] for k from 1 to the number of
    specifications in order, then [Presentation saved] if the output path
    can be written and the error [Couldn't save presentation to] if not;
    in the second case no file is written. *)
Theorem valid_run_log
  (w : World) (config output text : string) (specs : list pydict) (s0 : State) :
  read_text w config = Some text ->
  json_loads w text = inr (config_document specs) ->
  forallb (valid_spec w) specs = true ->
  fst (App.generate w config output s0) = inr tt
  /\ records (snd (App.generate w config output s0))
     = records s0
       ++ loaded config :: map generated (seq 1 (length specs))
       ++ [if writable w output then saved output else not_saved output]
  /\ (writable w output = false ->
      files (snd (App.generate w config output s0)) = files s0).
Proof.
  intros R J V.
  destruct (App.generate w config output s0) as [r s] eqn:G. cbn [fst snd].
  unfold App.generate in G.
  unfold bind at 1 in G. unfold modify at 1 in G.
  unfold bind at 1 in G. unfold try_except at 1 in G. unfold bind at 1 in G.
  unfold App.load in G. rewrite R, J in G.
  unfold bind at 1 in G. unfold lift at 1 in G.
  rewrite config_document_checks in G. unfold ret at 1 2 in G.
  unfold bind at 1 in G. unfold App.info at 1, modify at 1 in G.
  unfold bind at 1 in G. unfold App.presentation_items, config_document in G.
  cbn [subscript dict_get String.eqb Ascii.eqb Bool.eqb] in G.
  unfold bind at 1, lift at 1, ret at 1 in G.
  unfold bind at 1 in G. unfold modify at 1 in G.
  unfold bind at 1 in G.
  match type of G with
  | context [App.slides_loop w 0 _ ?s1] =>
      destruct (slides_loop_valid w specs [] [] s1
                  (eq_sym (app_nil_r _)) V)
        as (s' & L & S1 & S2 & S3 & S4 & S5)
  end.
  cbn [length] in L. rewrite L in G.
  cbn [slides figure records files heap set_slides set_records set_heap] in *.
  unfold bind at 1, try_except at 1, bind at 1, Pptx.save in G.
  destruct (writable w output) eqn:Wr.
  - unfold bind at 1, get at 1, modify at 1, ret at 1 in G.
    cbn in G. injection G as <- <-.
    cbn [records files set_files set_records]. rewrite S3.
    repeat split; [|discriminate]. now rewrite <- !app_assoc.
  - unfold raise at 1 in G. cbn [is_OSError] in G.
    unfold bind at 1, App.error at 1, modify at 1, ret in G.
    injection G as <- <-.
    cbn [records files set_files set_records]. rewrite S3, S4.
    repeat split. now rewrite <- !app_assoc.
Qed.

Lemma valid_run_log_witness :
  records (snd (App.generate Runs.valid_world "config.json" "out.pptx"
                  initial_state))
  = [loaded "config.json"; generated 1; generated 2; generated 3;
     generated 4; saved "out.pptx"].
Proof.
  exact (proj1 (proj2
    (valid_run_log Runs.valid_world "config.json" "out.pptx"
       "contents of config.json" Runs.valid_specs initial_state
       eq_refl eq_refl eq_refl))).
Defined.

(** X13.  The failures of the first [try] of [generate].  A configuration
    file that cannot be opened, a text that is not JSON, and a document the
    shape check refuses (no object, no [presentation], a [presentation]
    that is no list, a first item that is no object) each end the run with
    one logged error naming the configuration file (and the cause, for the
    last two); the run returns normally, builds no slide, logs nothing else
    and writes no file.  A file that opens and whose bytes do not decode as
    text is no such case: reading it raises [UnicodeDecodeError], a
    [ValueError] that no clause of that [try] names, and the exception
    leaves [generate] with nothing logged and nothing written. *)
Theorem load_failures_are_reported
  (w : World) (config output : string) (s0 : State) :
  (read_text w config = None -> read_failure w config = RaisesOSError ->
   App.generate w config output s0 =
   (inr tt,
    load_failed s0
      [Text "Couldn't load "; Text dquote; Text config; Text dquote;
       Text "! Please check if it's a valid path."]))
  /\ (read_text w config = None -> read_failure w config = RaisesValueError ->
      App.generate w config output s0 =
      (inl (App.undecodable config), set_slides (fun _ => []) s0)
      /\ is_OSError (App.undecodable config) = false
      /\ is_JSONDecodeError (App.undecodable config) = false
      /\ is_TypeCheckError (App.undecodable config) = false)
  /\ (forall text a,
        read_text w config = Some text -> json_loads w text = inl a ->
        App.generate w config output s0 =
        (inr tt,
         load_failed s0
           [Text "Config file "; Text dquote; Text config; Text dquote;
            Text " is not a valid JSON file! "; Str (JSONDecodeError a)]))
  /\ (forall text data,
        read_text w config = Some text -> json_loads w text = inr data ->
        refused_shape data = true ->
        exists f,
          App.generate w config output s0 =
          (inr tt,
           load_failed s0
             [Text "Config file "; Text dquote; Text config; Text dquote;
              Text " is not in a valid format! "; Str (TypeCheckError f)])).
Proof.
  destruct (generate_load_failures w config output s0) as (A & U & B & C).
  split; [exact A|]. split; [|split; [exact B|]].
  - intros R F. rewrite (U R F). repeat split.
  - intros text data R J S.
    destruct (Config_check_rejects data) as (f & Ck).
    { unfold refused_shape in S. destruct data as [| | | | | |d]; auto.
      destruct (dict_get "presentation" d) as [[| | | | |[|[]]|]|];
        auto; discriminate. }
    exists f. exact (C text data f R J Ck).
Qed.

Lemma load_failures_are_reported_witness :
  (exists f,
     App.generate (Examples.world (JObj [("slides", JArr [])]) Examples.two_rows)
       "config.json" "out.pptx" initial_state =
     (inr tt,
      load_failed initial_state
        [Text "Config file "; Text dquote; Text "config.json"; Text dquote;
         Text " is not in a valid format! "; Str (TypeCheckError f)]))
  /\ App.generate (Examples.world JNull Examples.two_rows)
       "binary.json" "out.pptx" initial_state =
     (inl (App.undecodable "binary.json"), initial_state)
  /\ App.generate (Examples.world JNull Examples.two_rows)
       "missing.json" "out.pptx" initial_state =
     (inr tt,
      load_failed initial_state
        [Text "Couldn't load "; Text dquote; Text "missing.json"; Text dquote;
         Text "! Please check if it's a valid path."]).
Proof.
  split; [|split].
  - exact (proj2 (proj2 (proj2
      (load_failures_are_reported
         (Examples.world (JObj [("slides", JArr [])]) Examples.two_rows)
         "config.json" "out.pptx" initial_state)))
      "contents of config.json" (JObj [("slides", JArr [])])
      eq_refl eq_refl eq_refl).
  - exact (proj1 (proj1 (proj2
      (load_failures_are_reported (Examples.world JNull Examples.two_rows)
         "binary.json" "out.pptx" initial_state)) eq_refl eq_refl)).
  - exact (proj1
      (load_failures_are_reported (Examples.world JNull Examples.two_rows)
         "missing.json" "out.pptx" initial_state) eq_refl eq_refl).
Defined.

Lemma extra_keys_found (ks : list string) (d : pydict) :
  keys_within ks d = false ->
  filter (fun k => negb (mem_string k ks)) (dict_keys d) <> [].
Proof.
  unfold keys_within, dict_keys.
  induction (map fst d) as [|k l IH]; simpl; [discriminate|].
  destruct (mem_string k ks); simpl; [exact IH | discriminate].
Qed.

(** X14.  The shape check of [generate] accepts a loaded document exactly
    when it is an object whose only key is [presentation] and whose value
    there is a list that is empty or has an object as its first item: the
    items after the first are not looked at, and any other top-level key
    makes the check fail. *)
Theorem shape_check_accepts_exactly (data : json) :
  Typeguard.check_type data App.Config = inr tt <-> accepted_shape data = true.
Proof.
  unfold Typeguard.check_type, accepted_shape, App.Config.
  destruct data as [| | | | | |d]; try (split; discriminate).
  cbn [Typeguard.check map fst].
  destruct (keys_within ["presentation"] d) eqn:K.
  - rewrite (no_extra_keys _ _ K). cbn [filter andb].
    destruct (dict_get "presentation" d) as [p|] eqn:P.
    + rewrite (dict_get_keys _ _ _ P). cbn [negb].
      destruct p as [| | | | |[|[| | | | | |] items]|]; cbn;
        split; try discriminate; reflexivity.
    + rewrite (dict_get_none_keys _ _ P). cbn [negb]. split; discriminate.
  - pose proof (extra_keys_found _ _ K) as N.
    destruct (filter _ (dict_keys d)); [contradiction|].
    cbn [andb]. split; discriminate.
Qed.

(** *** Flags and keywords *)

Lemma replace_hyphenate (s : string) :
  no_hyphen s = true ->
  Cli.replace_char Cli.hyphen Cli.underscore (Cli.hyphenate s) = s.
Proof.
  unfold Cli.hyphenate.
  induction s as [|c s IH]; [reflexivity|].
  cbn [no_hyphen Cli.replace_char]. intro H.
  apply andb_prop in H as [Hc Hs]. rewrite (IH Hs). f_equal.
  destruct (Ascii.eqb c Cli.underscore) eqn:U.
  - apply Ascii.eqb_eq in U. now subst c.
  - apply negb_true_iff in Hc. now rewrite Hc.
Qed.

Lemma lstrip_hyphenate (s : string) :
  no_hyphen s = true ->
  Cli.lstrip Cli.hyphen (Cli.hyphenate s)
  = Cli.hyphenate (Cli.lstrip Cli.underscore s).
Proof.
  unfold Cli.hyphenate.
  induction s as [|c s IH]; [reflexivity|].
  cbn [no_hyphen Cli.replace_char Cli.lstrip]. intro H.
  apply andb_prop in H as [Hc Hs].
  destruct (Ascii.eqb c Cli.underscore) eqn:U.
  - rewrite Ascii.eqb_refl. exact (IH Hs).
  - apply negb_true_iff in Hc. rewrite Hc.
    cbn [Cli.replace_char]. now rewrite U.
Qed.

Lemma no_hyphen_lstrip (s : string) :
  no_hyphen s = true -> no_hyphen (Cli.lstrip Cli.underscore s) = true.
Proof.
  induction s as [|c s IH]; [reflexivity|].
  cbn [no_hyphen Cli.lstrip]. intro H.
  destruct (Ascii.eqb c Cli.underscore); [|exact H].
  apply andb_prop in H as [_ Hs]. exact (IH Hs).
Qed.

Lemma dest_of_option (p : Cli.DocstringParam) :
  no_hyphen (Cli.arg_name p) = true ->
  Cli.dest_of (option_of p) = Cli.lstrip Cli.underscore (Cli.arg_name p).
Proof.
  intro H. unfold Cli.dest_of, option_of.
  change (Cli.lstrip Cli.hyphen ("--" ++ Cli.hyphenate (Cli.arg_name p)))
    with (Cli.lstrip Cli.hyphen (Cli.hyphenate (Cli.arg_name p))).
  rewrite (lstrip_hyphenate _ H).
  apply replace_hyphenate, no_hyphen_lstrip, H.
Qed.

Lemma plain_name_dest (p : Cli.DocstringParam) :
  plain_name (Cli.arg_name p) = true ->
  Cli.dest_of (option_of p) = Cli.arg_name p.
Proof.
  unfold plain_name. intro H.
  apply andb_prop in H as [H _]. apply andb_prop in H as [N U].
  rewrite (dest_of_option _ N).
  destruct (Cli.arg_name p) as [|c s]; [reflexivity|].
  cbn [Cli.lstrip]. apply negb_true_iff in U. now rewrite U.
Qed.

Lemma add_argument_options (p p' : Cli.Parser) (opt : string)
  (act : exn + Cli.Action) (desc : option string) :
  Cli.add_argument p opt act desc = inr p' ->
  Cli.defaults_cmd p' = Cli.defaults_cmd p
  /\ map Cli.option_string (Cli.arguments p')
     = map Cli.option_string (Cli.arguments p) ++ [opt].
Proof.
  unfold Cli.add_argument, Cli.add_action.
  destruct (Cli.dest_of opt =? EmptyString); [discriminate|].
  destruct act as [e|a]; [discriminate|].
  cbn [Cli.option_string].
  destruct (mem_string opt (Cli.taken p)); [discriminate|].
  intro E. injection E as <-. cbn [Cli.defaults_cmd Cli.arguments].
  split; [reflexivity|]. now rewrite map_app.
Qed.

Lemma add_arguments_options (rt : Cli.Runtime)
  (ps : list Cli.DocstringParam) :
  forall p p' : Cli.Parser,
  Cli.add_arguments rt ps p = inr p' ->
  Cli.defaults_cmd p' = Cli.defaults_cmd p
  /\ map Cli.option_string (Cli.arguments p')
     = map Cli.option_string (Cli.arguments p) ++ map option_of ps.
Proof.
  induction ps as [|a ps IH]; intros p p' E.
  - cbn in E. injection E as <-. now rewrite app_nil_r.
  - cbn [Cli.add_arguments] in E. fold (option_of a) in E.
    match type of E with
    | match ?added with _ => _ end = _ => destruct added as [e|p1] eqn:A
    end; [discriminate|].
    assert (A1 : Cli.defaults_cmd p1 = Cli.defaults_cmd p
                 /\ map Cli.option_string (Cli.arguments p1)
                    = map Cli.option_string (Cli.arguments p) ++ [option_of a]).
    { destruct (Cli.is_bool (Cli.type_name a)).
      - exact (add_argument_options _ _ _ _ _ A).
      - destruct (Cli.module_getattr rt (Cli.type_name a)); [discriminate|].
        exact (add_argument_options _ _ _ _ _ A). }
    destruct A1 as [D1 O1]. destruct (IH _ _ E) as [D O].
    split; [congruence|]. rewrite O, O1. cbn [map]. now rewrite <- app_assoc.
Qed.

Lemma default_of_key (a : Cli.Argument) :
  fst (Cli.default_of a) = Cli.dest_of (Cli.option_string a).
Proof. unfold Cli.default_of. now destruct (Cli.action a). Qed.

Lemma dict_set_keys {A : Type} (k : string) (v : A) (d : list (string * A)) :
  In k (map fst d) -> map fst (Cli.dict_set k v d) = map fst d.
Proof.
  induction d as [|[k' v'] d IH]; [contradiction|].
  cbn [map fst Cli.dict_set In]. intros H.
  destruct (String.eqb k k') eqn:E.
  - apply String.eqb_eq in E. now subst.
  - cbn [map fst]. f_equal. apply IH. destruct H as [H|H]; [|exact H].
    subst. now rewrite String.eqb_refl in E.
Qed.

Lemma find_argument_In (tok : string) (args : list Cli.Argument)
  (a : Cli.Argument) :
  Cli.find_argument tok args = Some a ->
  tok = Cli.option_string a /\ In a args.
Proof.
  induction args as [|b args IH]; [discriminate|].
  cbn [Cli.find_argument In].
  destruct (tok =? Cli.option_string b) eqn:E.
  - intro H. injection H as <-. apply String.eqb_eq in E. auto.
  - intro H. destruct (IH H). auto.
Qed.

Lemma consume_keys (rt : Cli.Runtime) (args : list Cli.Argument) (n : nat) :
  forall argv ns extras ns' extras',
  length argv <= n ->
  (forall a, In a args -> In (Cli.dest_of (Cli.option_string a)) (map fst ns)) ->
  Cli.consume rt args argv ns extras = inr (ns', extras') ->
  map fst ns' = map fst ns.
Proof.
  induction n as [|n IH]; intros argv ns extras ns' extras' L K C.
  - destruct argv; [|cbn in L; lia]. cbn in C. now injection C as <- _.
  - destruct argv as [|tok rest]; [cbn in C; now injection C as <- _|].
    cbn [length] in L. cbn [Cli.consume] in C.
    destruct (Cli.is_help tok); [discriminate|].
    destruct (Cli.find_argument tok args) as [a|] eqn:F.
    + destruct (find_argument_In _ _ _ F) as [-> I].
      pose proof (K a I) as Ka.
      destruct (Cli.action a).
      * rewrite <- (dict_set_keys _ (Cli.VBool true) _ Ka).
        apply (fun L' K' => IH _ _ _ _ _ L' K' C); [lia|].
        now rewrite (dict_set_keys _ _ _ Ka).
      * destruct rest as [|raw rest']; [discriminate|].
        destruct (String.prefix "-" raw); [discriminate|].
        destruct (Cli.convert rt type raw) as [x| |e]; try discriminate.
        cbn [length] in L.
        rewrite <- (dict_set_keys _ x _ Ka).
        apply (fun L' K' => IH _ _ _ _ _ L' K' C); [lia|].
        now rewrite (dict_set_keys _ _ _ Ka).
    + apply (fun L' => IH _ _ _ _ _ L' K C). lia.
Qed.

Lemma parse_subcommand_keys (rt : Cli.Runtime) (p : Cli.Parser)
  (argv : list string) (ns : Cli.Namespace) :
  Cli.parse_subcommand rt p argv = inr ns ->
  map fst ns = map Cli.dest_of (map Cli.option_string (Cli.arguments p)).
Proof.
  unfold Cli.parse_subcommand.
  destruct (Cli.consume rt (Cli.arguments p) argv
              (map Cli.default_of (Cli.arguments p)) []) as [e|[ns' ex]] eqn:C;
    [discriminate|].
  destruct (filter (Cli.is_missing ns') (Cli.arguments p)); [|discriminate].
  destruct ex; [|discriminate]. intro E. injection E as <-.
  assert (D : map fst (map Cli.default_of (Cli.arguments p))
              = map Cli.dest_of (map Cli.option_string (Cli.arguments p))).
  { rewrite !map_map. apply map_ext. exact default_of_key. }
  rewrite <- D.
  apply (consume_keys rt (Cli.arguments p) (length argv) argv _ [] ns' []);
    [lia| |exact C].
  intros a I. rewrite D, map_map.
  exact (in_map (fun x => Cli.dest_of (Cli.option_string x)) _ _ I).
Qed.

(** X15.  The name under which a flag's value is stored, and so the
    keyword under which [run] passes it to the method, is the documented
    parameter name with its leading underscores removed (for a name
    without hyphens).  Hence for a command whose documented parameters have
    plain names (no hyphen, no leading underscore, not [cmd]), every
    successful parse of its arguments yields exactly one keyword per
    documented parameter, named as the parameter, in the documented
    order. *)
Theorem keywords_are_parameter_names :
  (forall p : Cli.DocstringParam,
     no_hyphen (Cli.arg_name p) = true ->
     Cli.dest_of (option_of p) = Cli.lstrip Cli.underscore (Cli.arg_name p))
  /\ (forall (rt : Cli.Runtime) (ps : list Cli.DocstringParam)
        (text cmd : string) (p : Cli.Parser) (argv : list string)
        (ns : Cli.Namespace),
        forallb (fun q => plain_name (Cli.arg_name q)) ps = true ->
        Cli.add_arguments rt ps
          {| Cli.parser_description := text; Cli.defaults_cmd := cmd;
             Cli.arguments := [] |} = inr p ->
        Cli.parse_subcommand rt p argv = inr ns ->
        map fst ns = map Cli.arg_name ps).
Proof.
  split; [exact dest_of_option|].
  intros rt ps text cmd p argv ns P A E.
  rewrite (parse_subcommand_keys _ _ _ _ E).
  destruct (add_arguments_options _ _ _ _ A) as [_ O]. rewrite O.
  cbn [Cli.arguments map app]. rewrite map_map.
  apply map_ext_in. intros q I. apply plain_name_dest.
  rewrite forallb_forall in P. exact (P q I).
Qed.

Lemma keywords_are_parameter_names_witness :
  Cli.dest_of "--out-file" = "out_file"
  /\ exists p ns,
       Cli.add_arguments CliExamples.runtime CliExamples.mixed_params
         CliExamples.fresh_parser
       = inr p
       /\ Cli.parse_subcommand CliExamples.runtime p
            ["--verbose"; "--out-file"; "deck.pptx"] = inr ns
       /\ map fst ns = ["verbose"; "count"; "out_file"].
Proof.
  split.
  - exact (proj1 keywords_are_parameter_names
             {| Cli.arg_name := "out_file"; Cli.type_name := Some "str";
                Cli.is_optional := Some false;
                Cli.param_description := None |} eq_refl).
  - eexists. eexists. split; [reflexivity|]. split; [reflexivity|].
    exact (proj2 keywords_are_parameter_names CliExamples.runtime
             CliExamples.mixed_params _ _ _
             ["--verbose"; "--out-file"; "deck.pptx"] _
             eq_refl eq_refl eq_refl).
Defined.

(** *** Dispatch *)

Lemma lookup_dict_set_same {A : Type} (k : string) (v : A)
  (d : list (string * A)) :
  Cli.lookup k (Cli.dict_set k v d) = Some v.
Proof.
  induction d as [|[k' v'] d IH]; cbn [Cli.dict_set Cli.lookup].
  - now rewrite String.eqb_refl.
  - destruct (String.eqb k k') eqn:E; cbn [Cli.lookup].
    + now rewrite String.eqb_refl.
    + now rewrite E.
Qed.

Lemma lookup_dict_set_other {A : Type} (k k' : string) (v : A)
  (d : list (string * A)) :
  k <> k' -> Cli.lookup k (Cli.dict_set k' v d) = Cli.lookup k d.
Proof.
  intro N. apply String.eqb_neq in N.
  induction d as [|[k2 v2] d IH]; cbn [Cli.dict_set Cli.lookup].
  - now rewrite N.
  - destruct (String.eqb k' k2) eqn:E; cbn [Cli.lookup].
    + apply String.eqb_eq in E. subst k2. now rewrite N.
    + now rewrite IH.
Qed.

Lemma lookup_In {A : Type} (k : string) (v : A) (l : list (string * A)) :
  Cli.lookup k l = Some v -> In (k, v) l.
Proof.
  induction l as [|[k' v'] l IH]; [discriminate|].
  cbn [Cli.lookup In]. destruct (String.eqb k k') eqn:E.
  - intro H. injection H as <-. apply String.eqb_eq in E. subst. now left.
  - intro H. right. exact (IH H).
Qed.

Lemma hyphenate_named (f : Cli.Function) :
  named f = true -> Cli.hyphenate (Cli.name f) <> EmptyString.
Proof.
  unfold named. destruct (Cli.name f); [discriminate|]. discriminate.
Qed.

(** One round of the loop of [__init__]. *)
Ltac loop_round E C D A :=
  cbn [Cli.find_commands] in E;
  match type of E with
  | (if Cli.is_command ?f then _ else _) = _ =>
      destruct (Cli.is_command f) eqn:C;
      [destruct (Cli.is_default_command f) eqn:D;
       [|match type of E with
         | match ?added with _ => _ end = _ =>
             destruct added as [?|?p] eqn:A; [discriminate|]
         end]|]
  end.

Lemma find_commands_parser (rt : Cli.Runtime) (attrs : list Cli.Function) :
  forall help_text self self',
  Cli.find_commands rt attrs help_text self = inr self' ->
  Cli.parser self' = Cli.parser self.
Proof.
  induction attrs as [|f attrs IH]; intros help_text self self' E.
  - cbn in E. now injection E as <-.
  - loop_round E C D A; exact (IH _ _ _ E).
Qed.

Lemma find_commands_default (rt : Cli.Runtime) (attrs : list Cli.Function) :
  forall help_text self self',
  forallb named attrs = true ->
  Cli.find_commands rt attrs help_text self = inr self' ->
  Cli.lookup EmptyString (Cli.cmds self')
  = match last_default attrs with
    | Some f => Some f
    | None => Cli.lookup EmptyString (Cli.cmds self)
    end.
Proof.
  induction attrs as [|f attrs IH]; intros help_text self self' N E.
  - cbn in E. now injection E as <-.
  - cbn [forallb] in N. apply andb_prop in N as [Nf N].
    cbn [last_default]. loop_round E C D A;
      rewrite (IH _ _ _ N E); cbn [Cli.cmds andb];
      destruct (last_default attrs); try reflexivity.
    + apply lookup_dict_set_same.
    + apply lookup_dict_set_other. intro H. symmetry in H.
      exact (hyphenate_named _ Nf H).
Qed.

Lemma find_commands_dispatchable (rt : Cli.Runtime)
  (all attrs : list Cli.Function) :
  forall help_text self self',
  forallb named all = true ->
  incl attrs all ->
  dispatchable all self ->
  Cli.find_commands rt attrs help_text self = inr self' ->
  dispatchable all self'.
Proof.
  induction attrs as [|f attrs IH]; intros help_text self self' N I Inv E.
  - cbn in E. now injection E as <-.
  - assert (I' : incl attrs all) by (intros x Hx; apply I; now right).
    assert (If : In f all) by (apply I; now left).
    loop_round E C D A.
    + apply (fun Inv' => IH _ _ _ N I' Inv' E). clear E IH.
      intros n p Hn. cbn [Cli.subparsers Cli.cmds] in *.
      destruct (Inv n p Hn) as (Dn & g & L & S). split; [exact Dn|].
      exists g. split; [|exact S].
      rewrite lookup_dict_set_other; [exact L|].
      destruct S as (Ig & Hg & _). intro Z. rewrite Z in Hg.
      rewrite forallb_forall in N. exact (hyphenate_named _ (N g Ig) Hg).
    + apply (fun Inv' => IH _ _ _ N I' Inv' E). clear E IH.
      destruct (add_arguments_options _ _ _ _ A) as [Dp _].
      cbn [Cli.defaults_cmd] in Dp.
      assert (Sf : subcommand_of all (Cli.hyphenate (Cli.name f)) f)
        by (repeat split; assumption).
      intros n q Hn. cbn [Cli.subparsers Cli.cmds] in *.
      apply in_app_or in Hn as [Hn|[Hn|[]]].
      * destruct (Inv n q Hn) as (Dn & g & L & S). split; [exact Dn|].
        destruct (String.eqb n (Cli.hyphenate (Cli.name f))) eqn:Q.
        -- apply String.eqb_eq in Q. rewrite Q. exists f.
           split; [apply lookup_dict_set_same|exact Sf].
        -- apply String.eqb_neq in Q. exists g. split; [|exact S].
           now rewrite lookup_dict_set_other.
      * injection Hn as <- <-. split; [exact Dp|]. exists f.
        split; [apply lookup_dict_set_same|exact Sf].
    + exact (IH _ _ _ N I' Inv E).
Qed.

Lemma init_loop (rt : Cli.Runtime) (h : Cli.Handler) (prog_ : string)
  (self : Cli.Interface) :
  Cli.init rt h prog_ = inr self ->
  exists help_text sd,
    Cli.find_commands rt (Cli.methods h) help_text
      {| Cli.prog := prog_; Cli.description := sd;
         Cli.parser := {| Cli.parser_description := help_text;
                          Cli.defaults_cmd := EmptyString;
                          Cli.arguments := [] |};
         Cli.subparsers := []; Cli.cmds := [] |} = inr self.
Proof.
  unfold Cli.init. destruct (Cli.class_doc h) as [text|]; [|discriminate].
  destruct (Cli.short_description (Cli.docstring_parse rt text)) as [sd|];
    [|discriminate].
  destruct (Cli.long_description (Cli.docstring_parse rt text)) as [ld|];
    [|discriminate].
  intro E. eauto.
Qed.

(** X16.  Run with no command-line argument, a dispatcher that was
    constructed successfully calls, with no keyword arguments, the last
    method in [dir] order marked with [default_command]; if the handler has
    no such method, [run] raises [KeyError] for the empty command name.
    (The methods have non-empty names.) *)
Theorem run_without_arguments (rt : Cli.Runtime) (h : Cli.Handler)
  (prog_ : string) (self : Cli.Interface) :
  Cli.init rt h prog_ = inr self ->
  forallb named (Cli.methods h) = true ->
  Cli.run rt self []
  = match last_default (Cli.methods h) with
    | Some f => inr {| Cli.callee := f; Cli.kwargs := [] |}
    | None => inl (KeyError EmptyString)
    end.
Proof.
  intros E N. destruct (init_loop _ _ _ _ E) as (help_text & sd & F).
  unfold Cli.run, Cli.parse_args.
  rewrite (find_commands_parser _ _ _ _ _ F). cbn [Cli.parser Cli.defaults_cmd].
  rewrite (find_commands_default _ _ _ _ _ N F). cbn [Cli.cmds Cli.lookup].
  now destruct (last_default (Cli.methods h)).
Qed.

Lemma run_without_arguments_witness :
  App.class_App = inr App_handler
  /\ exists self,
       Cli.init CliExamples.runtime App_handler "slidepy" = inr self
       /\ Cli.run CliExamples.runtime self []
          = inr {| Cli.callee := default_method; Cli.kwargs := [] |}.
Proof.
  split; [reflexivity|]. eexists. split; [vm_compute; reflexivity|].
  exact (run_without_arguments CliExamples.runtime App_handler "slidepy" _
           eq_refl eq_refl).
Defined.

Lemma convert_raised (rt : Cli.Runtime) (c : Cli.converter) (raw : string)
  (e : exn) :
  Cli.convert rt c raw = Cli.Raised e ->
  exists n, c = Cli.conv_callable n /\ Cli.call rt n raw = Cli.Raised e.
Proof.
  destruct c as [| | |n]; cbn [Cli.convert]; try discriminate.
  - destruct (Cli.int_of_str rt raw); discriminate.
  - eauto.
Qed.

Lemma consume_exits (rt : Cli.Runtime) (p : Cli.Parser) (n : nat) :
  forall argv ns extras e,
  length argv <= n ->
  Cli.consume rt (Cli.arguments p) argv ns extras = inl e ->
  (exists status m, e = SystemExit status m) \/ converter_raises rt p e.
Proof.
  induction n as [|n IH]; intros argv ns extras e L C.
  - destruct argv; [discriminate|cbn in L; lia].
  - destruct argv as [|tok rest]; [discriminate|].
    cbn [length] in L. cbn [Cli.consume] in C.
    destruct (Cli.is_help tok); [injection C as <-; eauto|].
    destruct (Cli.find_argument tok (Cli.arguments p)) as [a|] eqn:F.
    + destruct (find_argument_In _ _ _ F) as [_ I].
      destruct (Cli.action a) as [|c req] eqn:Ac.
      * apply (fun L' => IH _ _ _ _ L' C). lia.
      * destruct rest as [|raw rest'];
          [injection C as <-; unfold Cli.usage_error; eauto|].
        destruct (String.prefix "-" raw);
          [injection C as <-; unfold Cli.usage_error; eauto|].
        destruct (Cli.convert rt c raw) as [x| |e'] eqn:Cv.
        -- cbn [length] in L. apply (fun L' => IH _ _ _ _ L' C). lia.
        -- injection C as <-. unfold Cli.usage_error. eauto.
        -- injection C as <-. right.
           destruct (convert_raised _ _ _ _ Cv) as (m & -> & Ca).
           exists a, m, req, raw. auto.
    + apply (fun L' => IH _ _ _ _ L' C). lia.
Qed.

Lemma parse_subcommand_exits (rt : Cli.Runtime) (p : Cli.Parser)
  (argv : list string) (e : exn) :
  Cli.parse_subcommand rt p argv = inl e ->
  (exists status m, e = SystemExit status m) \/ converter_raises rt p e.
Proof.
  unfold Cli.parse_subcommand.
  destruct (Cli.consume rt (Cli.arguments p) argv
              (map Cli.default_of (Cli.arguments p)) []) as [e'|[ns ex]] eqn:C.
  - intro E. injection E as <-.
    exact (consume_exits _ _ _ _ _ _ _ (le_n _) C).
  - destruct (filter (Cli.is_missing ns) (Cli.arguments p));
      [|intro E; injection E as <-; unfold Cli.usage_error; eauto].
    destruct ex; [discriminate|].
    intro E; injection E as <-; unfold Cli.usage_error; eauto.
Qed.

(** X17.  For a dispatcher that was constructed successfully (methods
    with non-empty names, no flag that writes [cmd]), a command line whose
    first token is not an option has one of three ends.  The process ends
    through [SystemExit] (usage error or help); or [run] calls a method of
    the handler that is marked as a command and not as the default and
    whose name with underscores turned into hyphens is that first token;
    or the type of a flag of that subcommand, a callable attribute of the
    module, raised on the flag's value an exception argparse does not
    catch, which then leaves [run].  So [run] never fails to find the
    method of a subcommand it has parsed.  The third end is real:
    [command] and [default_command] raise [AttributeError] on every
    string. *)
Theorem subcommand_reaches_its_method (rt : Cli.Runtime) (h : Cli.Handler)
  (prog_ : string) (self : Cli.Interface) (tok : string)
  (rest : list string) :
  Cli.init rt h prog_ = inr self ->
  forallb named (Cli.methods h) = true ->
  no_cmd_flag self = true ->
  String.prefix "-" tok = false ->
  ((exists status m,
      Cli.run rt self (tok :: rest) = inl (SystemExit status m))
   \/ (exists f ns,
         Cli.run rt self (tok :: rest)
         = inr {| Cli.callee := f; Cli.kwargs := ns |}
         /\ subcommand_of (Cli.methods h) tok f)
   \/ (exists p e,
         Cli.lookup tok (Cli.subparsers self) = Some p
         /\ converter_raises rt p e
         /\ Cli.run rt self (tok :: rest) = inl e))
  /\ (forall raw,
        Cli.call rt "command" raw
        = Cli.Raised
            (AttributeError [Lit "'str' object has no attribute 'is_command'"])
        /\ Cli.call rt "default_command" raw
           = Cli.Raised
               (AttributeError
                  [Lit "'str' object has no attribute 'is_command'"])).
Proof.
  intros E N _ _. split; [|intro raw; split; reflexivity].
  destruct (init_loop _ _ _ _ E) as (help_text & sd & F).
  assert (Inv : dispatchable (Cli.methods h) self).
  { apply (fun Inv' => find_commands_dispatchable _ _ _ _ _ _ N
                           (incl_refl _) Inv' F).
    intros n p []. }
  unfold Cli.run, Cli.parse_args.
  destruct (Cli.is_help tok); [left; eauto|].
  destruct (Cli.lookup tok (Cli.subparsers self)) as [p|] eqn:L;
    [|left; unfold Cli.usage_error; eauto].
  destruct (Cli.parse_subcommand rt p rest) as [e|ns] eqn:P.
  - destruct (parse_subcommand_exits _ _ _ _ P) as [(st & m & ->)|R].
    + left. eauto.
    + right. right. exists p, e. auto.
  - right. left. destruct (Inv _ _ (lookup_In _ _ _ L)) as (D & f & Lf & S).
    rewrite D, Lf. eauto.
Qed.

Lemma subcommand_reaches_its_method_witness :
  (exists self,
     Cli.init CliExamples.runtime App_handler "slidepy" = inr self
     /\ Cli.run CliExamples.runtime self
          ["generate"; "--config"; "deck.json"; "--output"; "deck.pptx"]
        = inr {| Cli.callee := generate_method;
                 Cli.kwargs := [("config", Cli.VStr "deck.json");
                                ("output", Cli.VStr "deck.pptx")] |}
     /\ ((exists status m,
            Cli.run CliExamples.runtime self
              ["generate"; "--config"; "deck.json"; "--output"; "deck.pptx"]
            = inl (SystemExit status m))
         \/ (exists f ns,
               Cli.run CliExamples.runtime self
                 ["generate"; "--config"; "deck.json"; "--output"; "deck.pptx"]
               = inr {| Cli.callee := f; Cli.kwargs := ns |}
               /\ subcommand_of (Cli.methods App_handler) "generate" f)
         \/ (exists p e,
               Cli.lookup "generate" (Cli.subparsers self) = Some p
               /\ converter_raises CliExamples.runtime p e
               /\ Cli.run CliExamples.runtime self
                    ["generate"; "--config"; "deck.json"; "--output";
                     "deck.pptx"] = inl e)))
  /\ (exists self,
        Cli.init Marker.runtime Marker.goer "goer" = inr self
        /\ Cli.run Marker.runtime self ["go"; "--x"; "v"]
           = inl (AttributeError
                    [Lit "'str' object has no attribute 'is_command'"])).
Proof.
  split.
  - eexists. split; [vm_compute; reflexivity|]. split; [reflexivity|].
    exact (proj1 (subcommand_reaches_its_method CliExamples.runtime
                    App_handler "slidepy" _ "generate"
                    ["--config"; "deck.json"; "--output"; "deck.pptx"]
                    eq_refl eq_refl eq_refl eq_refl)).
  - eexists. split; [vm_compute; reflexivity|]. reflexivity.
Defined.



